(** * PromptLab: the prompt analysis engine, embedded and verified

    A shallow embedding of [promptlab/patterns.py] and
    [promptlab/analyzer.py], followed by the properties of the engine.

    Conventions of the embedding.
    - A Python [str] is a [string]; every character is a code point below
      256, classified as Python classifies it ([str.isspace],
      [str.isalnum], [str.lower] and the [re] classes [\s], [\w], [\d]).
    - A Python [int] is a [Z]; [len] is [Z.of_nat] of the list length.
    - A Python [float] is an IEEE 754 binary64 number, held as the
      rational it stands for ([Q]).  Every arithmetic operation rounds its
      exact result to the nearest double, ties to the even significand
      ([Py.double]); [round(x, 1)] rounds the exact value of [x] to the
      nearest tenth, ties to the even tenth, and returns the double
      nearest to that tenth.  A literal that is a dyadic rational (7.0,
      0.75) is written as it is; any other (0.30) is the nearest double.
      Infinities, NaN, the sign of zero and the bounds of the exponent
      are not modelled: a [str] holds fewer than 2^63 characters, so
      every float the analyzer forms is zero or lies between 2^-8 and
      2^63 in magnitude.
    - Operations that can raise return a [result]; the only such
      operation this program uses is true division.
    - A compiled [re.Pattern] is a [regex] syntax tree with its
      [re.I] flag, run by a backtracking matcher with Python's
      priorities (leftmost alternative first, greedy repetition). *)

From Stdlib Require Import String Ascii List ZArith NArith QArith Qround Qminmax.
From Stdlib Require Import Qpower Qreduction Lia Lqa Bool.
From Stdlib Require Import DecimalString Permutation Sorted.
From Stdlib Require Floats.
Import ListNotations.

Open Scope string_scope.
Open Scope Z_scope.

(** ** Exceptions *)

Inductive exn : Type :=
| ZeroDivisionError.

Inductive result (A : Type) : Type :=
| Ok (a : A)
| Raise (e : exn).
Arguments Ok {A} a.
Arguments Raise {A} e.

Definition bind {A B : Type} (m : result A) (f : A -> result B) : result B :=
  match m with
  | Ok a => f a
  | Raise e => Raise e
  end.

Declare Scope result_scope.
Delimit Scope result_scope with result.
Notation "x <- m ;; k" := (bind m (fun x => k))
  (at level 61, m at next level, right associativity) : result_scope.
Open Scope result_scope.

(** ** Python built-ins *)

Module Py.

Definition code (c : ascii) : N := N_of_ascii c.

Definition between (lo hi n : N) : bool := ((lo <=? n) && (n <=? hi))%N.

(** [str.isspace] on one character. *)
Definition isspace (c : ascii) : bool :=
  let n := code c in
  between 9 13 n || between 28 32 n || (n =? 133)%N || (n =? 160)%N.

(** Decimal digits, the class [\d]. *)
Definition isdecimal (c : ascii) : bool := between 48 57 (code c).

(** [str.isalnum] on one character. *)
Definition isalnum (c : ascii) : bool :=
  let n := code c in
  between 48 57 n || between 65 90 n || between 97 122 n
  || (n =? 170)%N || between 178 179 n || (n =? 181)%N
  || between 185 186 n || between 188 190 n
  || between 192 214 n || between 216 246 n || between 248 255 n.

(** [str.lower] on one character. *)
Definition lower_char (c : ascii) : ascii :=
  let n := code c in
  if between 65 90 n || between 192 214 n || between 216 222 n
  then ascii_of_N (n + 32)
  else c.

Fixpoint lower (s : string) : string :=
  match s with
  | EmptyString => EmptyString
  | String c s' => String (lower_char c) (lower s')
  end.

Definition is_empty (s : string) : bool :=
  match s with
  | EmptyString => true
  | String _ _ => false
  end.

Fixpoint lstrip_by (p : ascii -> bool) (s : string) : string :=
  match s with
  | EmptyString => EmptyString
  | String c s' => if p c then lstrip_by p s' else s
  end.

Fixpoint rstrip_by (p : ascii -> bool) (s : string) : string :=
  match s with
  | EmptyString => EmptyString
  | String c s' =>
      let r := rstrip_by p s' in
      if p c && is_empty r then EmptyString else String c r
  end.

(** [s.strip()] *)
Definition strip (s : string) : string :=
  rstrip_by isspace (lstrip_by isspace s).

Fixpoint mem_char (c : ascii) (chars : string) : bool :=
  match chars with
  | EmptyString => false
  | String d rest => Ascii.eqb c d || mem_char c rest
  end.

(** [s.strip(chars)] *)
Definition strip_chars (chars : string) (s : string) : string :=
  rstrip_by (fun c => mem_char c chars) (lstrip_by (fun c => mem_char c chars) s).

Definition snoc (s : string) (c : ascii) : string := s ++ String c EmptyString.

(** [s.split()]: the maximal runs of non-whitespace characters. *)
Fixpoint split_ws (cur : string) (s : string) : list string :=
  match s with
  | EmptyString => if is_empty cur then [] else [cur]
  | String c s' =>
      if isspace c
      then (if is_empty cur then split_ws EmptyString s'
            else cur :: split_ws EmptyString s')
      else split_ws (snoc cur c) s'
  end.

Definition split (s : string) : list string := split_ws EmptyString s.

(** [s.split(sep)] for a one-character separator. *)
Fixpoint split_on (sep : ascii) (cur : string) (s : string) : list string :=
  match s with
  | EmptyString => [cur]
  | String c s' =>
      if Ascii.eqb c sep then cur :: split_on sep EmptyString s'
      else split_on sep (snoc cur c) s'
  end.

Definition split_sep (sep : ascii) (s : string) : list string :=
  split_on sep EmptyString s.

(** [sub in s] *)
Fixpoint contains (sub s : string) : bool :=
  String.prefix sub s ||
  match s with
  | EmptyString => false
  | String _ s' => contains sub s'
  end.

(** [s.count(c)] for a one-character argument. *)
Fixpoint count (c : ascii) (s : string) : Z :=
  match s with
  | EmptyString => 0
  | String d s' => (if Ascii.eqb d c then 1 else 0) + count c s'
  end.

(** [sep.join(parts)] *)
Definition join (sep : string) (parts : list string) : string :=
  String.concat sep parts.

(** [str(n)], as an f-string formats an [int]. *)
Definition str_of_int (n : Z) : string := NilZero.string_of_int (Z.to_int n).

Definition len {A : Type} (l : list A) : Z := Z.of_nat (List.length l).

(** [any(...)] and [sum(1 for ... if ...)] over a tuple. *)
Definition any {A : Type} (p : A -> bool) (l : list A) : bool := existsb p l.

Definition count_if {A : Type} (p : A -> bool) (l : list A) : Z :=
  len (filter p l).

(** Nearest integer, ties to the even one. *)
Definition round_half_even (x : Q) : Z :=
  let f := Qfloor x in
  let r := (x - inject_Z f)%Q in
  match (r ?= 1 # 2)%Q with
  | Lt => f
  | Gt => f + 1
  | Eq => if Z.even f then f else f + 1
  end.

(** Floats are the rationals that are binary64 numbers. *)

Definition pow2 (e : Z) : Q := (2 ^ e)%Q.

(** The binade of a positive rational:
    [2^(ilog2 x) <= x < 2^(ilog2 x + 1)]. *)
Definition ilog2 (x : Q) : Z :=
  let d := Z.log2 (Qnum x) - Z.log2 (Zpos (Qden x)) in
  if Qle_bool (pow2 d) x then d else d - 1.

(** The double nearest to a positive rational: its significand
    [x / 2^e], which lies between [2^52] and [2^53], is rounded to an
    integer, ties to the even one. *)
Definition nearest (x : Q) : Q :=
  let e := ilog2 x - 52 in
  Qred (inject_Z (round_half_even (x / pow2 e)) * pow2 e)%Q.

(** The double nearest to a rational: the value of a float literal, and
    the rounding every float operation ends with. *)
Definition double (x : Q) : Q :=
  match (x ?= 0)%Q with
  | Eq => 0%Q
  | Gt => nearest x
  | Lt => (- nearest (- x))%Q
  end.

(** [float(n)], as arithmetic converts an [int] operand. *)
Definition float_of_int (n : Z) : Q := double (inject_Z n).

Definition fltb (a b : Q) : bool := negb (Qle_bool b a).
Definition fgeb (a b : Q) : bool := Qle_bool b a.

(** [max(a, b)] keeps [a] unless [b] is strictly greater; [min(a, b)]
    keeps [a] unless [b] is strictly smaller. *)
Definition fmax (a b : Q) : Q := if fltb a b then b else a.
Definition fmin (a b : Q) : Q := if fltb b a then b else a.

(** [a + b], [a - b] and [a * b] on floats. *)
Definition fadd (a b : Q) : Q := double (a + b).
Definition fsub (a b : Q) : Q := double (a - b).
Definition fmul (a b : Q) : Q := double (a * b).

(** [a / b] on floats. *)
Definition fdiv (a b : Q) : result Q :=
  if Qeq_bool b 0 then Raise ZeroDivisionError else Ok (double (a / b)).

(** [a / b] on ints (true division): the double nearest to the exact
    quotient. *)
Definition truediv (a b : Z) : result Q :=
  if b =? 0 then Raise ZeroDivisionError
  else Ok (double (inject_Z a / inject_Z b)).

(** [round(x, 1)]: the exact value of [x] is rounded to a tenth, and the
    result is the double nearest to that tenth. *)
Definition round1 (x : Q) : Q :=
  double (round_half_even (x * 10) # 10).

End Py.

(** ** The [re] module: patterns and the backtracking matcher *)

Module Re.

(** One-character items. *)
Inductive atom : Type :=
| Chr (c : ascii)          (* a literal character *)
| OneOf (chars : string)   (* a set such as [.!?] *)
| Space                    (* \s *)
| Digit.                   (* \d *)

(** The pattern syntax this program uses.  Repetition is only ever
    applied to one-character items ([\s+], [\s*], [\d+], [[.!?]+]). *)
Inductive regex : Type :=
| Eps
| Atom (a : atom)
| Cat (r1 r2 : regex)
| Alt (r1 r2 : regex)
| Star (a : atom)          (* greedy a* *)
| Bol                      (* ^ *)
| Eol                      (* $ *)
| WordB.                   (* \b *)

Declare Scope regex_scope.
Delimit Scope regex_scope with regex.
Bind Scope regex_scope with regex.
Notation "r1 ;; r2" := (Cat r1 r2)
  (at level 61, right associativity) : regex_scope.
Notation "r1 || r2" := (Alt r1 r2) : regex_scope.

(** [a+] *)
Definition Plus (a : atom) : regex := Cat (Atom a) (Star a).

(** [(?:r)?], greedy: [r] is tried before the empty string. *)
Definition Opt (r : regex) : regex := Alt r Eps.

(** A literal word. *)
Fixpoint lit (s : string) : regex :=
  match s with
  | EmptyString => Eps
  | String c s' => Cat (Atom (Chr c)) (lit s')
  end.

(** [w1|w2|...] over literal words. *)
Fixpoint words (w : string) (ws : list string) : regex :=
  match ws with
  | [] => lit w
  | w' :: ws' => Alt (lit w) (words w' ws')
  end.

(** [\s+] *)
Definition sp : regex := Plus Space.

(** A compiled pattern: the syntax tree and the [re.I] flag. *)
Record Pattern : Type := compile {
  pattern : regex;
  ignorecase : bool
}.

Definition is_word (c : option ascii) : bool :=
  match c with
  | None => false
  | Some c => Py.isalnum c || Ascii.eqb c "_"
  end.

Definition head (s : string) : option ascii :=
  match s with
  | EmptyString => None
  | String c _ => Some c
  end.

Section Matcher.

Variable icase : bool.

Definition atom_ok (a : atom) (c : ascii) : bool :=
  match a with
  | Chr p =>
      if icase then Ascii.eqb (Py.lower_char c) (Py.lower_char p)
      else Ascii.eqb c p
  | OneOf chars => Py.mem_char c chars
  | Space => Py.isspace c
  | Digit => Py.isdecimal c
  end.

Context {A : Type}.

(** The continuation [k] receives the character before the current
    position ([None] at the start of the text) and the rest of the text. *)
Definition cont : Type := option ascii -> string -> option A.

(** Greedy repetition: take as many characters as possible, give one
    back at a time while the continuation fails. *)
Fixpoint star (a : atom) (k : cont) (prev : option ascii) (s : string)
  : option A :=
  match s with
  | String c s' =>
      if atom_ok a c then
        match star a k (Some c) s' with
        | Some x => Some x
        | None => k prev s
        end
      else k prev s
  | EmptyString => k prev s
  end.

Fixpoint run (r : regex) (prev : option ascii) (s : string) (k : cont)
  : option A :=
  match r with
  | Eps => k prev s
  | Atom a =>
      match s with
      | String c s' => if atom_ok a c then k (Some c) s' else None
      | EmptyString => None
      end
  | Cat r1 r2 => run r1 prev s (fun prev' s' => run r2 prev' s' k)
  | Alt r1 r2 =>
      match run r1 prev s k with
      | Some x => Some x
      | None => run r2 prev s k
      end
  | Star a => star a k prev s
  | Bol =>
      match prev with
      | None => k prev s
      | Some _ => None
      end
  | Eol =>
      match s with
      | EmptyString => k prev s
      | String c EmptyString => if Ascii.eqb c "010" then k prev s else None
      | _ => None
      end
  | WordB => if xorb (is_word prev) (is_word (head s)) then k prev s else None
  end.

End Matcher.

(** A match of [p] starting exactly here: the number of characters of
    the first match in priority order. *)
Definition match_here (p : Pattern) (prev : option ascii) (s : string)
  : option nat :=
  match run (ignorecase p) (pattern p) prev s (fun _ rest => Some rest) with
  | Some rest => Some (String.length s - String.length rest)%nat
  | None => None
  end.

(** [p.search(text)]: the text of the leftmost match, [match.group()]. *)
Fixpoint search_from (p : Pattern) (prev : option ascii) (s : string)
  : option string :=
  match match_here p prev s with
  | Some n => Some (substring 0 n s)
  | None =>
      match s with
      | String c s' => search_from p (Some c) s'
      | EmptyString => None
      end
  end.

Definition search (p : Pattern) (text : string) : option string :=
  search_from p None text.

(** [re.findall]: the successive non-overlapping matches, left to right.
    [skip] counts the characters of the last match still to be passed.
    (Callers use only how many matches there are.  No pattern of this
    program matches the empty string.) *)
Fixpoint findall_from (p : Pattern) (prev : option ascii) (s : string)
  (skip : nat) : list string :=
  match skip with
  | S k =>
      match s with
      | String c s' => findall_from p (Some c) s' k
      | EmptyString => []
      end
  | O =>
      match match_here p prev s with
      | Some n =>
          substring 0 n s ::
          match s with
          | String c s' => findall_from p (Some c) s' (n - 1)
          | EmptyString => []
          end
      | None =>
          match s with
          | String c s' => findall_from p (Some c) s' 0
          | EmptyString => []
          end
      end
  end.

Definition findall (p : Pattern) (text : string) : list string :=
  findall_from p None text 0.

(** [re.split] for a pattern without capturing groups: the pieces of
    the text between the successive matches. *)
Fixpoint split_from (p : Pattern) (prev : option ascii) (s : string)
  (cur : string) (skip : nat) : list string :=
  match skip with
  | S k =>
      match s with
      | String c s' => split_from p (Some c) s' cur k
      | EmptyString => [cur]
      end
  | O =>
      match s with
      | EmptyString => [cur]
      | String c s' =>
          match match_here p prev s with
          | Some (S n) => cur :: split_from p (Some c) s' EmptyString n
          | _ => split_from p (Some c) s' (Py.snoc cur c) 0
          end
      end
  end.

Definition split (p : Pattern) (text : string) : list string :=
  split_from p None text EmptyString 0.

End Re.

(** ** patterns.py: the anti-pattern catalog and the keyword banks *)

Module Severity.
Inductive t : Type := LOW | MEDIUM | HIGH.

Definition value (s : t) : string :=
  match s with
  | LOW => "low"
  | MEDIUM => "medium"
  | HIGH => "high"
  end.
End Severity.

Module Category.
Inductive t : Type := STRUCTURE | CLARITY | SPECIFICITY | SCOPE.

Definition value (c : t) : string :=
  match c with
  | STRUCTURE => "structure"
  | CLARITY => "clarity"
  | SPECIFICITY => "specificity"
  | SCOPE => "scope"
  end.
End Category.

Module AntiPattern.
Record t : Type := mk {
  id : string;
  name : string;
  category : Category.t;
  severity : Severity.t;
  description : string;
  suggestion : string;
  positive_signals : list Re.Pattern;
  keyword_signals : list string
}.
End AntiPattern.

Import Re.

Definition MISSING_ROLE : AntiPattern.t :=
  AntiPattern.mk
    "missing_role"
    "Missing Role / Persona"
    Category.STRUCTURE
    Severity.MEDIUM
    "The prompt does not assign a role or persona to the AI."
    ("Start with a role assignment like 'You are an experienced technical "
     ++ "writer...' to ground the AI's perspective and expertise level.")
    []
    [].

Definition MISSING_OUTPUT_FORMAT : AntiPattern.t :=
  AntiPattern.mk
    "missing_output_format"
    "No Output Format Specified"
    Category.STRUCTURE
    Severity.MEDIUM
    "The prompt does not specify what format the output should take."
    ("Specify the desired output format, e.g. 'Return the result as a "
     ++ "numbered list', 'Format as JSON', or 'Write a 3-paragraph essay'.")
    []
    [].

Definition MISSING_CONTEXT : AntiPattern.t :=
  AntiPattern.mk
    "missing_context"
    "Missing Context / Background"
    Category.STRUCTURE
    Severity.HIGH
    "The prompt lacks background information or context for the task."
    ("Add context about the audience, purpose, or background situation. "
     ++ "For example: 'I'm writing a blog for beginner Python developers...'")
    []
    [].

Definition VAGUE_LANGUAGE : AntiPattern.t :=
  AntiPattern.mk
    "vague_language"
    "Vague / Hand-wavy Language"
    Category.CLARITY
    Severity.HIGH
    "The prompt uses vague qualifiers instead of concrete instructions."
    ("Replace vague words with specific criteria. Instead of 'make it good', "
     ++ "say 'ensure the tone is professional and each paragraph has a topic sentence'.")
    [ compile (WordB ;; lit "make" ;; sp ;; lit "it" ;; sp ;;
               words "good" ["better"; "nice"; "great"; "awesome"; "perfect"] ;;
               WordB) true;
      compile (WordB ;; lit "improve" ;; sp ;; lit "this" ;; WordB) true;
      compile (WordB ;; lit "do" ;; sp ;;
               (lit "something"
                || (lit "a" ;; sp ;; lit "good" ;; sp ;; lit "job")
                || (lit "your" ;; sp ;; lit "best")) ;;
               WordB) true;
      compile (WordB ;; lit "something" ;; sp ;;
               words "about" ["on"; "related"] ;; WordB) true;
      compile (WordB ;; lit "whatever" ;; sp ;; lit "you" ;; sp ;; lit "think" ;;
               WordB) true;
      compile (WordB ;; lit "just" ;; sp ;; lit "make" ;; sp ;; lit "it" ;; sp ;;
               lit "work" ;; WordB) true ]
    [ "make it good";
      "make it better";
      "make it nice";
      "do something";
      "whatever you think";
      "you decide";
      "be creative";
      "do your best";
      "just make it work" ].

Definition AMBIGUOUS_PRONOUNS : AntiPattern.t :=
  AntiPattern.mk
    "ambiguous_pronouns"
    "Ambiguous Pronoun References"
    Category.CLARITY
    Severity.LOW
    ("The prompt uses pronouns ('it', 'this', 'that') without clear referents, "
     ++ "which can confuse the model.")
    ("Replace ambiguous pronouns with explicit nouns. Instead of "
     ++ "'Improve it and make it shorter', say 'Improve the product description "
     ++ "and reduce it to under 50 words'.")
    [ compile (Bol ;;
               words "fix" ["improve"; "change"; "update"; "rewrite"; "edit"; "modify"] ;;
               sp ;; words "it" ["this"; "that"] ;; WordB) true ]
    [].

Definition NO_CONSTRAINTS : AntiPattern.t :=
  AntiPattern.mk
    "no_constraints"
    "No Constraints or Boundaries"
    Category.SPECIFICITY
    Severity.MEDIUM
    "The prompt sets no limits on length, scope, tone, or format."
    ("Add constraints like word count, tone, audience level, or scope. "
     ++ "Example: 'Keep it under 200 words, written for a non-technical audience.'")
    []
    [].

Definition NO_EXAMPLES : AntiPattern.t :=
  AntiPattern.mk
    "no_examples"
    "No Examples Provided"
    Category.SPECIFICITY
    Severity.LOW
    ("The prompt does not include examples of desired input/output, "
     ++ "which helps the model understand expectations.")
    ("Add 1-2 examples of what good output looks like. Few-shot examples "
     ++ "dramatically improve output quality for structured tasks.")
    []
    [].

Definition MULTIPLE_REQUESTS : AntiPattern.t :=
  AntiPattern.mk
    "multiple_requests"
    "Multiple Unrelated Requests"
    Category.SCOPE
    Severity.HIGH
    ("The prompt appears to ask for several unrelated things at once, "
     ++ "which dilutes focus and quality.")
    ("Break this into separate prompts, one per task. If tasks are related, "
     ++ "use numbered steps to impose order.")
    [ compile (WordB ;;
               (lit "also"
                || lit "additionally"
                || (lit "and" ;; sp ;; lit "also")
                || (lit "on" ;; sp ;; lit "top" ;; sp ;; lit "of" ;; sp ;; lit "that")
                || (lit "by" ;; sp ;; lit "the" ;; sp ;; lit "way")
                || (lit "oh" ;; sp ;; lit "and")
                || (lit "plus" ;; sp ;; lit "also")
                || (lit "another" ;; sp ;; lit "thing")) ;;
               WordB) true ]
    [].

Definition ROLE_KEYWORDS : list string :=
  [ "you are"; "act as"; "acting as"; "your role"; "as a"; "as an";
    "pretend you"; "imagine you"; "take the role"; "persona"; "you're a";
    "you're an"; "play the role"; "behave as"; "respond as" ].

Definition OUTPUT_FORMAT_KEYWORDS : list string :=
  [ "format"; "output as"; "return as"; "respond with"; "respond in";
    "in json"; "as json"; "as a list"; "as a table"; "numbered list";
    "bullet points"; "bulleted list"; "markdown"; "csv"; "xml"; "yaml";
    "in the form of"; "paragraph"; "paragraphs"; "essay"; "report";
    "template"; "code block"; "formatted as" ].

Definition CONTEXT_SIGNALS : list string :=
  [ "background"; "context"; "for context"; "the situation is";
    "the goal is"; "the purpose is"; "i'm working on"; "i am working on";
    "the project is"; "this is for"; "the audience is"; "the target";
    "we need"; "my team"; "our company"; "my company"; "the client";
    "the customer"; "the user"; "use case" ].

Definition CONSTRAINT_KEYWORDS : list string :=
  [ "must"; "should"; "no more than"; "no less than"; "at most"; "at least";
    "limit"; "maximum"; "minimum"; "between"; "within"; "under";
    "constraint"; "requirement"; "do not"; "don't"; "avoid"; "never";
    "always"; "keep it"; "make sure"; "ensure"; "words"; "sentences";
    "tone"; "formal"; "informal"; "casual"; "professional"; "academic";
    "concise" ].

Definition EXAMPLE_KEYWORDS : list string :=
  [ "for example"; "example:"; "example of"; "e.g."; "such as";
    "like this:"; "here's an example"; "here is an example"; "sample";
    "for instance"; "input:"; "output:"; "expected:";
    "here's what i mean"; "here is what i mean" ].

Definition ALL_PATTERNS : list AntiPattern.t :=
  [ MISSING_ROLE; MISSING_OUTPUT_FORMAT; MISSING_CONTEXT; VAGUE_LANGUAGE;
    AMBIGUOUS_PRONOUNS; NO_CONSTRAINTS; NO_EXAMPLES; MULTIPLE_REQUESTS ].

(** ** analyzer.py: result data structures *)

Definition dquote : string := String "034" EmptyString.
Definition newline : ascii := "010".

Module DimensionScore.
Record t : Type := mk {
  name : string;
  score : Q;
  max_score : Q;
  details : string
}.

(** The constructor as the analyzer calls it: [max_score] keeps its
    default. *)
Definition make (name : string) (score : Q) (details : string) : t :=
  mk name score 10.0%Q details.

Definition percentage (self : t) : result Q :=
  q <- Py.fdiv (score self) (max_score self) ;;
  Ok (Py.fmul q (Py.float_of_int 100)).

Definition label_of (s : Q) : string :=
  if Py.fgeb s 8%Q then "Excellent"
  else if Py.fgeb s 6%Q then "Good"
  else if Py.fgeb s 4%Q then "Fair"
  else if Py.fgeb s 2%Q then "Weak"
  else "Poor".

Definition label (self : t) : string := label_of (score self).
End DimensionScore.

Module DetectedAntiPattern.
Record t : Type := mk {
  pattern : AntiPattern.t;
  evidence : string
}.
End DetectedAntiPattern.

(** A [dict] with string keys, read with [d.get(key, default)]. *)
Fixpoint dict_get {V : Type} (d : list (string * V)) (key : string) (default : V)
  : V :=
  match d with
  | [] => default
  | (k, v) :: d' => if String.eqb k key then v else dict_get d' key default
  end.

Module AnalysisResult.
Record t : Type := mk {
  prompt : string;
  dimensions : list DimensionScore.t;
  anti_patterns : list DetectedAntiPattern.t;
  suggestions : list string;
  word_count : Z;
  sentence_count : Z
}.

Definition weights : list (string * Q) :=
  [ ("Clarity", Py.double 0.30); ("Structure", Py.double 0.25);
    ("Specificity", Py.double 0.25); ("Length", Py.double 0.20) ].

(** One turn of the loop of [overall_score] on the pair
    [(weighted_sum, total_weight)]. *)
Definition accumulate (acc : Q * Q) (dim : DimensionScore.t)
  : Q * Q :=
  let w := dict_get weights (DimensionScore.name dim) (Py.double 0.25) in
  (Py.fadd (fst acc) (Py.fmul (DimensionScore.score dim) w),
   Py.fadd (snd acc) w).

Definition overall_score (self : t) : result Q :=
  match dimensions self with
  | [] => Ok 0.0%Q
  | _ =>
      let '(weighted_sum, total_weight) :=
        fold_left accumulate (dimensions self) (0.0%Q, 0.0%Q) in
      if Qeq_bool total_weight 0 then Ok 0.0%Q
      else
        q <- Py.fdiv weighted_sum total_weight ;;
        Ok (Py.round1 q)
  end.

Definition overall_label (self : t) : result string :=
  s <- overall_score self ;;
  Ok (DimensionScore.label_of s).
End AnalysisResult.

(** ** analyzer.py: helper utilities *)

Definition is_some {A : Type} (o : option A) : bool :=
  match o with
  | Some _ => true
  | None => false
  end.

Definition _count_words (text : string) : Z := Py.len (Py.split text).

(** [[.!?]+(?:\s|$)] *)
Definition sentence_end : Pattern :=
  compile (Plus (OneOf ".!?") ;; (Atom Space || Eol)) false.

Definition nonblank (s : string) : bool := negb (Py.is_empty (Py.strip s)).

Definition _count_sentences (text : string) : Z :=
  let parts := Re.split sentence_end (Py.strip text) in
  Z.max 1 (Py.count_if nonblank parts).

Definition _has_any_keyword (text_lower : string) (keywords : list string)
  : bool :=
  Py.any (fun kw => Py.contains kw text_lower) keywords.

Definition _count_keyword_hits (text_lower : string) (keywords : list string)
  : Z :=
  Py.count_if (fun kw => Py.contains kw text_lower) keywords.

Definition verb_pattern : regex :=
  words "write"
    [ "create"; "generate"; "build"; "make"; "list"; "explain"; "describe";
      "summarize"; "translate"; "convert"; "fix"; "improve"; "update";
      "edit"; "rewrite"; "help"; "tell"; "give"; "design"; "develop";
      "analyze"; "compare"; "review" ].

(** The clause boundary: [^], or [[.!?]\s+], or a newline and [\s*]. *)
Definition clause_boundary : regex :=
  Bol || (Atom (OneOf ".!?") ;; sp) || (Atom (Chr newline) ;; Star Space).

(** [(?:(?:and\s+)?(?:also\s+|can\s+you\s+(?:also\s+)?)?)?] *)
Definition transition : regex :=
  Opt (Opt (lit "and" ;; sp) ;;
       Opt ((lit "also" ;; sp)
            || (lit "can" ;; sp ;; lit "you" ;; sp ;; Opt (lit "also" ;; sp)))).

Definition task_starter : Pattern :=
  compile (clause_boundary ;; transition ;; verb_pattern ;; WordB) true.

Definition _count_distinct_tasks (text : string) : Z :=
  let task_starters := Re.findall task_starter text in
  let questions := Py.count "?"%char text in
  Py.len task_starters + questions.

(** [\b\d+\b] *)
Definition number_token : Pattern :=
  compile (WordB ;; Plus Digit ;; WordB) false.

(** ** analyzer.py: scoring functions *)

(** [l.append(x)] *)
Definition append {A : Type} (l : list A) (x : A) : list A := (l ++ [x])%list.

Definition matches (text : string) (p : Pattern) : bool :=
  is_some (Re.search p text).

Definition _score_clarity (text text_lower : string) : DimensionScore.t :=
  let score := 7.0%Q in
  let details_parts : list string := [] in
  (* vague language *)
  let vague_hits :=
    Py.count_if (matches text) (AntiPattern.positive_signals VAGUE_LANGUAGE)
    + Py.count_if (fun kw => Py.contains kw text_lower)
        (AntiPattern.keyword_signals VAGUE_LANGUAGE) in
  let '(score, details_parts) :=
    if vague_hits >=? 3 then
      (Py.fsub score 4.0, append details_parts "Multiple vague phrases detected")
    else if vague_hits >=? 1 then
      (Py.fsub score (Py.fmul 2.0 (Py.float_of_int vague_hits)),
       append details_parts (Py.str_of_int vague_hits ++ " vague phrase(s) detected"))
    else (score, details_parts) in
  (* very short prompts *)
  let word_count := _count_words text in
  let '(score, details_parts) :=
    if word_count <? 5 then
      (Py.fsub score 3.0,
       append details_parts "Extremely short -- likely too ambiguous")
    else if word_count <? 10 then
      (Py.fsub score 1.5, append details_parts "Very short -- may lack clarity")
    else (score, details_parts) in
  (* numeric specifics *)
  let numbers := Py.len (Re.findall number_token text) in
  let '(score, details_parts) :=
    if numbers >=? 2 then
      (Py.fadd score 1.0, append details_parts "Contains numeric specifics")
    else (score, details_parts) in
  (* ambiguous pronoun start: the first matching signal ends the loop *)
  let '(score, details_parts) :=
    if Py.any (matches text) (AntiPattern.positive_signals AMBIGUOUS_PRONOUNS)
    then
      (Py.fsub score 1.5,
       append details_parts "Starts with an ambiguous pronoun reference")
    else (score, details_parts) in
  let score := Py.fmax 1.0%Q (Py.fmin 10.0%Q score) in
  DimensionScore.make "Clarity" (Py.round1 score)
    (match details_parts with
     | [] => "Clear and specific"
     | _ => Py.join "; " details_parts
     end).

(** The task verbs of the structure score, [\b(write|...|calculate)\b]. *)
Definition structure_task_verb : Pattern :=
  compile
    (WordB ;;
     words "write"
       [ "create"; "generate"; "build"; "make"; "list"; "explain";
         "describe"; "summarize"; "translate"; "convert"; "fix"; "improve";
         "update"; "edit"; "rewrite"; "analyze"; "compare"; "design";
         "develop"; "review"; "draft"; "compose"; "produce"; "outline";
         "calculate" ] ;;
     WordB)
    false.

Definition _score_structure (text text_lower : string) : DimensionScore.t :=
  let score := 0.0%Q in
  let present : list string := [] in
  let missing : list string := [] in
  (* role / persona *)
  let '(score, present, missing) :=
    if _has_any_keyword text_lower ROLE_KEYWORDS
    then (Py.fadd score 2.5, append present "role", missing)
    else (score, present, append missing "role/persona") in
  (* context *)
  let '(score, present, missing) :=
    if _has_any_keyword text_lower CONTEXT_SIGNALS
    then (Py.fadd score 2.5, append present "context", missing)
    else (score, present, append missing "context/background") in
  (* clear task *)
  let task_verbs := Re.findall structure_task_verb text_lower in
  let '(score, present, missing) :=
    match task_verbs with
    | _ :: _ => (Py.fadd score 2.5, append present "task", missing)
    | [] => (score, present, append missing "clear task verb")
    end in
  (* output format *)
  let '(score, present, missing) :=
    if _has_any_keyword text_lower OUTPUT_FORMAT_KEYWORDS
    then (Py.fadd score 2.5, append present "output format", missing)
    else (score, present, append missing "output format") in
  let score := Py.fmax 1.0%Q (Py.fmin 10.0%Q score) in
  let detail_str := "" in
  let detail_str :=
    match present with
    | _ :: _ => detail_str ++ "Has: " ++ Py.join ", " present
    | [] => detail_str
    end in
  let detail_str :=
    match missing with
    | _ :: _ => detail_str ++ ". Missing: " ++ Py.join ", " missing
    | [] => detail_str
    end in
  DimensionScore.make "Structure" (Py.round1 score)
    (Py.strip_chars ". " detail_str).

Definition _score_specificity (text text_lower : string) : DimensionScore.t :=
  let score := 2.0%Q in
  let details_parts : list string := [] in
  (* constraints *)
  let constraint_hits := _count_keyword_hits text_lower CONSTRAINT_KEYWORDS in
  let '(score, details_parts) :=
    if constraint_hits >=? 5 then
      (Py.fadd score 3.0, append details_parts "Strong constraints present")
    else if constraint_hits >=? 2 then
      (Py.fadd score 2.0, append details_parts "Some constraints present")
    else if constraint_hits >=? 1 then
      (Py.fadd score 1.0, append details_parts "Minimal constraints")
    else (score, append details_parts "No constraints detected") in
  (* examples *)
  let '(score, details_parts) :=
    if _has_any_keyword text_lower EXAMPLE_KEYWORDS
    then (Py.fadd score 2.5, append details_parts "Includes examples")
    else (score, append details_parts "No examples provided") in
  (* quantitative specifics *)
  let numbers := Py.len (Re.findall number_token text) in
  let '(score, details_parts) :=
    if numbers >=? 3 then
      (Py.fadd score 1.5, append details_parts "Multiple numeric details")
    else if numbers >=? 1 then (Py.fadd score 0.75, details_parts)
    else (score, details_parts) in
  (* multi-line input *)
  let lines := filter nonblank (Py.split_sep newline (Py.strip text)) in
  let '(score, details_parts) :=
    if Py.len lines >=? 5 then
      (Py.fadd score 1.0, append details_parts "Well-structured multi-line prompt")
    else (score, details_parts) in
  let score := Py.fmax 1.0%Q (Py.fmin 10.0%Q score) in
  DimensionScore.make "Specificity" (Py.round1 score)
    (Py.join "; " details_parts).

Definition _score_length (text : string) : result DimensionScore.t :=
  let word_count := _count_words text in
  let wc := Py.str_of_int word_count in
  sd <-
    (if word_count <? 5 then
       Ok (2.0%Q, wc ++ " words -- too short to convey a meaningful task")
     else if word_count <? 10 then
       Ok (4.0%Q, wc ++ " words -- quite short, likely missing details")
     else if word_count <? 20 then
       Ok (6.0%Q, wc ++ " words -- on the short side")
     else if word_count <=? 300 then
       ramp <- Py.truediv (word_count - 20) 140 ;;
       Ok (Py.fadd 8.0 (Py.fmin 2.0 ramp), wc ++ " words -- good length")
     else if word_count <=? 500 then
       Ok (7.0%Q, wc ++ " words -- on the long side, consider trimming")
     else
       let overshoot := word_count - 500 in
       decay <- Py.truediv overshoot 200 ;;
       Ok (Py.fmax 3.0%Q (Py.fsub 7.0 decay),
           wc ++ " words -- quite long, risk of losing focus")) ;;
  Ok (DimensionScore.make "Length" (Py.round1 (Py.fmin 10.0%Q (fst sd))) (snd sd)).

(** ** analyzer.py: anti-pattern detection *)

(** The loop over [ap.positive_signals]: the first pattern that matches
    sets the evidence and breaks. *)
Fixpoint first_signal (text : string) (signals : list Pattern) : option string :=
  match signals with
  | [] => None
  | p :: rest =>
      match Re.search p text with
      | Some m => Some ("Matched: " ++ dquote ++ m ++ dquote)
      | None => first_signal text rest
      end
  end.

(** The loop over [ap.keyword_signals], likewise. *)
Fixpoint first_keyword (text_lower : string) (keywords : list string)
  : option string :=
  match keywords with
  | [] => None
  | kw :: rest =>
      if Py.contains kw text_lower
      then Some ("Contains: " ++ dquote ++ kw ++ dquote)
      else first_keyword text_lower rest
  end.

(** The body of the loop of [_detect_anti_patterns] for one catalog
    entry: [Some evidence] when [found] is set. *)
Definition check_pattern (text text_lower : string) (ap : AntiPattern.t)
  : option string :=
  let id := AntiPattern.id ap in
  if (id =? "missing_role")%string then
    if negb (_has_any_keyword text_lower ROLE_KEYWORDS)
    then Some "No role or persona assignment found" else None
  else if (id =? "missing_output_format")%string then
    if negb (_has_any_keyword text_lower OUTPUT_FORMAT_KEYWORDS)
    then Some "No output format specification found" else None
  else if (id =? "missing_context")%string then
    if negb (_has_any_keyword text_lower CONTEXT_SIGNALS)
    then Some "No contextual background found" else None
  else if (id =? "no_constraints")%string then
    if _count_keyword_hits text_lower CONSTRAINT_KEYWORDS =? 0
    then Some "No constraint or boundary keywords found" else None
  else if (id =? "no_examples")%string then
    if negb (_has_any_keyword text_lower EXAMPLE_KEYWORDS)
    then Some "No example or sample output found" else None
  else if (id =? "multiple_requests")%string then
    let distinct := _count_distinct_tasks text in
    if distinct >=? 3
    then Some ("Detected ~" ++ Py.str_of_int distinct ++ " distinct tasks/requests")
    else None
  else
    match first_signal text (AntiPattern.positive_signals ap) with
    | Some evidence => Some evidence
    | None => first_keyword text_lower (AntiPattern.keyword_signals ap)
    end.

Definition detect_step (text text_lower : string)
  (detected : list DetectedAntiPattern.t) (ap : AntiPattern.t)
  : list DetectedAntiPattern.t :=
  match check_pattern text text_lower ap with
  | Some evidence => append detected (DetectedAntiPattern.mk ap evidence)
  | None => detected
  end.

Definition detect_in (catalog : list AntiPattern.t) (text text_lower : string)
  : list DetectedAntiPattern.t :=
  fold_left (detect_step text text_lower) catalog [].

Definition _detect_anti_patterns (text text_lower : string)
  : list DetectedAntiPattern.t :=
  detect_in ALL_PATTERNS text text_lower.

(** ** analyzer.py: suggestion generation *)

Definition severity_order : list (string * Z) :=
  [ ("high", 0); ("medium", 1); ("low", 2) ].

Definition severity_key (d : DetectedAntiPattern.t) : Z :=
  dict_get severity_order
    (Severity.value (AntiPattern.severity (DetectedAntiPattern.pattern d))) 3.

(** [sorted(l, key=key)]: Python's sort is stable, so its result is the
    one of this stable insertion sort. *)
Fixpoint insert_by {A : Type} (key : A -> Z) (x : A) (l : list A) : list A :=
  match l with
  | [] => [x]
  | y :: l' => if key x <=? key y then x :: l else y :: insert_by key x l'
  end.

Fixpoint sorted {A : Type} (key : A -> Z) (l : list A) : list A :=
  match l with
  | [] => []
  | x :: l' => insert_by key x (sorted key l')
  end.

Definition mem_str (s : string) (set : list string) : bool :=
  existsb (String.eqb s) set.

(** One turn of the loop over [sorted_patterns] on the pair
    [(suggestions, seen_ids)]. *)
Definition suggest_step (acc : list string * list string)
  (det : DetectedAntiPattern.t) : list string * list string :=
  let '(suggestions, seen_ids) := acc in
  let id := AntiPattern.id (DetectedAntiPattern.pattern det) in
  if negb (mem_str id seen_ids)
  then (append suggestions (AntiPattern.suggestion (DetectedAntiPattern.pattern det)),
        id :: seen_ids)
  else (suggestions, seen_ids).

Definition encouragement : string :=
  "This is already a strong prompt. Consider adding edge-case "
  ++ "handling or examples for even better results.".

Definition _generate_suggestions (dimensions : list DimensionScore.t)
  (anti_patterns : list DetectedAntiPattern.t) : list string :=
  let sorted_patterns := sorted severity_key anti_patterns in
  let '(suggestions, seen_ids) :=
    fold_left suggest_step sorted_patterns ([], []) in
  let low_dims :=
    filter (fun d => Py.fltb (DimensionScore.score d) 6.0%Q) dimensions in
  match low_dims, suggestions with
  | [], [] => append suggestions encouragement
  | _, _ => suggestions
  end.

(** ** analyzer.py: the public entry point *)

Definition analyze (prompt : string) : result AnalysisResult.t :=
  let text := Py.strip prompt in
  if Py.is_empty text then
    Ok (AnalysisResult.mk
          prompt
          [ DimensionScore.make "Clarity" 1.0%Q "Empty prompt";
            DimensionScore.make "Structure" 1.0%Q "Empty prompt";
            DimensionScore.make "Specificity" 1.0%Q "Empty prompt";
            DimensionScore.make "Length" 1.0%Q "0 words" ]
          []
          [ "Provide a non-empty prompt to analyze." ]
          0
          0)
  else
    let text_lower := Py.lower text in
    let clarity := _score_clarity text text_lower in
    let structure := _score_structure text text_lower in
    let specificity := _score_specificity text text_lower in
    length <- _score_length text ;;
    let dimensions := [ clarity; structure; specificity; length ] in
    let anti_patterns := _detect_anti_patterns text text_lower in
    let suggestions := _generate_suggestions dimensions anti_patterns in
    Ok (AnalysisResult.mk
          text
          dimensions
          anti_patterns
          suggestions
          (_count_words text)
          (_count_sentences text)).

(** * Specification

    The notions the statements below are written with. *)

(** The result of [analyze] on a prompt that is blank after trimming. *)
Definition empty_result (prompt : string) : AnalysisResult.t :=
  AnalysisResult.mk prompt
    [ DimensionScore.make "Clarity" 1.0%Q "Empty prompt";
      DimensionScore.make "Structure" 1.0%Q "Empty prompt";
      DimensionScore.make "Specificity" 1.0%Q "Empty prompt";
      DimensionScore.make "Length" 1.0%Q "0 words" ]
    [] [ "Provide a non-empty prompt to analyze." ] 0 0.

(** The result of [analyze] on a trimmed, non-blank [text], given its
    length score. *)
Definition full_result (text : string) (length : DimensionScore.t)
  : AnalysisResult.t :=
  let text_lower := Py.lower text in
  let dimensions :=
    [ _score_clarity text text_lower; _score_structure text text_lower;
      _score_specificity text text_lower; length ] in
  let anti_patterns := _detect_anti_patterns text text_lower in
  AnalysisResult.mk text dimensions anti_patterns
    (_generate_suggestions dimensions anti_patterns)
    (_count_words text) (_count_sentences text).

(** The branch value of [_score_length] before the final [min] and
    [round]. *)
Definition length_raw (w : Z) : Q :=
  if w <? 5 then 2.0%Q
  else if w <? 10 then 4.0%Q
  else if w <? 20 then 6.0%Q
  else if w <=? 300 then
    Py.fadd 8.0 (Py.fmin 2.0 (Py.double (inject_Z (w - 20) / inject_Z 140)))
  else if w <=? 500 then 7.0%Q
  else
    Py.fmax 3.0 (Py.fsub 7.0 (Py.double (inject_Z (w - 500) / inject_Z 200))).

(** Rounding to one decimal in the arithmetic [fl]: the nearest tenth,
    ties to the even one, read in that arithmetic. *)
Definition to_tenth (fl : Q -> Q) (x : Q) : Q :=
  fl (Py.round_half_even (x * 10) # 10)%Q.

(** The Length score in the words of the specification: only the ramp
    between 20 and 300 words is rounded.  [fl] is the arithmetic the
    formula is read in: exact when it is the identity, double precision
    when it is [Py.double]. *)
Definition length_score_stated (fl : Q -> Q) (w : Z) : Q :=
  if w <? 5 then 2.0%Q
  else if w <? 10 then 4.0%Q
  else if w <? 20 then 6.0%Q
  else if w <=? 300 then
    to_tenth fl (fl (8.0 + Qmin 2.0 (fl ((inject_Z w - 20) / 140)%Q))%Q)
  else if w <=? 500 then 7.0%Q
  else Qmax 3.0 (fl (7.0 - fl ((inject_Z w - 500) / 200)%Q)%Q).

(** The same in double precision, with the decay above 500 words rounded
    to one decimal as well. *)
Definition length_score_rounded (w : Z) : Q :=
  if w <? 5 then 2.0%Q
  else if w <? 10 then 4.0%Q
  else if w <? 20 then 6.0%Q
  else if w <=? 300 then
    Py.round1 (Py.fadd 8.0 (Qmin 2.0 (Py.double ((inject_Z w - 20) / 140))))
  else if w <=? 500 then 7.0%Q
  else
    Py.round1 (Qmax 3.0 (Py.fsub 7.0 (Py.double ((inject_Z w - 500) / 200)))).

(** The piecewise formula of the Length score in exact arithmetic,
    before any rounding. *)
Definition length_exact (w : Z) : Q :=
  if w <? 5 then 2.0%Q
  else if w <? 10 then 4.0%Q
  else if w <? 20 then 6.0%Q
  else if w <=? 300 then (8.0 + Qmin 2.0 ((inject_Z w - 20) / 140))%Q
  else if w <=? 500 then 7.0%Q
  else Qmax 3.0 (7.0 - (inject_Z w - 500) / 200)%Q.

(** A trimmed text of [n + 1] one-letter words. *)
Fixpoint many_words (n : nat) : string :=
  match n with
  | O => "a"
  | S n' => "a " ++ many_words n'
  end.

(** Weighted mean of named scores. *)
Definition name_score (d : DimensionScore.t) : string * Q :=
  (DimensionScore.name d, DimensionScore.score d).

Definition standard_dimensions (c s sp l : Q) : list (string * Q) :=
  [ ("Clarity", c); ("Structure", s); ("Specificity", sp); ("Length", l) ].

(** The weighted mean of the specification in exact arithmetic. *)
Definition exact_mean (c s sp l : Q) : Q :=
  (0.30 * c + 0.25 * s + 0.25 * sp + 0.20 * l)%Q.

(** The same formula in double precision, its products and sums taken
    from left to right. *)
Definition weighted_mean (c s sp l : Q) : Q :=
  Py.fadd
    (Py.fadd
       (Py.fadd (Py.fmul (Py.double 0.30) c) (Py.fmul (Py.double 0.25) s))
       (Py.fmul (Py.double 0.25) sp))
    (Py.fmul (Py.double 0.20) l).

(** The documented range of a score. *)
Definition in_range (q : Q) : Prop := (1 <= q <= 10)%Q.

(** A rational that is a double: rounding leaves it as it is. *)
Definition is_double (c : Q) : Prop := (Py.double c == c)%Q.

(** The relative error of one rounding, [2^-53]. *)
Definition ulp_half : Q := 1 # 9007199254740992.

(** The error allowed to a few roundings of numbers below 16. *)
Definition float_error : Q := 1 # 1000000000000.

Definition is_low (d : DimensionScore.t) : bool :=
  Py.fltb (DimensionScore.score d) 6.0%Q.

(** Detected anti-patterns. *)
Definition pattern_id (d : DetectedAntiPattern.t) : string :=
  AntiPattern.id (DetectedAntiPattern.pattern d).

Definition pattern_suggestion (d : DetectedAntiPattern.t) : string :=
  AntiPattern.suggestion (DetectedAntiPattern.pattern d).

Definition other_id (d e : DetectedAntiPattern.t) : bool :=
  negb (pattern_id e =? pattern_id d)%string.

Definition unseen (seen : list string) (d : DetectedAntiPattern.t) : bool :=
  negb (mem_str (pattern_id d) seen).

(** The first detection of every pattern id, in list order. *)
Fixpoint first_by_id (l : list DetectedAntiPattern.t)
  : list DetectedAntiPattern.t :=
  match l with
  | [] => []
  | d :: l' => d :: filter (other_id d) (first_by_id l')
  end.

Definition key_le {A : Type} (key : A -> Z) (a b : A) : Prop :=
  key a <= key b.

Definition detect_one (text text_lower : string) (ap : AntiPattern.t)
  : list DetectedAntiPattern.t :=
  match check_pattern text text_lower ap with
  | Some evidence => [DetectedAntiPattern.mk ap evidence]
  | None => []
  end.

(** The forms an evidence string takes. *)
Inductive evidence_form (text : string) : string -> Prop :=
| ev_fixed (msg : string) :
    In msg [ "No role or persona assignment found";
             "No output format specification found";
             "No contextual background found";
             "No constraint or boundary keywords found";
             "No example or sample output found" ] ->
    evidence_form text msg
| ev_count :
    evidence_form text
      ("Detected ~" ++ Py.str_of_int (_count_distinct_tasks text)
       ++ " distinct tasks/requests")
| ev_matched (m : string) :
    evidence_form text ("Matched: " ++ dquote ++ m ++ dquote)
| ev_contains (kw : string) :
    evidence_form text ("Contains: " ++ dquote ++ kw ++ dquote).

(** ** Fixtures of the test suite *)

Definition nl : string := String newline EmptyString.

Definition BAD_PROMPT : string := "Write me something about dogs".

Definition VAGUE_PROMPT : string :=
  "Make it good. Improve this. Do something about the thing.".

Definition MULTI_TASK_PROMPT : string :=
  "Write me a poem about cats. Also help me fix my Python code. "
  ++ "And can you also create a business plan for a coffee shop?".

Definition GOOD_PROMPT : string :=
  "You are a veterinary nutritionist writing for a pet owner blog. "
  ++ "Write a 300-word article explaining why grain-free diets may not be "
  ++ "suitable for all dog breeds." ++ nl ++ nl
  ++ "Target audience: First-time dog owners with no veterinary background."
  ++ nl ++ nl
  ++ "Requirements:" ++ nl
  ++ "- Use a warm, reassuring tone" ++ nl
  ++ "- Include at least 2 specific breed examples" ++ nl
  ++ "- Cite the FDA's 2019 investigation into grain-free diets and DCM" ++ nl
  ++ "- End with 3 actionable takeaways in a bulleted list" ++ nl
  ++ "- Do not recommend specific commercial brands" ++ nl ++ nl
  ++ "Example of the tone I want:" ++ nl
  ++ dquote
  ++ "Choosing the right food for your new furry family member can feel "
  ++ "overwhelming, but understanding a few basics can make all the difference."
  ++ dquote.

Definition MEDIUM_PROMPT : string :=
  "Write a blog post about the benefits of remote work. "
  ++ "Keep it under 500 words and use a professional tone.".

(** What the tests read off a result. *)
Definition ids_of (r : result AnalysisResult.t) : list string :=
  match r with
  | Ok a =>
      map (fun d => AntiPattern.id (DetectedAntiPattern.pattern d))
        (AnalysisResult.anti_patterns a)
  | Raise _ => []
  end.

Definition scores_of (r : result AnalysisResult.t) : list (string * Q) :=
  match r with
  | Ok a =>
      map (fun d => (DimensionScore.name d, DimensionScore.score d))
        (AnalysisResult.dimensions a)
  | Raise _ => []
  end.

(** [score == expected], where [expected] is a float literal. *)
Fixpoint same_scores (l expected : list (string * Q)) : bool :=
  match l, expected with
  | [], [] => true
  | (n, q) :: l', (n', q') :: e' =>
      (n =? n')%string && Qeq_bool q (Py.double q') && same_scores l' e'
  | _, _ => false
  end.

Definition overall_is (r : result AnalysisResult.t) (expected : Q) : bool :=
  match r with
  | Ok a =>
      match AnalysisResult.overall_score a with
      | Ok q => Qeq_bool q (Py.double expected)
      | Raise _ => false
      end
  | Raise _ => false
  end.

(** The same four dimensions in the order [analyze] builds them, and
    with the last two exchanged. *)
Definition dimensions_in_order : list DimensionScore.t :=
  [ DimensionScore.make "Clarity" 2.0%Q ""; DimensionScore.make "Structure" 1.0%Q "";
    DimensionScore.make "Specificity" 2.0%Q ""; DimensionScore.make "Length" 4.0%Q "" ].

Definition dimensions_exchanged : list DimensionScore.t :=
  [ DimensionScore.make "Clarity" 2.0%Q ""; DimensionScore.make "Structure" 1.0%Q "";
    DimensionScore.make "Length" 4.0%Q ""; DimensionScore.make "Specificity" 2.0%Q "" ].

Definition result_of (dimensions : list DimensionScore.t) : AnalysisResult.t :=
  AnalysisResult.mk "p" dimensions [] [] 7 1.

(** ** The machine's binary64 arithmetic

    The expressions of the scorers written with Rocq's primitive floats,
    which the kernel evaluates with the IEEE 754 binary64 operations of
    the machine.  The tests below compare them with the embedding. *)

Module Binary64.

Definition of_int (n : Z) : PrimFloat.float :=
  PrimFloat.of_uint63 (Uint63.of_Z n).

(** The rational a finite float stands for. *)
Definition to_Q (f : PrimFloat.float) : option Q :=
  match FloatOps.Prim2SF f with
  | SpecFloat.S754_zero _ => Some 0%Q
  | SpecFloat.S754_finite s m e =>
      Some (Qred ((if s then -1 else 1) * inject_Z (Zpos m) * Py.pow2 e))%Q
  | _ => None
  end.

Definition agrees (f : PrimFloat.float) (q : Q) : bool :=
  match to_Q f with
  | Some q' => Qeq_bool q' q
  | None => false
  end.

Definition min (a b : PrimFloat.float) : PrimFloat.float :=
  if PrimFloat.ltb b a then b else a.

Definition max (a b : PrimFloat.float) : PrimFloat.float :=
  if PrimFloat.ltb a b then b else a.

(** [k / 10], the float of the decimal literal with one decimal. *)
Definition tenth (k : Z) : PrimFloat.float :=
  PrimFloat.div (of_int k) (of_int 10).

(** [8.0 + min(2.0, (word_count - 20) / 140)] *)
Definition ramp (word_count : Z) : PrimFloat.float :=
  PrimFloat.add (of_int 8)
    (min (of_int 2) (PrimFloat.div (of_int (word_count - 20)) (of_int 140))).

(** [max(3.0, 7.0 - (overshoot / 200))] *)
Definition decay (word_count : Z) : PrimFloat.float :=
  let overshoot := word_count - 500 in
  max (of_int 3)
    (PrimFloat.sub (of_int 7) (PrimFloat.div (of_int overshoot) (of_int 200))).

(** The loop of [overall_score] on four scores given in tenths, with the
    weights 0.30, 0.25, 0.25 and 0.20, and its final division. *)
Definition mean (c s sp l : Z) : PrimFloat.float :=
  let w30 := PrimFloat.div (of_int 30) (of_int 100) in
  let w25 := PrimFloat.div (of_int 25) (of_int 100) in
  let w20 := PrimFloat.div (of_int 20) (of_int 100) in
  let zero := of_int 0 in
  let weighted_sum :=
    PrimFloat.add
      (PrimFloat.add
         (PrimFloat.add
            (PrimFloat.add zero (PrimFloat.mul (tenth c) w30))
            (PrimFloat.mul (tenth s) w25))
         (PrimFloat.mul (tenth sp) w25))
      (PrimFloat.mul (tenth l) w20) in
  let total_weight :=
    PrimFloat.add
      (PrimFloat.add (PrimFloat.add (PrimFloat.add zero w30) w25) w25) w20 in
  PrimFloat.div weighted_sum total_weight.

End Binary64.

(** The integers from [lo], [n] of them. *)
Fixpoint range (lo : Z) (n : nat) : list Z :=
  match n with
  | O => []
  | S n' => lo :: range (lo + 1) n'
  end.

(** The weighted sum and its division as [overall_score] computes them
    on four scores given in tenths. *)
Definition mean_of_tenths (c s sp l : Z) : Q :=
  let score (k : Z) := Py.double (k # 10) in
  let acc :=
    fold_left AnalysisResult.accumulate
      [ DimensionScore.make "Clarity" (score c) "";
        DimensionScore.make "Structure" (score s) "";
        DimensionScore.make "Specificity" (score sp) "";
        DimensionScore.make "Length" (score l) "" ]
      (0.0%Q, 0.0%Q) in
  match Py.fdiv (fst acc) (snd acc) with
  | Ok q => q
  | Raise _ => 0
  end.

Definition SCORE_SAMPLE : list Z := [10; 20; 28; 55; 58; 81; 100].

(** ** Clause-starting task verbs, in the words of the specification *)

Fixpoint all (p : ascii -> bool) (s : string) : bool :=
  match s with
  | EmptyString => true
  | String c s' => p c && all p s'
  end.

(** A non-empty run of whitespace. *)
Definition spaces (ws : string) : Prop :=
  ws <> "" /\ all Py.isspace ws = true.

(** A clause boundary: the start of the text, sentence-ending punctuation
    followed by whitespace, or a newline (with the whitespace after it). *)
Inductive boundary (at_start : bool) : string -> Prop :=
| boundary_start : at_start = true -> boundary at_start ""
| boundary_punct p ws :
    Py.mem_char p ".!?" = true -> spaces ws -> boundary at_start (String p ws)
| boundary_newline ws :
    all Py.isspace ws = true -> boundary at_start (String newline ws).

(** The given words in order, in any letter case, each followed by
    whitespace. *)
Inductive phrase : list string -> string -> Prop :=
| phrase_nil : phrase [] ""
| phrase_cons w ws m sp x :
    Py.lower m = w -> spaces sp -> phrase ws x ->
    phrase (w :: ws) (m ++ sp ++ x).

(** The optional transition phrases. *)
Definition TRANSITIONS : list (list string) :=
  [ []; ["and"]; ["also"]; ["can"; "you"]; ["can"; "you"; "also"];
    ["and"; "also"]; ["and"; "can"; "you"]; ["and"; "can"; "you"; "also"] ].

Definition transition_phrase (t : string) : Prop :=
  exists ws, In ws TRANSITIONS /\ phrase ws t.

Definition TASK_VERBS : list string :=
  [ "write"; "create"; "generate"; "build"; "make"; "list"; "explain";
    "describe"; "summarize"; "translate"; "convert"; "fix"; "improve";
    "update"; "edit"; "rewrite"; "help"; "tell"; "give"; "design";
    "develop"; "analyze"; "compare"; "review" ].

Definition task_verb (v : string) : Prop := In (Py.lower v) TASK_VERBS.

(** A clause boundary [b], an optional transition [t], a task verb [v],
    and no word character at the head of what follows. *)
Definition starts_task (at_start : bool) (b t v post : string) : Prop :=
  boundary at_start b /\ transition_phrase t /\ task_verb v
  /\ is_word (head post) = false.

(** A task verb that begins a clause stands at position [i] of [text]. *)
Definition clause_verb_at (text : string) (i : nat) : Prop :=
  exists before b t v after,
    text = before ++ b ++ t ++ v ++ after
    /\ String.length (before ++ b ++ t) = i
    /\ starts_task (Py.is_empty before) b t v after.

(** ** The matches of a pattern, as a relation *)

(** [lang ic r prev s prev' s']: the pattern [r] matches from the position
    with [prev] before it and [s] after it, up to the position with
    [prev'] before it and [s'] after it. *)
Inductive lang (ic : bool)
  : regex -> option ascii -> string -> option ascii -> string -> Prop :=
| lang_eps prev s : lang ic Eps prev s prev s
| lang_atom a prev c s :
    atom_ok ic a c = true -> lang ic (Atom a) prev (String c s) (Some c) s
| lang_cat r1 r2 p s p1 s1 p2 s2 :
    lang ic r1 p s p1 s1 -> lang ic r2 p1 s1 p2 s2 ->
    lang ic (Cat r1 r2) p s p2 s2
| lang_alt_l r1 r2 p s p' s' :
    lang ic r1 p s p' s' -> lang ic (Alt r1 r2) p s p' s'
| lang_alt_r r1 r2 p s p' s' :
    lang ic r2 p s p' s' -> lang ic (Alt r1 r2) p s p' s'
| lang_star_nil a p s : lang ic (Star a) p s p s
| lang_star_cons a p c s p' s' :
    atom_ok ic a c = true -> lang ic (Star a) (Some c) s p' s' ->
    lang ic (Star a) p (String c s) p' s'
| lang_bol s : lang ic Bol None s None s
| lang_eol p s :
    s = "" \/ s = String "010" "" -> lang ic Eol p s p s
| lang_wordb p s :
    xorb (is_word p) (is_word (head s)) = true -> lang ic WordB p s p s.

(** The strings a pattern without anchors consumes. *)
Inductive strlang (ic : bool) : regex -> string -> Prop :=
| sl_eps : strlang ic Eps ""
| sl_atom a c : atom_ok ic a c = true -> strlang ic (Atom a) (String c "")
| sl_cat r1 r2 m1 m2 :
    strlang ic r1 m1 -> strlang ic r2 m2 -> strlang ic (Cat r1 r2) (m1 ++ m2)
| sl_alt_l r1 r2 m : strlang ic r1 m -> strlang ic (Alt r1 r2) m
| sl_alt_r r1 r2 m : strlang ic r2 m -> strlang ic (Alt r1 r2) m
| sl_star_nil a : strlang ic (Star a) ""
| sl_star_cons a c m :
    atom_ok ic a c = true -> strlang ic (Star a) m ->
    strlang ic (Star a) (String c m).

Fixpoint anchor_free (r : regex) : bool :=
  match r with
  | Eps | Atom _ | Star _ => true
  | Cat r1 r2 | Alt r1 r2 => anchor_free r1 && anchor_free r2
  | Bol | Eol | WordB => false
  end.

(** The character before the position reached after reading [m]. *)
Fixpoint last_or (prev : option ascii) (m : string) : option ascii :=
  match m with
  | EmptyString => prev
  | String c m' => last_or (Some c) m'
  end.

Definition reads (P : string -> Prop) (p : option ascii) (s : string)
  (p' : option ascii) (s' : string) : Prop :=
  exists m, s = m ++ s' /\ P m /\ p' = last_or p m.

(** ** Positions in a text *)

Fixpoint skip (n : nat) (s : string) : string :=
  match n, s with
  | O, _ => s
  | S n', String _ s' => skip n' s'
  | S _, EmptyString => EmptyString
  end.

Fixpoint take (n : nat) (s : string) : string :=
  match n, s with
  | O, _ => EmptyString
  | S n', String c s' => String c (take n' s')
  | S _, EmptyString => EmptyString
  end.

Definition char_at (s : string) (k : nat) : option ascii := head (skip k s).

(** The maximal run of word characters at the head of [s]. *)
Fixpoint take_word (s : string) : string :=
  match s with
  | EmptyString => EmptyString
  | String c s' =>
      if is_word (Some c) then String c (take_word s') else EmptyString
  end.

Definition word_at (s : string) (k : nat) : string := take_word (skip k s).

(** A word starts at position [k]. *)
Definition starts_word (s : string) (k : nat) : Prop :=
  is_word (char_at s k) = true
  /\ (k = 0%nat \/ is_word (char_at s (k - 1)) = false).

Definition alpha_char (c : ascii) : bool := Py.between 97 122 (Py.code c).

Definition word_char (c : ascii) : bool := is_word (Some c).

Definition is_none {A : Type} (o : option A) : bool :=
  match o with
  | None => true
  | Some _ => false
  end.

Definition TRANSITION_WORDS : list string := ["and"; "also"; "can"; "you"].

(** A clause-starting task verb inside [s], which may be the rest of a
    text: its clause boundary starts at [j], the verb at [i], and the verb
    ends before [n]. *)
Definition clause_verb (at_start : bool) (s : string) (j i n : nat) : Prop :=
  exists pre b t v post,
    s = pre ++ b ++ t ++ v ++ post
    /\ j = String.length pre
    /\ i = (String.length pre + String.length b + String.length t)%nat
    /\ n = (String.length pre + String.length b + String.length t
            + String.length v)%nat
    /\ starts_task (at_start && Py.is_empty pre) b t v post.

Definition verb_at (at_start : bool) (s : string) (i : nat) : Prop :=
  exists j n, clause_verb at_start s j i n.

(** * Properties *)

Ltac each_char c := destruct c as [[] [] [] [] [] [] [] []].

Ltac split_ifs :=
  repeat match goal with
         | |- context [if ?c then _ else _] => destruct c
         end.

(** ** Arithmetic of scores *)

Lemma fltb_true (a b : Q) : Py.fltb a b = true <-> (a < b)%Q.
Proof.
  unfold Py.fltb. rewrite negb_true_iff. split; intro H.
  - apply Qnot_le_lt. intro H1. apply Qle_bool_iff in H1. congruence.
  - destruct (Qle_bool b a) eqn:E; auto. apply Qle_bool_iff in E. lra.
Qed.

Lemma fltb_false (a b : Q) : Py.fltb a b = false <-> (b <= a)%Q.
Proof.
  unfold Py.fltb. rewrite negb_false_iff. apply Qle_bool_iff.
Qed.

Lemma fmax_cases (a b : Q) :
  ((a < b)%Q /\ Py.fmax a b = b) \/ ((b <= a)%Q /\ Py.fmax a b = a).
Proof.
  unfold Py.fmax. destruct (Py.fltb a b) eqn:E.
  - left. split; auto. now apply fltb_true.
  - right. split; auto. now apply fltb_false.
Qed.

Lemma fmin_cases (a b : Q) :
  ((b < a)%Q /\ Py.fmin a b = b) \/ ((a <= b)%Q /\ Py.fmin a b = a).
Proof.
  unfold Py.fmin. destruct (Py.fltb b a) eqn:E.
  - left. split; auto. now apply fltb_true.
  - right. split; auto. now apply fltb_false.
Qed.

Lemma fmin_Qmin (a b : Q) : (Py.fmin a b == Qmin a b)%Q.
Proof.
  destruct (fmin_cases a b) as [[H ->]|[H ->]].
  - symmetry. apply Q.min_r. lra.
  - symmetry. apply Q.min_l. exact H.
Qed.

Lemma fmax_Qmax (a b : Q) : (Py.fmax a b == Qmax a b)%Q.
Proof.
  destruct (fmax_cases a b) as [[H ->]|[H ->]].
  - symmetry. apply Q.max_r. lra.
  - symmetry. apply Q.max_l. exact H.
Qed.

Lemma clamp_range (s : Q) : (1 <= Py.fmax 1.0 (Py.fmin 10.0 s) <= 10)%Q.
Proof.
  destruct (fmax_cases 1.0%Q (Py.fmin 10.0%Q s)) as [[H ->]|[H ->]];
    destruct (fmin_cases 10.0%Q s) as [[H' E]|[H' E]]; rewrite ?E in *; lra.
Qed.

Section Doubles.
Local Open Scope Q_scope.

(** ** Rounding to an integer *)

Lemma round_half_even_comp (x y : Q) :
  x == y -> Py.round_half_even x = Py.round_half_even y.
Proof.
  intro E. unfold Py.round_half_even.
  rewrite (Qfloor_comp _ _ E).
  assert (E' : x - inject_Z (Qfloor y) == y - inject_Z (Qfloor y))
    by (rewrite E; reflexivity).
  rewrite (Qcompare_comp _ _ E' _ _ (Qeq_refl _)). reflexivity.
Qed.

Lemma round_half_even_Z (n : Z) : Py.round_half_even (inject_Z n) = n.
Proof.
  unfold Py.round_half_even. rewrite Qfloor_Z.
  assert (E : inject_Z n - inject_Z n == 0) by ring.
  rewrite (Qcompare_comp _ _ E _ _ (Qeq_refl _)). reflexivity.
Qed.

(** The rounded value is a nearest integer. *)
Lemma round_half_even_near (x : Q) :
  inject_Z (Py.round_half_even x) - (1 # 2) <= x
  /\ x <= inject_Z (Py.round_half_even x) + (1 # 2).
Proof.
  unfold Py.round_half_even.
  pose proof (Qfloor_le x) as Hlo. pose proof (Qlt_floor x) as Hhi.
  assert (S1 : inject_Z (Qfloor x + 1) == inject_Z (Qfloor x) + 1)
    by (rewrite inject_Z_plus; reflexivity).
  rewrite S1 in Hhi.
  destruct (Qcompare_spec (x - inject_Z (Qfloor x)) (1 # 2)) as [E|L|G].
  - destruct (Z.even (Qfloor x)); rewrite ?S1; lra.
  - lra.
  - rewrite S1. lra.
Qed.

Lemma round_half_even_ge (lo : Z) (x : Q) :
  inject_Z lo <= x -> (lo <= Py.round_half_even x)%Z.
Proof.
  intro Hlo.
  pose proof (Qfloor_resp_le _ _ Hlo) as F1. rewrite Qfloor_Z in F1.
  unfold Py.round_half_even.
  destruct (Qcompare (x - inject_Z (Qfloor x)) (1 # 2));
    [destruct (Z.even (Qfloor x))| |]; lia.
Qed.

Lemma round_half_even_le (hi : Z) (x : Q) :
  x <= inject_Z hi -> (Py.round_half_even x <= hi)%Z.
Proof.
  intro Hhi.
  pose proof (Qfloor_resp_le _ _ Hhi) as F2. rewrite Qfloor_Z in F2.
  pose proof (Qfloor_le x) as Hlo.
  unfold Py.round_half_even.
  destruct (Qcompare_spec (x - inject_Z (Qfloor x)) (1 # 2)) as [E|L|G].
  - destruct (Z.even (Qfloor x)); [lia|].
    destruct (Z.eq_dec (Qfloor x) hi) as [EQ|N]; [|lia].
    rewrite EQ in *. exfalso. lra.
  - lia.
  - destruct (Z.eq_dec (Qfloor x) hi) as [EQ|N]; [|lia].
    rewrite EQ in *. exfalso. lra.
Qed.

Lemma round_half_even_range (lo hi : Z) (x : Q) :
  inject_Z lo <= x <= inject_Z hi ->
  (lo <= Py.round_half_even x <= hi)%Z.
Proof.
  intros [Hlo Hhi]. split.
  - now apply round_half_even_ge.
  - now apply round_half_even_le.
Qed.

(** ** Powers of two *)

Lemma two_nonzero : ~ 2 == 0.
Proof. discriminate. Qed.

Lemma pow2_pos (e : Z) : 0 < Py.pow2 e.
Proof. apply Qpower_0_lt. reflexivity. Qed.

Lemma pow2_plus (a b : Z) : Py.pow2 (a + b) == Py.pow2 a * Py.pow2 b.
Proof. apply Qpower_plus, two_nonzero. Qed.

Lemma pow2_le (a b : Z) : (a <= b)%Z -> Py.pow2 a <= Py.pow2 b.
Proof. intro H. apply Qpower_le_compat_l; [exact H|discriminate]. Qed.

Lemma pow2_lt_inv (a b : Z) : Py.pow2 a < Py.pow2 b -> (a < b)%Z.
Proof. intro H. apply (Qpower_lt_compat_l_inv 2); [exact H|reflexivity]. Qed.

Lemma pow2_Z (n : Z) : (0 <= n)%Z -> Py.pow2 n == inject_Z (2 ^ n).
Proof. intro H. unfold Py.pow2. now rewrite Zpower_Qpower. Qed.

Lemma pow2_succ (a : Z) : Py.pow2 (a + 1) == 2 * Py.pow2 a.
Proof. rewrite pow2_plus. change (Py.pow2 1) with 2. ring. Qed.

(** ** The binade of a positive rational *)

Lemma Qmake_mult_den (p : Z) (q : positive) :
  (p # q) * inject_Z (Zpos q) == inject_Z p.
Proof. unfold Qeq, Qmult, inject_Z. simpl. lia. Qed.

Lemma quotient_bracket (X Q' P A B D : Q) :
  0 < D -> 0 < Q' -> X * Q' == P -> A == D * B ->
  A <= P -> P < 2 * A -> B <= Q' -> Q' < 2 * B ->
  X < 2 * D /\ D < 2 * X.
Proof.
  intros P0 Qq M Ea Qa1 Qa2 Qb1 Qb2. split.
  - apply Qnot_le_lt. intro C.
    assert (2 * D * Q' <= X * Q') by (apply Qmult_le_compat_r; lra).
    assert (2 * D * B <= 2 * D * Q')
      by (apply Qmult_le_l; [lra | exact Qb1]).
    lra.
  - apply Qnot_le_lt. intro C.
    assert (2 * X * Q' <= D * Q') by (apply Qmult_le_compat_r; lra).
    assert (D * Q' < D * (2 * B)).
    { apply Qmult_lt_l; [lra | lra]. }
    lra.
Qed.

Lemma ilog2_spec (x : Q) :
  0 < x -> Py.pow2 (Py.ilog2 x) <= x /\ x < Py.pow2 (Py.ilog2 x + 1).
Proof.
  intro Hx. destruct x as [p q].
  assert (Hp : (0 < p)%Z) by (unfold Qlt in Hx; simpl in Hx; lia).
  unfold Py.ilog2. cbn [Qnum Qden].
  set (a := Z.log2 p). set (b := Z.log2 (Zpos q)).
  destruct (Z.log2_spec p Hp) as [A1 A2]. fold a in A1, A2.
  destruct (Z.log2_spec (Zpos q) eq_refl) as [B1 B2]. fold b in B1, B2.
  assert (Ha : (0 <= a)%Z) by apply Z.log2_nonneg.
  assert (Hb : (0 <= b)%Z) by apply Z.log2_nonneg.
  assert (Ea : Py.pow2 a == Py.pow2 (a - b) * Py.pow2 b).
  { rewrite <- pow2_plus. now replace (a - b + b)%Z with a by lia. }
  assert (Qa1 : Py.pow2 a <= inject_Z p).
  { rewrite pow2_Z by exact Ha. now rewrite <- Zle_Qle. }
  assert (Qa2 : inject_Z p < 2 * Py.pow2 a).
  { rewrite <- pow2_succ. rewrite pow2_Z by lia. rewrite <- Zlt_Qlt.
    exact A2. }
  assert (Qb1 : Py.pow2 b <= inject_Z (Zpos q)).
  { rewrite pow2_Z by exact Hb. now rewrite <- Zle_Qle. }
  assert (Qb2 : inject_Z (Zpos q) < 2 * Py.pow2 b).
  { rewrite <- pow2_succ. rewrite pow2_Z by lia. rewrite <- Zlt_Qlt.
    exact B2. }
  destruct (quotient_bracket (p # q) (inject_Z (Zpos q)) (inject_Z p)
              (Py.pow2 a) (Py.pow2 b) (Py.pow2 (a - b))
              (pow2_pos _) eq_refl (Qmake_mult_den p q) Ea Qa1 Qa2 Qb1 Qb2)
    as [U L].
  destruct (Qle_bool (Py.pow2 (a - b)) (p # q)) eqn:E.
  - apply Qle_bool_iff in E. split; [exact E|].
    rewrite pow2_succ. exact U.
  - assert (E' : p # q < Py.pow2 (a - b)).
    { apply Qnot_le_lt. intro C. apply Qle_bool_iff in C. congruence. }
    replace (a - b - 1 + 1)%Z with (a - b)%Z by lia.
    split; [|exact E'].
    assert (S : Py.pow2 (a - b) == 2 * Py.pow2 (a - b - 1)).
    { rewrite <- pow2_succ.
      now replace (a - b - 1 + 1)%Z with (a - b)%Z by lia. }
    lra.
Qed.

Lemma binade_unique (x : Q) (l l' : Z) :
  Py.pow2 l <= x < Py.pow2 (l + 1) ->
  Py.pow2 l' <= x < Py.pow2 (l' + 1) ->
  l = l'.
Proof.
  intros [A1 A2] [B1 B2].
  assert (l < l' + 1)%Z by (apply pow2_lt_inv; lra).
  assert (l' < l + 1)%Z by (apply pow2_lt_inv; lra).
  lia.
Qed.

Lemma ilog2_unique (x : Q) (l : Z) :
  Py.pow2 l <= x < Py.pow2 (l + 1) -> Py.ilog2 x = l.
Proof.
  intro H.
  assert (Hx : 0 < x) by (pose proof (pow2_pos l); lra).
  apply (binade_unique x); [now apply ilog2_spec | exact H].
Qed.

Lemma ilog2_comp (x y : Q) : 0 < x -> x == y -> Py.ilog2 x = Py.ilog2 y.
Proof.
  intros Hx E. apply ilog2_unique. rewrite E.
  apply ilog2_spec. now rewrite <- E.
Qed.

Lemma ilog2_mono (x y : Q) : 0 < x -> x <= y -> (Py.ilog2 x <= Py.ilog2 y)%Z.
Proof.
  intros Hx L.
  destruct (ilog2_spec x Hx) as [A1 A2].
  destruct (ilog2_spec y) as [B1 B2]; [lra|].
  assert (Py.ilog2 x < Py.ilog2 y + 1)%Z by (apply pow2_lt_inv; lra).
  lia.
Qed.

(** ** The nearest double *)

(** The significand of a positive rational lies between [2^52] and
    [2^53], and so does its rounding. *)
Lemma significand_range (x : Q) :
  0 < x ->
  let e := (Py.ilog2 x - 52)%Z in
  inject_Z (2 ^ 52) <= x / Py.pow2 e /\ x / Py.pow2 e < inject_Z (2 ^ 53).
Proof.
  intros Hx e. destruct (ilog2_spec x Hx) as [A1 A2].
  pose proof (pow2_pos e) as Pe.
  assert (E1 : Py.pow2 (Py.ilog2 x) == inject_Z (2 ^ 52) * Py.pow2 e).
  { rewrite <- (pow2_Z 52) by lia. rewrite <- pow2_plus.
    unfold e. now replace (52 + (Py.ilog2 x - 52))%Z with (Py.ilog2 x) by lia. }
  assert (E2 : Py.pow2 (Py.ilog2 x + 1) == inject_Z (2 ^ 53) * Py.pow2 e).
  { rewrite <- (pow2_Z 53) by lia. rewrite <- pow2_plus.
    unfold e.
    now replace (53 + (Py.ilog2 x - 52))%Z with (Py.ilog2 x + 1)%Z by lia. }
  split.
  - apply Qle_shift_div_l; [exact Pe|]. rewrite <- E1. exact A1.
  - apply Qlt_shift_div_r; [exact Pe|]. rewrite <- E2. exact A2.
Qed.

Lemma nearest_eq (x : Q) :
  Py.nearest x
  == inject_Z (Py.round_half_even (x / Py.pow2 (Py.ilog2 x - 52)))
     * Py.pow2 (Py.ilog2 x - 52).
Proof. unfold Py.nearest. cbv zeta. apply Qred_correct. Qed.

Lemma nearest_significand (x : Q) :
  0 < x ->
  (2 ^ 52 <= Py.round_half_even (x / Py.pow2 (Py.ilog2 x - 52)) <= 2 ^ 53)%Z.
Proof.
  intro Hx. destruct (significand_range x Hx) as [A B].
  apply round_half_even_range. split; [exact A|lra].
Qed.

Lemma nearest_pos (x : Q) : 0 < x -> 0 < Py.nearest x.
Proof.
  intro Hx. rewrite nearest_eq.
  pose proof (nearest_significand x Hx) as [A _].
  apply Qmult_lt_0_compat; [|apply pow2_pos].
  rewrite <- (Zlt_Qlt 0). lia.
Qed.

Lemma nearest_comp (x y : Q) : 0 < x -> x == y -> Py.nearest x = Py.nearest y.
Proof.
  intros Hx E. unfold Py.nearest. cbv zeta.
  rewrite <- (ilog2_comp x y Hx E).
  apply Qred_complete.
  rewrite (round_half_even_comp (x / Py.pow2 (Py.ilog2 x - 52))
             (y / Py.pow2 (Py.ilog2 x - 52))); [reflexivity|].
  unfold Qdiv. apply Qmult_comp; [exact E|reflexivity].
Qed.

(** A multiple [n * 2^k] of a power of two with [0 < n <= 2^53] is its
    own nearest double. *)
Lemma nearest_multiple (y : Q) (n k : Z) :
  (0 < n <= 2 ^ 53)%Z -> y == inject_Z n * Py.pow2 k -> Py.nearest y == y.
Proof.
  intros Hn E.
  assert (Hy : 0 < y).
  { rewrite E. apply Qmult_lt_0_compat; [|apply pow2_pos].
    rewrite <- (Zlt_Qlt 0). lia. }
  set (e := (Py.ilog2 y - 52)%Z).
  destruct (ilog2_spec y Hy) as [A1 A2].
  assert (K : (e <= k)%Z \/ (n = 2 ^ 53 /\ e = k + 1)%Z).
  { destruct (Z.eq_dec n (2 ^ 53)) as [N|N].
    - right. split; [exact N|].
      assert (L : Py.ilog2 y = (k + 53)%Z).
      { apply ilog2_unique. rewrite E, N.
        rewrite <- (pow2_Z 53) by lia. rewrite <- pow2_plus.
        replace (53 + k)%Z with (k + 53)%Z by lia.
        split; [lra|]. rewrite pow2_succ.
        pose proof (pow2_pos (k + 53)). lra. }
      unfold e. lia.
    - left.
      assert (L : y < Py.pow2 (53 + k)).
      { rewrite E, pow2_plus. rewrite (pow2_Z 53) by lia.
        apply Qmult_lt_r; [apply pow2_pos|].
        rewrite <- Zlt_Qlt. lia. }
      assert (Py.ilog2 y < 53 + k)%Z by (apply pow2_lt_inv; lra).
      unfold e. lia. }
  rewrite nearest_eq. fold e.
  pose proof (pow2_pos e) as Pe.
  assert (I : exists N : Z, y / Py.pow2 e == inject_Z N).
  { destruct K as [K|[N K]].
    - exists (n * 2 ^ (k - e))%Z.
      rewrite inject_Z_mult, <- pow2_Z by lia.
      rewrite E.
      replace k with ((k - e) + e)%Z at 1 by lia.
      rewrite pow2_plus. field. lra.
    - exists (2 ^ 52)%Z. rewrite E, N, K.
      rewrite pow2_succ.
      change (inject_Z (2 ^ 53)) with (2 * inject_Z (2 ^ 52)).
      field. pose proof (pow2_pos k). lra. }
  destruct I as [N I].
  rewrite (round_half_even_comp _ _ I), round_half_even_Z.
  rewrite <- I. field. lra.
Qed.

Lemma nearest_idem (x : Q) : 0 < x -> Py.nearest (Py.nearest x) == Py.nearest x.
Proof.
  intro Hx. pose proof (nearest_significand x Hx) as [A B].
  apply (nearest_multiple _
           (Py.round_half_even (x / Py.pow2 (Py.ilog2 x - 52)))
           (Py.ilog2 x - 52)); [lia|apply nearest_eq].
Qed.

(** ** Doubles *)

Lemma double_pos_eq (x : Q) : 0 < x -> Py.double x = Py.nearest x.
Proof.
  intro H. unfold Py.double.
  destruct (Qcompare_spec x 0) as [E|L|G]; [lra|lra|reflexivity].
Qed.

Lemma double_neg_eq (x : Q) : x < 0 -> Py.double x = - Py.nearest (- x).
Proof.
  intro H. unfold Py.double.
  destruct (Qcompare_spec x 0) as [E|L|G]; [lra|reflexivity|lra].
Qed.

Lemma double_zero_eq (x : Q) : x == 0 -> Py.double x = 0.
Proof.
  intro H. unfold Py.double.
  destruct (Qcompare_spec x 0) as [E|L|G]; [reflexivity|lra|lra].
Qed.

Lemma double_comp (x y : Q) : x == y -> Py.double x = Py.double y.
Proof.
  intro E. destruct (Qlt_le_dec 0 x) as [P|NP].
  - rewrite !double_pos_eq by lra. now apply nearest_comp.
  - destruct (Qlt_le_dec x 0) as [N|Z0].
    + rewrite !double_neg_eq by lra. f_equal.
      apply nearest_comp; [lra|]. now rewrite E.
    + rewrite !double_zero_eq by lra. reflexivity.
Qed.

Lemma double_pos (x : Q) : 0 < x -> 0 < Py.double x.
Proof. intro H. rewrite double_pos_eq by exact H. now apply nearest_pos. Qed.

Lemma double_neg (x : Q) : x < 0 -> Py.double x < 0.
Proof.
  intro H. rewrite double_neg_eq by exact H.
  pose proof (nearest_pos (- x)). lra.
Qed.

Lemma double_nonneg (x : Q) : 0 <= x -> 0 <= Py.double x.
Proof.
  intro H. destruct (Qlt_le_dec 0 x) as [P|NP].
  - pose proof (double_pos x P). lra.
  - rewrite double_zero_eq by lra. lra.
Qed.

Lemma double_nonpos (x : Q) : x <= 0 -> Py.double x <= 0.
Proof.
  intro H. destruct (Qlt_le_dec x 0) as [N|NN].
  - pose proof (double_neg x N). lra.
  - rewrite double_zero_eq by lra. lra.
Qed.

Lemma double_opp (x : Q) : Py.double (- x) == - Py.double x.
Proof.
  destruct (Qlt_le_dec 0 x) as [P|NP].
  - rewrite (double_neg_eq (- x)) by lra. rewrite (double_pos_eq x P).
    rewrite (nearest_comp (- - x) x); [reflexivity|lra|ring].
  - destruct (Qlt_le_dec x 0) as [N|Z0].
    + rewrite (double_pos_eq (- x)) by lra. rewrite (double_neg_eq x N). ring.
    + rewrite !double_zero_eq by lra. reflexivity.
Qed.

(** Rounding is idempotent: a double is its own nearest double. *)
Lemma double_is_double (x : Q) : is_double (Py.double x).
Proof.
  unfold is_double. destruct (Qlt_le_dec 0 x) as [P|NP].
  - rewrite (double_pos_eq x P).
    rewrite double_pos_eq by now apply nearest_pos.
    now apply nearest_idem.
  - destruct (Qlt_le_dec x 0) as [N|Z0].
    + rewrite (double_neg_eq x N). rewrite double_opp.
      rewrite double_pos_eq by (apply nearest_pos; lra).
      rewrite nearest_idem by lra. reflexivity.
    + rewrite (double_zero_eq x) by lra. reflexivity.
Qed.

Lemma Qred_idem (q : Q) : Qred (Qred q) = Qred q.
Proof. apply Qred_complete, Qred_correct. Qed.

Lemma double_canonical (x : Q) : Qred (Py.double x) = Py.double x.
Proof.
  unfold Py.double. destruct (x ?= 0); [reflexivity| |].
  - rewrite Qred_opp. f_equal. unfold Py.nearest. cbv zeta. apply Qred_idem.
  - unfold Py.nearest. cbv zeta. apply Qred_idem.
Qed.

Lemma double_idem (x : Q) : Py.double (Py.double x) = Py.double x.
Proof.
  rewrite <- (double_canonical x) at 2.
  rewrite <- (double_canonical (Py.double x)).
  apply Qred_complete, double_is_double.
Qed.

Lemma is_double_eq (c : Q) : is_double c -> Py.double c = Qred c.
Proof.
  intro H. rewrite <- double_canonical. now apply Qred_complete.
Qed.

Lemma is_double_opp (c : Q) : is_double c -> is_double (- c).
Proof. unfold is_double. intro H. now rewrite double_opp, H. Qed.

(** *** Rounding against a double

    Rounding never crosses a double: a bound that is a double remains a
    bound after rounding. *)

Lemma nearest_le (x c : Q) :
  0 < x -> x <= c -> Py.nearest c == c -> Py.nearest x <= c.
Proof.
  intros Hx L Hc.
  assert (Hc0 : 0 < c) by lra.
  set (e := (Py.ilog2 x - 52)%Z). set (ec := (Py.ilog2 c - 52)%Z).
  assert (M : (e <= ec)%Z) by (pose proof (ilog2_mono x c Hx L); unfold e, ec; lia).
  pose proof (pow2_pos e) as Pe.
  rewrite nearest_eq. fold e.
  rewrite nearest_eq in Hc. fold ec in Hc.
  set (mc := Py.round_half_even (c / Py.pow2 ec)) in *.
  assert (I : c / Py.pow2 e == inject_Z (mc * 2 ^ (ec - e))).
  { rewrite inject_Z_mult, <- pow2_Z by lia.
    rewrite <- Hc at 1.
    replace ec with ((ec - e) + e)%Z at 1 by lia.
    rewrite pow2_plus. field. lra. }
  assert (R : (Py.round_half_even (x / Py.pow2 e) <= mc * 2 ^ (ec - e))%Z).
  { apply round_half_even_le. rewrite <- I.
    apply Qmult_le_compat_r; [exact L|].
    apply Qlt_le_weak, Qinv_lt_0_compat, Pe. }
  rewrite Zle_Qle in R. rewrite <- I in R.
  apply (Qmult_le_compat_r _ _ (Py.pow2 e)) in R; [|lra].
  assert (c / Py.pow2 e * Py.pow2 e == c) by (field; lra).
  lra.
Qed.

Lemma nearest_ge (x c : Q) :
  0 < c -> c <= x -> Py.nearest c == c -> c <= Py.nearest x.
Proof.
  intros Hc0 L Hc.
  assert (Hx : 0 < x) by lra.
  set (e := (Py.ilog2 x - 52)%Z). set (ec := (Py.ilog2 c - 52)%Z).
  assert (M : (ec <= e)%Z)
    by (pose proof (ilog2_mono c x Hc0 L); unfold e, ec; lia).
  pose proof (pow2_pos e) as Pe.
  pose proof (nearest_significand x Hx) as [S1 _]. fold e in S1.
  rewrite nearest_eq. fold e.
  destruct (Z.eq_dec ec e) as [EQ|NE].
  - rewrite nearest_eq in Hc. fold ec in Hc. rewrite EQ in Hc.
    set (mc := Py.round_half_even (c / Py.pow2 e)) in *.
    assert (I : c / Py.pow2 e == inject_Z mc).
    { rewrite <- Hc at 1. field. lra. }
    assert (R : (mc <= Py.round_half_even (x / Py.pow2 e))%Z).
    { apply round_half_even_ge. rewrite <- I.
      apply Qmult_le_compat_r; [exact L|].
      apply Qlt_le_weak, Qinv_lt_0_compat, Pe. }
    rewrite Zle_Qle in R. rewrite <- I in R.
    apply (Qmult_le_compat_r _ _ (Py.pow2 e)) in R; [|lra].
    assert (c / Py.pow2 e * Py.pow2 e == c) by (field; lra).
    lra.
  - destruct (ilog2_spec c Hc0) as [_ C2].
    assert (P : Py.pow2 (Py.ilog2 c + 1) <= Py.pow2 (52 + e)).
    { apply pow2_le. unfold e, ec in *. lia. }
    assert (E52 : Py.pow2 (52 + e) == inject_Z (2 ^ 52) * Py.pow2 e).
    { rewrite pow2_plus. now rewrite (pow2_Z 52) by lia. }
    rewrite Zle_Qle in S1.
    apply (Qmult_le_compat_r _ _ (Py.pow2 e)) in S1; lra.
Qed.

Theorem double_le (x c : Q) : is_double c -> x <= c -> Py.double x <= c.
Proof.
  unfold is_double. intros Hc L.
  destruct (Qlt_le_dec 0 x) as [P|NP].
  - rewrite double_pos_eq by exact P.
    apply nearest_le; [exact P|exact L|].
    now rewrite <- double_pos_eq by lra.
  - destruct (Qlt_le_dec c 0) as [CN|CP].
    + rewrite double_neg_eq by lra.
      assert (Hc' : Py.nearest (- c) == - c).
      { rewrite <- double_pos_eq by lra. now rewrite double_opp, Hc. }
      pose proof (nearest_ge (- x) (- c) ltac:(lra) ltac:(lra) Hc'). lra.
    + pose proof (double_nonpos x NP). lra.
Qed.

Theorem double_ge (x c : Q) : is_double c -> c <= x -> c <= Py.double x.
Proof.
  intros Hc L.
  pose proof (double_le (- x) (- c) (is_double_opp c Hc) ltac:(lra)) as H.
  rewrite double_opp in H. lra.
Qed.

(** *** The error of one rounding *)

Lemma nearest_error (x : Q) :
  0 < x ->
  x * (1 - ulp_half) <= Py.nearest x /\ Py.nearest x <= x * (1 + ulp_half).
Proof.
  intro Hx. set (e := (Py.ilog2 x - 52)%Z).
  destruct (significand_range x Hx) as [S1 _]. fold e in S1.
  destruct (round_half_even_near (x / Py.pow2 e)) as [N1 N2].
  rewrite nearest_eq. fold e.
  pose proof (pow2_pos e) as Pe.
  assert (X : x == x / Py.pow2 e * Py.pow2 e) by (field; lra).
  revert X S1 N1 N2.
  generalize (x / Py.pow2 e). intros y X S1 N1 N2.
  set (m := inject_Z (Py.round_half_even y)) in *.
  change (inject_Z (2 ^ 52)) with 4503599627370496 in S1.
  unfold ulp_half.
  assert (L : y * (1 - (1 # 9007199254740992)) <= m) by lra.
  assert (U : m <= y * (1 + (1 # 9007199254740992))) by lra.
  apply (Qmult_le_compat_r _ _ (Py.pow2 e)) in L; [|lra].
  apply (Qmult_le_compat_r _ _ (Py.pow2 e)) in U; [|lra].
  rewrite X. split; lra.
Qed.

Lemma double_error (x : Q) :
  0 <= x ->
  x * (1 - ulp_half) <= Py.double x /\ Py.double x <= x * (1 + ulp_half).
Proof.
  intro Hx. destruct (Qlt_le_dec 0 x) as [P|NP].
  - rewrite double_pos_eq by exact P. now apply nearest_error.
  - rewrite double_zero_eq by lra.
    assert (E : x == 0) by lra. rewrite E. split; lra.
Qed.

(** *** Rounding to one decimal *)

Lemma round1_comp (x y : Q) : x == y -> Py.round1 x = Py.round1 y.
Proof.
  intro E. unfold Py.round1.
  rewrite (round_half_even_comp (x * 10) (y * 10)); [reflexivity|].
  now rewrite E.
Qed.

Lemma tenth_eq (k : Z) : k # 10 == inject_Z k / 10.
Proof. rewrite (Qmake_Qdiv k 10). reflexivity. Qed.

Lemma is_double_1 : is_double 1.
Proof. unfold is_double. vm_compute. reflexivity. Qed.

Lemma is_double_10 : is_double 10.
Proof. unfold is_double. vm_compute. reflexivity. Qed.

(** A number that rounds to a tenth between 1.0 and 10.0 stays in that
    range. *)
Lemma round1_range_wide (x : Q) :
  19 # 20 < x < 201 # 20 -> 1 <= Py.round1 x <= 10.
Proof.
  intros [L U]. unfold Py.round1.
  destruct (round_half_even_near (x * 10)) as [N1 N2].
  set (k := Py.round_half_even (x * 10)) in *.
  assert (K : (10 <= k <= 100)%Z).
  { split.
    - assert (H : inject_Z 9 < inject_Z k)
        by (change (inject_Z 9) with 9; lra).
      rewrite <- Zlt_Qlt in H. lia.
    - assert (H : inject_Z k < inject_Z 101)
        by (change (inject_Z 101) with 101; lra).
      rewrite <- Zlt_Qlt in H. lia. }
  split.
  - apply double_ge; [exact is_double_1|]. unfold Qle. simpl. lia.
  - apply double_le; [exact is_double_10|]. unfold Qle. simpl. lia.
Qed.

Lemma round1_range (x : Q) : 1 <= x <= 10 -> 1 <= Py.round1 x <= 10.
Proof. intro H. apply round1_range_wide. lra. Qed.

(** [round1 x] is half a tenth away from [x] at most, up to the rounding
    of the tenth. *)
Lemma round1_error (x : Q) :
  0 <= x <= 11 ->
  x - (1 # 20) - float_error <= Py.round1 x
  /\ Py.round1 x <= x + (1 # 20) + float_error.
Proof.
  intros [L U]. unfold Py.round1.
  destruct (round_half_even_near (x * 10)) as [N1 N2].
  set (k := Py.round_half_even (x * 10)) in *.
  assert (K : (0 <= k)%Z).
  { apply round_half_even_ge. change (inject_Z 0) with 0. lra. }
  destruct (double_error (k # 10)) as [E1 E2].
  { unfold Qle. simpl. lia. }
  pose proof (tenth_eq k) as T.
  assert (T' : (k # 10) * 10 == inject_Z k) by (rewrite T; field).
  unfold ulp_half, float_error in *.
  set (t := k # 10) in *. set (d := Py.double t) in *.
  split; lra.
Qed.

Lemma truediv_nonzero (a b : Z) :
  b <> 0%Z ->
  Py.truediv a b = Ok (Py.double (inject_Z a / inject_Z b)).
Proof.
  intro Hb. unfold Py.truediv.
  destruct (Z.eqb_spec b 0) as [E|_]; [contradiction|reflexivity].
Qed.

End Doubles.

(** ** The four scorers *)

Lemma _score_clarity_shape (text text_lower : string) :
  exists s det,
    _score_clarity text text_lower
    = DimensionScore.make "Clarity"
        (Py.round1 (Py.fmax 1.0%Q (Py.fmin 10.0%Q s))) det.
Proof.
  unfold _score_clarity. cbv zeta. split_ifs; cbv beta iota; eauto.
Qed.

Lemma _score_structure_shape (text text_lower : string) :
  exists s det,
    _score_structure text text_lower
    = DimensionScore.make "Structure"
        (Py.round1 (Py.fmax 1.0%Q (Py.fmin 10.0%Q s))) det.
Proof.
  unfold _score_structure. cbv zeta.
  destruct (Re.findall structure_task_verb text_lower);
    split_ifs; cbv beta iota; eauto.
Qed.

Lemma _score_specificity_shape (text text_lower : string) :
  exists s det,
    _score_specificity text text_lower
    = DimensionScore.make "Specificity"
        (Py.round1 (Py.fmax 1.0%Q (Py.fmin 10.0%Q s))) det.
Proof.
  unfold _score_specificity. cbv zeta. split_ifs; cbv beta iota; eauto.
Qed.

Lemma _score_length_value (text : string) :
  exists suffix,
    _score_length text
    = Ok (DimensionScore.make "Length"
            (Py.round1 (Py.fmin 10.0%Q (length_raw (_count_words text))))
            (Py.str_of_int (_count_words text) ++ suffix)).
Proof.
  unfold _score_length, length_raw. cbv zeta.
  rewrite !truediv_nonzero by lia.
  split_ifs; cbn [bind fst snd]; eauto.
Qed.

Lemma ratio_nonneg (a b : Z) : 0 <= a -> 0 < b -> (0 <= inject_Z a / inject_Z b)%Q.
Proof.
  intros Ha Hb. apply Qle_shift_div_l.
  - rewrite <- (Zlt_Qlt 0). exact Hb.
  - rewrite Qmult_0_l. rewrite <- (Zle_Qle 0). exact Ha.
Qed.

Ltac double_const := unfold is_double; vm_compute; reflexivity.

Lemma length_raw_range (w : Z) : (2 <= length_raw w <= 10)%Q.
Proof.
  unfold length_raw.
  destruct (w <? 5) eqn:E1; [lra|].
  destruct (w <? 10) eqn:E2; [lra|].
  destruct (w <? 20) eqn:E3; [lra|].
  apply Z.ltb_ge in E3.
  destruct (w <=? 300) eqn:E4.
  - pose proof (double_nonneg _
                  (ratio_nonneg (w - 20) 140 ltac:(lia) ltac:(lia))) as R.
    set (ramp := Py.double _) in *.
    assert (B : (0 <= Py.fmin 2.0 ramp <= 2)%Q).
    { destruct (fmin_cases 2.0%Q ramp) as [[H1 ->]|[H1 ->]]; lra. }
    unfold Py.fadd. split.
    + apply Qle_trans with 8%Q; [lra|].
      apply double_ge; [double_const|lra].
    + apply double_le; [double_const|lra].
  - destruct (w <=? 500) eqn:E5; [lra|].
    apply Z.leb_gt in E5.
    pose proof (double_nonneg _
                  (ratio_nonneg (w - 500) 200 ltac:(lia) ltac:(lia))) as R.
    set (decay := Py.double _) in *.
    assert (U : (Py.fsub 7.0 decay <= 7)%Q).
    { unfold Py.fsub. apply double_le; [double_const|lra]. }
    destruct (fmax_cases 3.0%Q (Py.fsub 7.0 decay)) as [[H1 ->]|[H1 ->]]; lra.
Qed.

Lemma fmin_10_length_raw (w : Z) :
  (Py.fmin 10.0 (length_raw w) == length_raw w)%Q.
Proof.
  pose proof (length_raw_range w).
  destruct (fmin_cases 10.0%Q (length_raw w)) as [[H1 ->]|[H1 ->]]; lra.
Qed.

Lemma length_score_range (w : Z) :
  (1 <= Py.round1 (Py.fmin 10.0 (length_raw w)) <= 10)%Q.
Proof.
  apply round1_range. rewrite fmin_10_length_raw.
  pose proof (length_raw_range w). lra.
Qed.

Lemma ratio_eq (w a b : Z) :
  (inject_Z (w - a) / inject_Z b == (inject_Z w - inject_Z a) / inject_Z b)%Q.
Proof.
  unfold Zminus. rewrite inject_Z_plus, inject_Z_opp. reflexivity.
Qed.

(** The code's length score is the piecewise value with every branch
    rounded. *)
Lemma length_score_rounded_correct (w : Z) :
  (Py.round1 (Py.fmin 10.0 (length_raw w)) == length_score_rounded w)%Q.
Proof.
  rewrite (round1_comp _ _ (fmin_10_length_raw w)).
  unfold length_raw, length_score_rounded.
  destruct (w <? 5); [vm_compute; reflexivity|].
  destruct (w <? 10); [vm_compute; reflexivity|].
  destruct (w <? 20); [vm_compute; reflexivity|].
  destruct (w <=? 300).
  - rewrite (double_comp _ _ (ratio_eq w 20 140)).
    change (inject_Z 20) with 20%Q. change (inject_Z 140) with 140%Q.
    set (ramp := Py.double _).
    erewrite round1_comp; [reflexivity|].
    unfold Py.fadd. erewrite double_comp; [reflexivity|].
    rewrite fmin_Qmin. reflexivity.
  - destruct (w <=? 500); [vm_compute; reflexivity|].
    rewrite (double_comp _ _ (ratio_eq w 500 200)).
    change (inject_Z 500) with 500%Q. change (inject_Z 200) with 200%Q.
    set (decay := Py.double _).
    erewrite round1_comp; [reflexivity|].
    apply fmax_Qmax.
Qed.

(** Double arithmetic stays within [float_error] of the exact piecewise
    formula. *)
Lemma length_raw_error (w : Z) :
  (length_exact w - float_error <= length_raw w
   /\ length_raw w <= length_exact w + float_error)%Q.
Proof.
  unfold length_raw, length_exact, float_error.
  destruct (w <? 5); [split; lra|].
  destruct (w <? 10); [split; lra|].
  destruct (w <? 20) eqn:E3; [split; lra|].
  apply Z.ltb_ge in E3.
  destruct (w <=? 300) eqn:E4.
  - apply Z.leb_le in E4.
    rewrite (double_comp _ _ (ratio_eq w 20 140)).
    change (inject_Z 20) with 20%Q. change (inject_Z 140) with 140%Q.
    assert (W : (20 <= inject_Z w <= 300)%Q).
    { split; [rewrite (Zle_Qle 20) in E3; exact E3
             |rewrite (Zle_Qle w 300) in E4; exact E4]. }
    set (q := ((inject_Z w - 20) / 140)%Q).
    assert (Q0 : (0 <= q)%Q /\ (q <= 2)%Q).
    { unfold q. split.
      - apply Qle_shift_div_l; lra.
      - apply Qle_shift_div_r; lra. }
    destruct (double_error q (proj1 Q0)) as [D1 D2].
    set (ramp := Py.double q) in *.
    assert (M : (Py.fmin 2.0 ramp == Qmin 2.0 ramp)%Q) by apply fmin_Qmin.
    unfold Py.fadd.
    destruct (double_error (8.0 + Py.fmin 2.0 ramp)) as [S1 S2].
    { destruct (fmin_cases 2.0%Q ramp) as [[H1 ->]|[H1 ->]]; unfold ulp_half in *; lra. }
    set (sum := Py.double (8.0 + Py.fmin 2.0 ramp)) in *.
    unfold ulp_half in *.
    destruct (Q.min_spec 2.0%Q ramp) as [[H1 H2]|[H1 H2]];
      destruct (Q.min_spec 2.0%Q q) as [[H3 H4]|[H3 H4]];
      rewrite H4; rewrite M, H2 in S1, S2; split; lra.
  - destruct (w <=? 500) eqn:E5; [split; lra|].
    apply Z.leb_gt in E5.
    rewrite (double_comp _ _ (ratio_eq w 500 200)).
    change (inject_Z 500) with 500%Q. change (inject_Z 200) with 200%Q.
    assert (W : (500 < inject_Z w)%Q).
    { rewrite (Zlt_Qlt 500) in E5. exact E5. }
    set (q := ((inject_Z w - 500) / 200)%Q).
    assert (Q0 : (0 <= q)%Q) by (unfold q; apply Qle_shift_div_l; lra).
    destruct (double_error q Q0) as [D1 D2].
    assert (F : (Py.fmax 3.0 (Py.fsub 7.0 (Py.double q))
                 == Qmax 3.0 (Py.fsub 7.0 (Py.double q)))%Q)
      by apply fmax_Qmax.
    rewrite F. clear F.
    destruct (Qlt_le_dec q 4) as [Small|Large].
    + set (decay := Py.double q) in *.
      unfold Py.fsub.
      destruct (double_error (7.0 - decay)) as [S1 S2].
      { unfold ulp_half in *. lra. }
      set (d := Py.double (7.0 - decay)) in *.
      unfold ulp_half in *.
      destruct (Q.max_spec 3.0%Q d) as [[H1 H2]|[H1 H2]];
        destruct (Q.max_spec 3.0%Q (7.0 - q)%Q) as [[H3 H4]|[H3 H4]];
        rewrite H2, H4; split; lra.
    + assert (G : (4 <= Py.double q)%Q)
        by (apply double_ge; [double_const|exact Large]).
      assert (L : (Py.fsub 7.0 (Py.double q) <= 3)%Q).
      { unfold Py.fsub. apply double_le; [double_const|lra]. }
      rewrite (Q.max_l 3.0%Q (Py.fsub 7.0 (Py.double q))) by lra.
      rewrite (Q.max_l 3.0%Q (7.0 - q)%Q) by lra.
      split; lra.
Qed.

Lemma length_score_error (w : Z) :
  (length_exact w - (1 # 20) - 2 * float_error
   <= Py.round1 (Py.fmin 10.0 (length_raw w))
   /\ Py.round1 (Py.fmin 10.0 (length_raw w))
      <= length_exact w + (1 # 20) + 2 * float_error)%Q.
Proof.
  rewrite (round1_comp _ _ (fmin_10_length_raw w)).
  pose proof (length_raw_range w) as [R1 R2].
  pose proof (length_raw_error w) as [E1 E2].
  destruct (round1_error (length_raw w)) as [N1 N2]; [lra|].
  unfold float_error in *. split; lra.
Qed.

(** ** The entry point *)

Lemma is_empty_false (s : string) : Py.is_empty s = false <-> s <> "".
Proof. destruct s; simpl; split; congruence. Qed.

Lemma analyze_empty (prompt : string) :
  Py.strip prompt = "" -> analyze prompt = Ok (empty_result prompt).
Proof.
  intro E. unfold analyze. cbv zeta. rewrite E. reflexivity.
Qed.

Lemma analyze_nonempty (prompt : string) :
  Py.strip prompt <> "" ->
  exists suffix,
    analyze prompt
    = Ok (full_result (Py.strip prompt)
            (DimensionScore.make "Length"
               (Py.round1 (Py.fmin 10.0%Q (length_raw (_count_words (Py.strip prompt)))))
               (Py.str_of_int (_count_words (Py.strip prompt)) ++ suffix))).
Proof.
  intro NE. apply is_empty_false in NE.
  destruct (_score_length_value (Py.strip prompt)) as [suffix E].
  exists suffix. unfold analyze. cbv zeta. rewrite NE, E. reflexivity.
Qed.

Lemma analyze_cases (prompt : string) :
  (Py.strip prompt = "" /\ analyze prompt = Ok (empty_result prompt))
  \/ (Py.strip prompt <> ""
      /\ exists length,
           _score_length (Py.strip prompt) = Ok length
           /\ analyze prompt = Ok (full_result (Py.strip prompt) length)).
Proof.
  destruct (string_dec (Py.strip prompt) "") as [E|NE].
  - left. split; [exact E|]. now apply analyze_empty.
  - right. split; [exact NE|].
    destruct (analyze_nonempty prompt NE) as [suffix H].
    destruct (_score_length_value (Py.strip prompt)) as [suffix' E].
    eexists. split; [exact E|].
    unfold analyze in *. cbv zeta in *.
    apply is_empty_false in NE. rewrite NE, E in *. reflexivity.
Qed.

(** The [prompt] field on the two paths of [analyze]. *)
Lemma analyze_prompt_field (prompt : string) :
  exists r,
    analyze prompt = Ok r
    /\ AnalysisResult.prompt r
       = if Py.is_empty (Py.strip prompt) then prompt else Py.strip prompt.
Proof.
  destruct (analyze_cases prompt) as [[E H]|(NE & l & _ & H)];
    eexists; (split; [exact H|]).
  - rewrite E. reflexivity.
  - apply is_empty_false in NE. rewrite NE. reflexivity.
Qed.

(** ** The overall score *)

Lemma fadd_0_double (x : Q) : Py.fadd 0.0 (Py.double x) = Py.double x.
Proof.
  unfold Py.fadd.
  rewrite (double_comp (0.0 + Py.double x) (Py.double x)) by ring.
  apply double_idem.
Qed.

Lemma fmul_comm (a b : Q) : Py.fmul a b = Py.fmul b a.
Proof. unfold Py.fmul. apply double_comp. ring. Qed.

Lemma fdiv_1_double (x : Q) : Py.fdiv (Py.double x) 1 = Ok (Py.double x).
Proof.
  unfold Py.fdiv.
  change (Qeq_bool 1 0) with false. cbv iota.
  rewrite (double_comp (Py.double x / 1) (Py.double x)) by (field).
  now rewrite double_idem.
Qed.

(** In the order [analyze] builds them, the four weights add up to 1.0
    without rounding error, and the weighted sum is the formula of the
    specification taken from left to right. *)
Lemma overall_score_standard (r : AnalysisResult.t) (c s sp l : Q) :
  map name_score (AnalysisResult.dimensions r) = standard_dimensions c s sp l ->
  AnalysisResult.overall_score r = Ok (Py.round1 (weighted_mean c s sp l)).
Proof.
  intro D. unfold AnalysisResult.overall_score.
  destruct (AnalysisResult.dimensions r) as [|d1 [|d2 [|d3 [|d4 [|d5 ds]]]]];
    try discriminate D.
  unfold standard_dimensions, name_score in D. cbn [map] in D.
  injection D as N1 S1 N2 S2 N3 S3 N4 S4.
  cbn [fold_left]. unfold AnalysisResult.accumulate. cbn [fst snd].
  rewrite N1, N2, N3, N4, S1, S2, S3, S4.
  change (dict_get AnalysisResult.weights "Clarity" (Py.double 0.25))
    with (Py.double 0.30).
  change (dict_get AnalysisResult.weights "Structure" (Py.double 0.25))
    with (Py.double 0.25).
  change (dict_get AnalysisResult.weights "Specificity" (Py.double 0.25))
    with (Py.double 0.25).
  change (dict_get AnalysisResult.weights "Length" (Py.double 0.25))
    with (Py.double 0.20).
  replace (Py.fadd
             (Py.fadd
                (Py.fadd (Py.fadd 0.0 (Py.double 0.30)) (Py.double 0.25))
                (Py.double 0.25)) (Py.double 0.20))
    with 1%Q by (vm_compute; reflexivity).
  change (Qeq_bool 1 0) with false. cbv iota.
  unfold Py.fmul at 1. rewrite fadd_0_double. fold (Py.fmul c (Py.double 0.30)).
  unfold Py.fadd at 1. rewrite fdiv_1_double. cbn [bind].
  unfold weighted_mean.
  rewrite (fmul_comm (Py.double 0.30) c), (fmul_comm (Py.double 0.25) s),
    (fmul_comm (Py.double 0.25) sp), (fmul_comm (Py.double 0.20) l).
  reflexivity.
Qed.

(** The double-precision mean of four scores in range is within
    [float_error] of their exact weighted mean. *)
Lemma weighted_mean_error (c s sp l : Q) :
  in_range c -> in_range s -> in_range sp -> in_range l ->
  (exact_mean c s sp l - float_error <= weighted_mean c s sp l
   /\ weighted_mean c s sp l <= exact_mean c s sp l + float_error)%Q.
Proof.
  unfold in_range, exact_mean, weighted_mean, float_error.
  intros C S SP L.
  let v := eval vm_compute in (Py.double 0.30) in
  replace (Py.double 0.30) with v by (vm_compute; reflexivity).
  let v := eval vm_compute in (Py.double 0.25) in
  replace (Py.double 0.25) with v by (vm_compute; reflexivity).
  let v := eval vm_compute in (Py.double 0.20) in
  replace (Py.double 0.20) with v by (vm_compute; reflexivity).
  unfold Py.fmul, Py.fadd.
  match goal with
  | |- context [Py.double (?w * c)] =>
      destruct (double_error (w * c)%Q ltac:(lra)) as [A1 A2];
      set (p1 := Py.double (w * c)) in *
  end.
  match goal with
  | |- context [Py.double (?w * s)] =>
      destruct (double_error (w * s)%Q ltac:(lra)) as [B1 B2];
      set (p2 := Py.double (w * s)) in *
  end.
  match goal with
  | |- context [Py.double (?w * sp)] =>
      destruct (double_error (w * sp)%Q ltac:(lra)) as [C1 C2];
      set (p3 := Py.double (w * sp)) in *
  end.
  match goal with
  | |- context [Py.double (?w * l)] =>
      destruct (double_error (w * l)%Q ltac:(lra)) as [D1 D2];
      set (p4 := Py.double (w * l)) in *
  end.
  unfold ulp_half in *.
  destruct (double_error (p1 + p2)%Q) as [E1 E2]; [unfold ulp_half; lra|].
  set (s1 := Py.double (p1 + p2)) in *.
  unfold ulp_half in *.
  destruct (double_error (s1 + p3)%Q) as [F1 F2]; [unfold ulp_half; lra|].
  set (s2 := Py.double (s1 + p3)) in *.
  unfold ulp_half in *.
  destruct (double_error (s2 + p4)%Q) as [G1 G2]; [unfold ulp_half; lra|].
  set (s3 := Py.double (s2 + p4)) in *.
  unfold ulp_half in *.
  split; lra.
Qed.

Lemma exact_mean_range (c s sp l : Q) :
  in_range c -> in_range s -> in_range sp -> in_range l ->
  (1 <= exact_mean c s sp l <= 10)%Q.
Proof. unfold in_range, exact_mean. intros. lra. Qed.

Lemma overall_score_range (c s sp l : Q) :
  in_range c -> in_range s -> in_range sp -> in_range l ->
  (1 <= Py.round1 (weighted_mean c s sp l) <= 10)%Q.
Proof.
  intros C S SP L.
  pose proof (weighted_mean_error c s sp l C S SP L) as [E1 E2].
  pose proof (exact_mean_range c s sp l C S SP L) as [R1 R2].
  unfold float_error in *. apply round1_range_wide. lra.
Qed.

(** The overall score is the exact weighted mean rounded to a tenth, up
    to the rounding errors of double arithmetic. *)
Lemma overall_score_error (c s sp l : Q) :
  in_range c -> in_range s -> in_range sp -> in_range l ->
  (exact_mean c s sp l - (1 # 20) - 2 * float_error
   <= Py.round1 (weighted_mean c s sp l)
   /\ Py.round1 (weighted_mean c s sp l)
      <= exact_mean c s sp l + (1 # 20) + 2 * float_error)%Q.
Proof.
  intros C S SP L.
  pose proof (weighted_mean_error c s sp l C S SP L) as [E1 E2].
  pose proof (exact_mean_range c s sp l C S SP L) as [R1 R2].
  destruct (round1_error (weighted_mean c s sp l)) as [N1 N2].
  { unfold float_error in *. lra. }
  unfold float_error in *. split; lra.
Qed.

Lemma overall_score_no_dimensions (r : AnalysisResult.t) :
  AnalysisResult.dimensions r = [] ->
  AnalysisResult.overall_score r = Ok 0.0%Q
  /\ AnalysisResult.overall_label r = Ok "Poor".
Proof.
  intro D. unfold AnalysisResult.overall_label, AnalysisResult.overall_score.
  rewrite D. split; reflexivity.
Qed.

(** ** Python's stable sort *)

Section Sorting.
Context {A : Type} (key : A -> Z).

Lemma insert_by_perm (x : A) (l : list A) :
  Permutation (x :: l) (insert_by key x l).
Proof.
  induction l as [|y l IH]; simpl; [reflexivity|].
  destruct (key x <=? key y); [reflexivity|].
  rewrite perm_swap. now constructor.
Qed.

Lemma sorted_perm (l : list A) : Permutation l (sorted key l).
Proof.
  induction l as [|x l IH]; simpl; [constructor|].
  rewrite <- insert_by_perm. now constructor.
Qed.

Lemma insert_by_sorted (x : A) (l : list A) :
  StronglySorted (key_le key) l ->
  StronglySorted (key_le key) (insert_by key x l).
Proof.
  induction 1 as [|y l S IH F]; simpl.
  - repeat constructor.
  - destruct (key x <=? key y) eqn:E.
    + apply Z.leb_le in E. constructor; [now constructor|].
      constructor; [exact E|].
      eapply Forall_impl; [|exact F]. unfold key_le. intros; lia.
    + apply Z.leb_gt in E. constructor; [exact IH|].
      apply (Permutation_Forall (insert_by_perm x l)).
      constructor; [unfold key_le; lia|exact F].
Qed.

Lemma sorted_sorted (l : list A) : StronglySorted (key_le key) (sorted key l).
Proof.
  induction l; simpl; [constructor|now apply insert_by_sorted].
Qed.

(** Stability: the elements of one key keep their relative order. *)
Lemma insert_by_filter (k : Z) (x : A) (l : list A) :
  StronglySorted (key_le key) l ->
  filter (fun a => key a =? k) (insert_by key x l)
  = filter (fun a => key a =? k) (x :: l).
Proof.
  induction 1 as [|y l S IH F]; [reflexivity|].
  cbn [insert_by]. destruct (key x <=? key y) eqn:E; [reflexivity|].
  apply Z.leb_gt in E.
  cbn [filter] in *. rewrite IH.
  destruct (key x =? k) eqn:Ex, (key y =? k) eqn:Ey; try reflexivity.
  apply Z.eqb_eq in Ex, Ey. lia.
Qed.

Lemma sorted_stable (k : Z) (l : list A) :
  filter (fun a => key a =? k) (sorted key l)
  = filter (fun a => key a =? k) l.
Proof.
  induction l as [|x l IH]; [reflexivity|].
  cbn [sorted]. rewrite insert_by_filter by apply sorted_sorted.
  cbn [filter]. now rewrite IH.
Qed.

Lemma sorted_nil (l : list A) : sorted key l = [] <-> l = [].
Proof.
  split; intro H.
  - apply Permutation_nil. rewrite <- H. symmetry. apply sorted_perm.
  - subst. reflexivity.
Qed.
End Sorting.

(** ** The suggestion loop *)

Lemma filter_filter {A : Type} (p q : A -> bool) (l : list A) :
  filter p (filter q l) = filter (fun x => q x && p x) l.
Proof.
  induction l as [|x l IH]; [reflexivity|].
  cbn [filter]. destruct (q x); cbn [filter andb]; rewrite IH; reflexivity.
Qed.

Lemma filter_true {A : Type} (l : list A) : filter (fun _ => true) l = l.
Proof. induction l; simpl; congruence. Qed.

Lemma NoDup_map_filter {A B : Type} (f : A -> B) (p : A -> bool) (l : list A) :
  NoDup (map f l) -> NoDup (map f (filter p l)).
Proof.
  induction l as [|x l IH]; cbn [map filter]; [auto|].
  intro H. inversion H as [|? ? Hn Hd]; subst.
  destruct (p x); cbn [map]; [|auto].
  constructor; [|auto]. rewrite in_map_iff in *.
  intros (y & E & Hy). apply Hn. exists y. split; [exact E|].
  apply filter_In in Hy. tauto.
Qed.

(** The loop with its [seen_ids] set appends the suggestions of the
    first detections not seen before. *)
Lemma suggest_loop (l : list DetectedAntiPattern.t) :
  forall sugg seen,
    fst (fold_left suggest_step l (sugg, seen))
    = (sugg ++ map pattern_suggestion (filter (unseen seen) (first_by_id l)))%list.
Proof.
  induction l as [|d l IH]; intros sugg seen.
  - simpl. now rewrite app_nil_r.
  - cbn [fold_left first_by_id filter]. unfold suggest_step at 2.
    fold (pattern_id d). fold (pattern_suggestion d).
    unfold unseen at 1.
    destruct (mem_str (pattern_id d) seen) eqn:M; cbn [negb].
    + rewrite IH. f_equal. f_equal. rewrite filter_filter.
      apply filter_ext. intro e. unfold other_id, unseen.
      destruct (pattern_id e =? pattern_id d)%string eqn:E; [|reflexivity].
      apply String.eqb_eq in E. rewrite E, M. reflexivity.
    + rewrite IH. unfold append. rewrite <- app_assoc. cbn [app map].
      f_equal. f_equal. f_equal. rewrite filter_filter.
      apply filter_ext. intro e. unfold other_id, unseen, mem_str.
      cbn [existsb]. now rewrite negb_orb.
Qed.

Lemma _generate_suggestions_eq dimensions anti_patterns :
  _generate_suggestions dimensions anti_patterns
  = match filter is_low dimensions,
          map pattern_suggestion
            (first_by_id (sorted severity_key anti_patterns)) with
    | [], [] => [encouragement]
    | _, base => base
    end.
Proof.
  unfold _generate_suggestions. cbv zeta.
  pose proof (suggest_loop (sorted severity_key anti_patterns) [] []) as H.
  destruct (fold_left suggest_step (sorted severity_key anti_patterns) ([], []))
    as [suggestions seen_ids].
  cbn [fst app] in H. unfold unseen in H. cbn [mem_str existsb negb] in H.
  rewrite filter_true in H. rewrite <- H.
  fold is_low. destruct (filter is_low dimensions); destruct suggestions;
    reflexivity.
Qed.

Lemma first_by_id_length l :
  (List.length (first_by_id l) <= List.length l)%nat.
Proof.
  induction l as [|d l IH]; simpl; [lia|].
  pose proof (filter_length_le (other_id d) (first_by_id l)). lia.
Qed.

Lemma first_by_id_nil l : first_by_id l = [] <-> l = [].
Proof. destruct l; simpl; split; congruence. Qed.

Lemma first_by_id_NoDup l : NoDup (map pattern_id (first_by_id l)).
Proof.
  induction l as [|d l IH]; cbn [first_by_id map]; constructor.
  - rewrite in_map_iff. intros (e & E & He). apply filter_In in He.
    destruct He as [_ He]. unfold other_id in He.
    rewrite E, String.eqb_refl in He. discriminate.
  - now apply NoDup_map_filter.
Qed.

Lemma first_by_id_covers l d :
  In d l -> In (pattern_id d) (map pattern_id (first_by_id l)).
Proof.
  induction l as [|d0 l IH]; [intros []|].
  intro H. cbn [first_by_id map].
  destruct (String.eqb_spec (pattern_id d) (pattern_id d0)) as [E|NE].
  - left. now symmetry.
  - right. destruct H as [->|H]; [congruence|].
    apply IH in H. rewrite in_map_iff in *. destruct H as (e & E & He).
    exists e. split; [exact E|]. apply filter_In. split; [exact He|].
    unfold other_id. rewrite E. apply negb_true_iff. now apply String.eqb_neq.
Qed.

Lemma first_by_id_distinct l :
  NoDup (map pattern_id l) -> first_by_id l = l.
Proof.
  induction l as [|d l IH]; [reflexivity|].
  cbn [map first_by_id]. intro H. inversion H as [|? ? Hn Hd]; subst.
  rewrite IH by assumption. f_equal.
  apply forallb_filter_id. apply forallb_forall. intros e He.
  unfold other_id. apply negb_true_iff, String.eqb_neq. intro E. apply Hn.
  rewrite <- E. now apply in_map.
Qed.

Lemma base_nil aps :
  map pattern_suggestion (first_by_id (sorted severity_key aps)) = []
  <-> aps = [].
Proof.
  rewrite <- (sorted_nil severity_key aps), <- first_by_id_nil.
  destruct (first_by_id (sorted severity_key aps)); simpl; split; congruence.
Qed.

Lemma base_length aps :
  (List.length (map pattern_suggestion (first_by_id (sorted severity_key aps)))
   <= List.length aps)%nat.
Proof.
  rewrite length_map. etransitivity; [apply first_by_id_length|].
  now rewrite <- (Permutation_length (sorted_perm severity_key aps)).
Qed.

Lemma is_low_true (d : DimensionScore.t) :
  is_low d = true <-> (DimensionScore.score d < 6)%Q.
Proof. unfold is_low. rewrite fltb_true. split; intro; lra. Qed.

Lemma filter_is_low_nil (ds : list DimensionScore.t) :
  filter is_low ds = []
  <-> Forall (fun d => ~ (DimensionScore.score d < 6)%Q) ds.
Proof.
  induction ds as [|d ds IH]; cbn [filter].
  - split; [constructor|reflexivity].
  - destruct (is_low d) eqn:E.
    + split; [discriminate|]. intro H. inversion H; subst.
      apply is_low_true in E. contradiction.
    + rewrite IH. split.
      * intro H. constructor; [|exact H].
        intro L. apply is_low_true in L. congruence.
      * intro H. now inversion H.
Qed.

(** ** The detector *)

Section Detector.
Variables text text_lower : string.

Lemma detect_in_flat_map (catalog : list AntiPattern.t) :
  detect_in catalog text text_lower
  = flat_map (detect_one text text_lower) catalog.
Proof.
  unfold detect_in.
  enough (G : forall acc,
    fold_left (detect_step text text_lower) catalog acc
    = (acc ++ flat_map (detect_one text text_lower) catalog)%list)
    by apply (G []).
  induction catalog as [|ap cat IH]; intro acc; cbn [fold_left flat_map].
  - now rewrite app_nil_r.
  - rewrite IH. unfold detect_step, detect_one, append.
    destruct (check_pattern text text_lower ap); [|reflexivity].
    now rewrite <- app_assoc.
Qed.

Lemma in_detect_in (catalog : list AntiPattern.t) (d : DetectedAntiPattern.t) :
  In d (detect_in catalog text text_lower)
  <-> exists ap evidence,
        In ap catalog /\ check_pattern text text_lower ap = Some evidence
        /\ d = DetectedAntiPattern.mk ap evidence.
Proof.
  rewrite detect_in_flat_map, in_flat_map. unfold detect_one. split.
  - intros (ap & Hin & Hd).
    destruct (check_pattern text text_lower ap) eqn:E.
    + destruct Hd as [<-|[]]. eauto.
    + destruct Hd.
  - intros (ap & e & Hin & E & ->). exists ap. rewrite E.
    split; [exact Hin|now left].
Qed.

Lemma detect_in_length (catalog : list AntiPattern.t) :
  (List.length (detect_in catalog text text_lower) <= List.length catalog)%nat.
Proof.
  rewrite detect_in_flat_map.
  induction catalog as [|ap cat IH]; cbn [flat_map List.length]; [lia|].
  rewrite length_app. unfold detect_one at 1.
  destruct (check_pattern text text_lower ap); simpl; lia.
Qed.

Lemma evidence_form_nonempty (e : string) : evidence_form text e -> e <> "".
Proof.
  destruct 1 as [msg H| |m|kw]; try discriminate.
  simpl in H. intuition (subst; discriminate).
Qed.

Lemma first_signal_form (signals : list Pattern) (e : string) :
  first_signal text signals = Some e -> evidence_form text e.
Proof.
  induction signals as [|p ps IH]; simpl; [discriminate|].
  destruct (Re.search p text); [|exact IH].
  intros [= <-]. apply ev_matched.
Qed.

Lemma first_keyword_form (keywords : list string) (e : string) :
  first_keyword text_lower keywords = Some e -> evidence_form text e.
Proof.
  induction keywords as [|kw kws IH]; simpl; [discriminate|].
  destruct (Py.contains kw text_lower); [|exact IH].
  intros [= <-]. apply ev_contains.
Qed.

Lemma check_pattern_form (ap : AntiPattern.t) (e : string) :
  check_pattern text text_lower ap = Some e -> evidence_form text e.
Proof.
  unfold check_pattern. cbv zeta.
  repeat match goal with
         | |- context [if (?a =? ?b)%string then _ else _] =>
             destruct (a =? b)%string
         end;
    try (match goal with
         | |- context [if ?c then _ else _] => destruct c
         end; [|discriminate]; intros [= <-];
         first [ apply ev_count | apply ev_fixed; simpl; tauto ]).
  destruct (first_signal text (AntiPattern.positive_signals ap)) eqn:E.
  - intros [= <-]. eapply first_signal_form, E.
  - apply first_keyword_form.
Qed.

Lemma detect_in_evidence (catalog : list AntiPattern.t) :
  Forall (fun d => evidence_form text (DetectedAntiPattern.evidence d))
    (detect_in catalog text text_lower).
Proof.
  apply Forall_forall. intros d Hd. apply in_detect_in in Hd.
  destruct Hd as (ap & e & _ & Hc & ->). simpl.
  eapply check_pattern_form, Hc.
Qed.

Lemma check_multiple_requests :
  check_pattern text text_lower MULTIPLE_REQUESTS
  = if _count_distinct_tasks text >=? 3
    then Some ("Detected ~" ++ Py.str_of_int (_count_distinct_tasks text)
               ++ " distinct tasks/requests")
    else None.
Proof. reflexivity. Qed.

End Detector.

Lemma multiple_requests_unique (ap : AntiPattern.t) :
  In ap ALL_PATTERNS -> AntiPattern.id ap = "multiple_requests" ->
  ap = MULTIPLE_REQUESTS.
Proof.
  unfold ALL_PATTERNS. simpl.
  intros [<-|[<-|[<-|[<-|[<-|[<-|[<-|[<-|[]]]]]]]]]; simpl; intro H;
    try discriminate H; reflexivity.
Qed.

(** ** Strings and positions *)

Section Strings.
Local Open Scope nat_scope.

Lemma sapp_assoc (a b c : string) : (a ++ b) ++ c = a ++ b ++ c.
Proof. induction a; simpl; congruence. Qed.

Lemma sapp_nil_r (a : string) : a ++ "" = a.
Proof. induction a; simpl; congruence. Qed.

Lemma slen_app (a b : string) : String.length (a ++ b) = String.length a + String.length b.
Proof. induction a; simpl; congruence. Qed.

Lemma skip_app (a b : string) : skip (String.length a) (a ++ b) = b.
Proof. induction a; simpl; auto. Qed.

Lemma take_skip (n : nat) (s : string) : take n s ++ skip n s = s.
Proof.
  revert s. induction n as [|n IH]; intros [|c s]; simpl; auto. now rewrite IH.
Qed.

Lemma take_length (n : nat) (s : string) :
  n <= String.length s -> String.length (take n s) = n.
Proof.
  revert s. induction n as [|n IH]; intros [|c s]; simpl; intro H;
    try reflexivity; try lia.
  f_equal. apply IH. lia.
Qed.

Lemma skip_length (n : nat) (s : string) :
  String.length (skip n s) = String.length s - n.
Proof.
  revert s. induction n as [|n IH]; intros [|c s]; simpl; rewrite ?IH; lia.
Qed.

Lemma skip_app_ge (a b : string) (k : nat) :
  String.length a <= k -> skip k (a ++ b) = skip (k - String.length a) b.
Proof.
  revert k. induction a as [|c a IH]; intros k H; simpl in *.
  - now rewrite Nat.sub_0_r.
  - destruct k as [|k]; [lia|]. simpl. apply IH. lia.
Qed.

Lemma skip_app_lt (a b : string) (k : nat) :
  k <= String.length a -> skip k (a ++ b) = skip k a ++ b.
Proof.
  revert k. induction a as [|c a IH]; intros k H; simpl in *.
  - replace k with 0 by lia. reflexivity.
  - destruct k as [|k]; [reflexivity|]. simpl. apply IH. lia.
Qed.

Lemma char_at_app_l (a b : string) (k : nat) :
  k < String.length a -> char_at (a ++ b) k = char_at a k.
Proof.
  intro H. unfold char_at. rewrite skip_app_lt by lia.
  destruct (skip k a) eqn:E; [|reflexivity].
  pose proof (skip_length k a) as L. rewrite E in L. simpl in L. lia.
Qed.

Lemma char_at_app_r (a b : string) (k : nat) :
  String.length a <= k -> char_at (a ++ b) k = char_at b (k - String.length a).
Proof. intro H. unfold char_at. now rewrite skip_app_ge. Qed.

Lemma all_char_at (p : ascii -> bool) (s : string) (k : nat) (c : ascii) :
  all p s = true -> char_at s k = Some c -> p c = true.
Proof.
  revert k. induction s as [|d s IH]; intros k A H.
  - destruct k; discriminate.
  - simpl in A. apply andb_true_iff in A. destruct A as [A1 A2].
    destruct k as [|k]; unfold char_at in *; simpl in *.
    + now injection H as <-.
    + eapply IH; eauto.
Qed.

Lemma char_at_some (s : string) (k : nat) :
  k < String.length s -> exists c, char_at s k = Some c.
Proof.
  intro H. unfold char_at. destruct (skip k s) eqn:E; [|simpl; eauto].
  pose proof (skip_length k s) as L. rewrite E in L. simpl in L. lia.
Qed.

Lemma last_or_app (p : option ascii) (a b : string) :
  last_or p (a ++ b) = last_or (last_or p a) b.
Proof. revert p. induction a; simpl; auto. Qed.

Lemma take_word_app (m rest : string) :
  all (fun c => is_word (Some c)) m = true -> is_word (head rest) = false ->
  take_word (m ++ rest) = m.
Proof.
  induction m as [|c m IH]; cbn [String.append take_word all]; intros A H.
  - destruct rest; [reflexivity|]. cbn [take_word]. cbn [head] in H.
    now rewrite H.
  - apply andb_true_iff in A. destruct A as [A1 A2].
    rewrite A1. now rewrite IH.
Qed.

End Strings.

(** ** The matcher finds the matches of a pattern *)

Section MatcherCorrect.
Variable ic : bool.
Context {A : Type}.

Lemma star_sound a (k : @cont A) s : forall prev x,
  star ic a k prev s = Some x ->
  exists p' s', lang ic (Star a) prev s p' s' /\ k p' s' = Some x.
Proof.
  induction s as [|c s IH]; intros prev x H; cbn [star] in H.
  - exists prev, "". split; [constructor|exact H].
  - destruct (atom_ok ic a c) eqn:E.
    + destruct (star ic a k (Some c) s) eqn:S.
      * injection H as <-. destruct (IH _ _ S) as (p' & s' & L & K).
        exists p', s'. split; [now apply lang_star_cons|exact K].
      * exists prev, (String c s). split; [constructor|exact H].
    + exists prev, (String c s). split; [constructor|exact H].
Qed.

Lemma star_complete a (k : @cont A) s : forall prev,
  star ic a k prev s = None ->
  forall p' s', lang ic (Star a) prev s p' s' -> k p' s' = None.
Proof.
  induction s as [|c s IH]; intros prev H p' s' L; cbn [star] in H.
  - inversion L; subst. exact H.
  - inversion L; subst.
    + destruct (atom_ok ic a c); [|exact H].
      destruct (star ic a k (Some c) s); [discriminate|exact H].
    + match goal with E : atom_ok _ _ _ = true |- _ => rewrite E in H end.
      destruct (star ic a k (Some c) s) eqn:S; [discriminate|].
      eapply IH; eassumption.
Qed.

Lemma run_sound r : forall (k : @cont A) prev s x,
  run ic r prev s k = Some x ->
  exists p' s', lang ic r prev s p' s' /\ k p' s' = Some x.
Proof.
  induction r as [|a|r1 IH1 r2 IH2|r1 IH1 r2 IH2|a| | |];
    intros k prev s x H; cbn [run] in H.
  - exists prev, s. split; [constructor|exact H].
  - destruct s as [|c s]; [discriminate|].
    destruct (atom_ok ic a c) eqn:E; [|discriminate].
    exists (Some c), s. split; [now constructor|exact H].
  - apply IH1 in H. destruct H as (p1 & s1 & L1 & H).
    apply IH2 in H. destruct H as (p2 & s2 & L2 & H).
    exists p2, s2. split; [econstructor; eassumption|exact H].
  - destruct (run ic r1 prev s k) eqn:R1.
    + injection H as <-. apply IH1 in R1. destruct R1 as (p' & s' & L & K).
      exists p', s'. split; [now apply lang_alt_l|exact K].
    + apply IH2 in H. destruct H as (p' & s' & L & K).
      exists p', s'. split; [now apply lang_alt_r|exact K].
  - now apply star_sound.
  - destruct prev; [discriminate|].
    exists None, s. split; [constructor|exact H].
  - destruct s as [|c [|c' s]].
    + exists prev, "". split; [constructor; now left|exact H].
    + destruct (Ascii.eqb_spec c "010"); [|discriminate]. subst c.
      eexists prev, _. split; [constructor; now right|exact H].
    + discriminate.
  - destruct (xorb (is_word prev) (is_word (head s))) eqn:E; [|discriminate].
    exists prev, s. split; [now constructor|exact H].
Qed.

Lemma run_complete r : forall (k : @cont A) prev s,
  run ic r prev s k = None ->
  forall p' s', lang ic r prev s p' s' -> k p' s' = None.
Proof.
  induction r as [|a|r1 IH1 r2 IH2|r1 IH1 r2 IH2|a| | |];
    intros k prev s H p' s' L; cbn [run] in H; inversion L; subst.
  - exact H.
  - match goal with E : atom_ok _ _ _ = true |- _ => rewrite E in H end.
    exact H.
  - match goal with
    | L1 : lang _ r1 _ _ ?p1 ?s1, L2 : lang _ r2 ?p1 ?s1 _ _ |- _ =>
        apply (IH2 k p1 s1 (IH1 _ _ _ H p1 s1 L1) _ _ L2)
    end.
  - destruct (run ic r1 prev s k) eqn:R1; [discriminate|].
    eapply IH1; eassumption.
  - destruct (run ic r1 prev s k) eqn:R1; [discriminate|].
    eapply IH2; eassumption.
  - eapply star_complete; [exact H|constructor].
  - eapply star_complete; [exact H|]. now apply lang_star_cons.
  - exact H.
  - match goal with E : _ \/ _ |- _ => destruct E as [->| ->] end;
      [exact H|]. exact H.
  - match goal with E : xorb _ _ = true |- _ => rewrite E in H end.
    exact H.
Qed.
End MatcherCorrect.

(** ** The task-starter pattern, read as the specification words it *)

Section PatternLanguage.
Local Open Scope nat_scope.

Lemma lang_reads ic r : anchor_free r = true ->
  forall p s p' s', lang ic r p s p' s' -> reads (strlang ic r) p s p' s'.
Proof.
  intros AF p s p' s' L. induction L; cbn [anchor_free] in AF;
    try discriminate; try (apply andb_true_iff in AF; destruct AF as [AF1 AF2]).
  - exists "". repeat split. constructor.
  - exists (String c ""). repeat split. now constructor.
  - destruct (IHL1 AF1) as (m1 & -> & S1 & ->).
    destruct (IHL2 AF2) as (m2 & -> & S2 & ->).
    exists (m1 ++ m2). rewrite sapp_assoc, last_or_app.
    repeat split. now constructor.
  - destruct (IHL AF1) as (m & -> & S & ->). exists m. repeat split.
    now apply sl_alt_l.
  - destruct (IHL AF2) as (m & -> & S & ->). exists m. repeat split.
    now apply sl_alt_r.
  - exists "". repeat split. constructor.
  - destruct (IHL AF) as (m & -> & S & ->). exists (String c m).
    repeat split. now constructor.
Qed.

Lemma reads_lang ic r m : strlang ic r m ->
  forall p s', lang ic r p (m ++ s') (last_or p m) s'.
Proof.
  induction 1; intros p s'; cbn [String.append last_or].
  - constructor.
  - now constructor.
  - rewrite sapp_assoc, last_or_app. econstructor; eauto.
  - now apply lang_alt_l.
  - now apply lang_alt_r.
  - constructor.
  - apply lang_star_cons; auto.
Qed.

(** Literal words, read without regard to case. *)
Lemma strlang_lit (w m : string) :
  strlang true (lit w) m <-> Py.lower m = Py.lower w.
Proof.
  revert m. induction w as [|c w IH]; intro m; cbn [lit Py.lower].
  - split.
    + inversion 1. reflexivity.
    + destruct m; [constructor|discriminate].
  - split.
    + inversion 1 as [| |? ? m1 m2 S1 S2| | | |]; subst.
      inversion S1 as [|? d E| | | | |]; subst.
      cbn [String.append Py.lower]. apply IH in S2. rewrite S2.
      cbn [atom_ok] in E. apply Ascii.eqb_eq in E. now rewrite E.
    + destruct m as [|d m]; [discriminate|]. cbn [Py.lower].
      intros [= E1 E2]. change (String d m) with (String d "" ++ m).
      constructor; [|now apply IH].
      constructor. cbn [atom_ok]. now apply Ascii.eqb_eq.
Qed.

Lemma strlang_words (w : string) (ws : list string) (m : string) :
  strlang true (words w ws) m <-> In (Py.lower m) (map Py.lower (w :: ws)).
Proof.
  revert w. induction ws as [|w' ws IH]; intro w; cbn [words].
  - rewrite strlang_lit. simpl. split; [auto|]. intros [H|[]]. auto.
  - split.
    + inversion 1; subst.
      * left. symmetry. now apply strlang_lit.
      * right. now apply IH.
    + intros [H|H].
      * apply sl_alt_l. apply strlang_lit. auto.
      * apply sl_alt_r. now apply IH.
Qed.

Lemma strlang_star_space ic (m : string) :
  strlang ic (Star Space) m <-> all Py.isspace m = true.
Proof.
  split.
  - induction m as [|c m IH]; [reflexivity|].
    inversion 1; subst. cbn [all]. cbn [atom_ok] in *.
    apply andb_true_iff. split; auto.
  - induction m as [|c m IH]; [constructor|].
    cbn [all]. intro H. apply andb_true_iff in H. destruct H.
    constructor; auto.
Qed.

Lemma strlang_sp ic (m : string) : strlang ic sp m <-> spaces m.
Proof.
  unfold sp, Plus, spaces. split.
  - inversion 1 as [| |? ? m1 m2 S1 S2| | | |]; subst.
    inversion S1; subst. cbn [String.append all]. split; [discriminate|].
    apply strlang_star_space in S2. cbn [atom_ok] in *.
    apply andb_true_iff. auto.
  - intros [NE A]. destruct m as [|c m]; [congruence|].
    cbn [all] in A. apply andb_true_iff in A. destruct A as [A1 A2].
    change (String c m) with (String c "" ++ m).
    constructor; [now constructor|]. now apply strlang_star_space.
Qed.

Lemma strlang_cat_inv ic r1 r2 m :
  strlang ic (Cat r1 r2) m ->
  exists m1 m2, m = m1 ++ m2 /\ strlang ic r1 m1 /\ strlang ic r2 m2.
Proof. inversion 1; subst; eauto. Qed.

Lemma strlang_opt_inv ic r m :
  strlang ic (Opt r) m -> strlang ic r m \/ m = "".
Proof.
  unfold Opt. inversion 1 as [| | |? ? ? S|? ? ? S| |]; subst; auto.
  inversion S. auto.
Qed.

Lemma strlang_alt_inv ic r1 r2 m :
  strlang ic (Alt r1 r2) m -> strlang ic r1 m \/ strlang ic r2 m.
Proof. inversion 1; subst; auto. Qed.

Lemma strlang_opt_some ic r m : strlang ic r m -> strlang ic (Opt r) m.
Proof. apply sl_alt_l. Qed.

Lemma strlang_opt_none ic r : strlang ic (Opt r) "".
Proof. apply sl_alt_r. constructor. Qed.

Lemma phrase_one (w m sp : string) :
  Py.lower m = w -> spaces sp -> phrase [w] (m ++ sp).
Proof.
  intros. rewrite <- (sapp_nil_r sp). constructor; auto. constructor.
Qed.

Lemma phrase_app l1 l2 x y :
  phrase l1 x -> phrase l2 y -> phrase (l1 ++ l2)%list (x ++ y).
Proof.
  induction 1; intro P2; cbn [app String.append]; [exact P2|].
  rewrite !sapp_assoc. constructor; auto.
Qed.

Lemma phrase_app_inv l1 l2 t :
  phrase (l1 ++ l2)%list t ->
  exists x y, t = x ++ y /\ phrase l1 x /\ phrase l2 y.
Proof.
  revert t. induction l1 as [|w l1 IH]; intros t P; cbn [app] in P.
  - exists "", t. repeat split; [constructor|exact P].
  - inversion P as [|? ? m sp x E S P']; subst.
    destruct (IH _ P') as (x1 & y & -> & P1 & P2).
    exists (m ++ sp ++ x1), y. rewrite !sapp_assoc.
    repeat split; [now constructor|exact P2].
Qed.

Lemma strlang_word_sp (w x : string) :
  strlang true (lit w ;; sp) x <-> phrase [Py.lower w] x.
Proof.
  split.
  - intro H. apply strlang_cat_inv in H. destruct H as (m & ws & -> & L & S).
    apply strlang_lit in L. apply strlang_sp in S. now apply phrase_one.
  - inversion 1 as [|? ? m ws y E S P]; subst. inversion P; subst.
    rewrite sapp_nil_r. constructor; [now apply strlang_lit|now apply strlang_sp].
Qed.

Lemma strlang_can_you (x : string) :
  strlang true (lit "can" ;; sp ;; lit "you" ;; sp ;; Opt (lit "also" ;; sp)) x
  <-> phrase ["can"; "you"] x \/ phrase ["can"; "you"; "also"] x.
Proof.
  split.
  - intro H.
    apply strlang_cat_inv in H. destruct H as (m1 & r1 & -> & L1 & H).
    apply strlang_cat_inv in H. destruct H as (s1 & r2 & -> & S1 & H).
    apply strlang_cat_inv in H. destruct H as (m2 & r3 & -> & L2 & H).
    apply strlang_cat_inv in H. destruct H as (s2 & o & -> & S2 & H).
    apply strlang_lit in L1, L2. apply strlang_sp in S1, S2.
    apply strlang_opt_inv in H. destruct H as [H| ->].
    + right. apply (strlang_word_sp "also") in H.
      apply (phrase_cons _ _ _ _ _ L1 S1).
      apply (phrase_cons _ _ _ _ _ L2 S2). exact H.
    + left. apply (phrase_cons _ _ _ _ _ L1 S1).
      apply (phrase_cons _ _ _ _ _ L2 S2). constructor.
  - intros [P|P].
    + inversion P as [|? ? m1 s1 x1 E1 S1 P1]; subst.
      inversion P1 as [|? ? m2 s2 x2 E2 S2 P2]; subst. inversion P2; subst.
      constructor; [now apply strlang_lit|].
      constructor; [now apply strlang_sp|].
      constructor; [now apply strlang_lit|].
      constructor; [now apply strlang_sp|]. apply strlang_opt_none.
    + inversion P as [|? ? m1 s1 x1 E1 S1 P1]; subst.
      inversion P1 as [|? ? m2 s2 x2 E2 S2 P2]; subst.
      constructor; [now apply strlang_lit|].
      constructor; [now apply strlang_sp|].
      constructor; [now apply strlang_lit|].
      constructor; [now apply strlang_sp|].
      apply strlang_opt_some. now apply (strlang_word_sp "also").
Qed.

Lemma transition_spec (t : string) :
  strlang true transition t <-> transition_phrase t.
Proof.
  unfold transition, transition_phrase. split.
  - intro H. apply strlang_opt_inv in H. destruct H as [H| ->].
    2:{ exists []. split; [simpl; auto|constructor]. }
    apply strlang_cat_inv in H. destruct H as (t1 & t2 & -> & H1 & H2).
    assert (P1 : phrase [] t1 \/ phrase ["and"] t1).
    { apply strlang_opt_inv in H1. destruct H1 as [H1| ->].
      - right. now apply (strlang_word_sp "and") in H1.
      - left. constructor. }
    assert (P2 : phrase [] t2 \/ phrase ["also"] t2
                 \/ phrase ["can"; "you"] t2 \/ phrase ["can"; "you"; "also"] t2).
    { apply strlang_opt_inv in H2. destruct H2 as [H2| ->].
      - apply strlang_alt_inv in H2. destruct H2 as [H2|H2].
        + right. left. now apply (strlang_word_sp "also") in H2.
        + right. right. now apply strlang_can_you.
      - left. constructor. }
    destruct P1 as [P1|P1];
      destruct P2 as [P2|[P2|[P2|P2]]];
      pose proof (phrase_app _ _ _ _ P1 P2) as P; cbn [app] in P;
      eexists; (split; [|exact P]); simpl; tauto.
  - intros (ws & Hin & P).
    assert (S : exists l1 l2, ws = (l1 ++ l2)%list
                /\ (l1 = [] \/ l1 = ["and"])
                /\ (l2 = [] \/ l2 = ["also"] \/ l2 = ["can"; "you"]
                    \/ l2 = ["can"; "you"; "also"])).
    { simpl in Hin.
      destruct Hin as [<-|[<-|[<-|[<-|[<-|[<-|[<-|[<-|[]]]]]]]]].
      - exists [], []. tauto.
      - exists ["and"], []. tauto.
      - exists [], ["also"]. tauto.
      - exists [], ["can"; "you"]. tauto.
      - exists [], ["can"; "you"; "also"]. tauto.
      - exists ["and"], ["also"]. tauto.
      - exists ["and"], ["can"; "you"]. tauto.
      - exists ["and"], ["can"; "you"; "also"]. tauto. }
    destruct S as (l1 & l2 & -> & H1 & H2).
    apply phrase_app_inv in P. destruct P as (x & y & -> & P1 & P2).
    apply strlang_opt_some. constructor.
    + destruct H1 as [->| ->].
      * inversion P1. apply strlang_opt_none.
      * apply strlang_opt_some. now apply (strlang_word_sp "and").
    + destruct H2 as [->|[->|[->| ->]]].
      * inversion P2. apply strlang_opt_none.
      * apply strlang_opt_some. apply sl_alt_l.
        now apply (strlang_word_sp "also").
      * apply strlang_opt_some. apply sl_alt_r. apply strlang_can_you. now left.
      * apply strlang_opt_some. apply sl_alt_r. apply strlang_can_you. now right.
Qed.

Lemma lower_alpha_char (c : ascii) :
  alpha_char (Py.lower_char c) = true -> word_char c = true.
Proof. each_char c; vm_compute; auto. Qed.

Lemma lower_newline (c : ascii) :
  Py.lower_char c = newline -> c = newline.
Proof. each_char c; vm_compute; intro H; try reflexivity; discriminate H. Qed.

Lemma space_not_word (c : ascii) :
  Py.isspace c = true -> word_char c = false.
Proof. each_char c; vm_compute; auto. Qed.

Lemma punct_not_word (c : ascii) :
  Py.mem_char c ".!?" = true -> word_char c = false.
Proof. each_char c; vm_compute; auto. Qed.

Lemma lower_alpha (m : string) :
  all alpha_char (Py.lower m) = true -> all word_char m = true.
Proof.
  induction m as [|c m IH]; cbn [Py.lower all]; [auto|].
  intro H. apply andb_true_iff in H. destruct H as [H1 H2].
  apply andb_true_iff. split; [now apply lower_alpha_char|auto].
Qed.

Lemma task_verb_word (v : string) :
  task_verb v -> v <> "" /\ all word_char v = true.
Proof.
  unfold task_verb. intro H. split.
  - intros ->. vm_compute in H. intuition discriminate.
  - apply lower_alpha.
    assert (F : forallb (all alpha_char) TASK_VERBS = true) by reflexivity.
    rewrite forallb_forall in F. now apply F.
Qed.

Lemma last_or_word (p : option ascii) (v : string) :
  v <> "" -> all word_char v = true -> is_word (last_or p v) = true.
Proof.
  revert p. induction v as [|c v IH]; intros p NE A; [congruence|].
  cbn [all] in A. apply andb_true_iff in A. destruct A as [A1 A2].
  cbn [last_or]. destruct v as [|d v]; [exact A1|].
  apply IH; [discriminate|exact A2].
Qed.

Lemma lang_cat_inv ic r1 r2 p s p2 s2 :
  lang ic (Cat r1 r2) p s p2 s2 ->
  exists p1 s1, lang ic r1 p s p1 s1 /\ lang ic r2 p1 s1 p2 s2.
Proof. inversion 1; subst; eauto. Qed.

Lemma lang_alt_inv ic r1 r2 p s p' s' :
  lang ic (Alt r1 r2) p s p' s' ->
  lang ic r1 p s p' s' \/ lang ic r2 p s p' s'.
Proof. inversion 1; subst; auto. Qed.

Lemma clause_boundary_spec (prev : option ascii) (s : string) p' s' :
  lang true clause_boundary prev s p' s'
  <-> exists b, s = b ++ s' /\ boundary (is_none prev) b /\ p' = last_or prev b.
Proof.
  unfold clause_boundary. split.
  - intro H. apply lang_alt_inv in H. destruct H as [H|H];
      [apply lang_alt_inv in H; destruct H as [H|H]|].
    + inversion H; subst. exists "". repeat split. now constructor.
    + apply lang_reads in H; [|reflexivity].
      destruct H as (m & -> & S & ->).
      apply strlang_cat_inv in S. destruct S as (m1 & m2 & -> & S1 & S2).
      inversion S1; subst. apply strlang_sp in S2.
      eexists. repeat split. cbn [String.append]. now apply boundary_punct.
    + apply lang_reads in H; [|reflexivity].
      destruct H as (m & -> & S & ->).
      apply strlang_cat_inv in S. destruct S as (m1 & m2 & -> & S1 & S2).
      inversion S1 as [|? c E| | | | |]; subst. apply strlang_star_space in S2.
      cbn [atom_ok] in E. apply Ascii.eqb_eq in E.
      change (Py.lower_char newline) with newline in E.
      apply lower_newline in E. subst c.
      eexists. repeat split. cbn [String.append]. now apply boundary_newline.
  - intros (b & -> & B & ->). destruct B as [E|p ws M S|ws A].
    + destruct prev; [discriminate|]. apply lang_alt_l, lang_alt_l. constructor.
    + apply lang_alt_l, lang_alt_r.
      change (String p ws) with (String p "" ++ ws).
      apply reads_lang. constructor; [now constructor|now apply strlang_sp].
    + apply lang_alt_r.
      change (String newline ws) with (String newline "" ++ ws).
      apply reads_lang. constructor; [now constructor|].
      now apply strlang_star_space.
Qed.

Lemma verb_pattern_spec (v : string) :
  strlang true verb_pattern v <-> task_verb v.
Proof. unfold verb_pattern. rewrite strlang_words. reflexivity. Qed.

Lemma task_starter_spec (prev : option ascii) (s : string) p' s' :
  lang true (pattern task_starter) prev s p' s'
  <-> exists b t v,
        s = b ++ t ++ v ++ s' /\ starts_task (is_none prev) b t v s'
        /\ p' = last_or prev (b ++ t ++ v).
Proof.
  cbn [pattern task_starter]. unfold starts_task. split.
  - intro H.
    apply lang_cat_inv in H. destruct H as (p1 & s1 & H1 & H).
    apply lang_cat_inv in H. destruct H as (p2 & s2 & H2 & H).
    apply lang_cat_inv in H. destruct H as (p3 & s3 & H3 & H4).
    apply clause_boundary_spec in H1. destruct H1 as (b & -> & B & ->).
    apply lang_reads in H2; [|reflexivity].
    destruct H2 as (t & -> & T & ->). apply transition_spec in T.
    apply lang_reads in H3; [|reflexivity].
    destruct H3 as (v & -> & V & ->). apply verb_pattern_spec in V.
    inversion H4 as [| | | | | | | | |? ? X]; subst.
    destruct (task_verb_word v V) as [NE W].
    rewrite (last_or_word _ v NE W) in X.
    exists b, t, v. rewrite !last_or_app. repeat split; auto.
    destruct (is_word (head s')); [discriminate|reflexivity].
  - intros (b & t & v & -> & (B & T & V & W) & ->).
    rewrite !last_or_app.
    econstructor; [apply clause_boundary_spec; eauto|].
    econstructor; [apply reads_lang, transition_spec, T|].
    econstructor; [apply reads_lang, verb_pattern_spec, V|].
    constructor. destruct (task_verb_word v V) as [NE A].
    rewrite (last_or_word _ v NE A), W. reflexivity.
Qed.

Lemma match_here_sound (prev : option ascii) (s : string) (n : nat) :
  match_here task_starter prev s = Some n ->
  exists b t v post,
    s = b ++ t ++ v ++ post /\ n = String.length (b ++ t ++ v)
    /\ starts_task (is_none prev) b t v post.
Proof.
  unfold match_here. intro H.
  destruct (run (ignorecase task_starter) (pattern task_starter) prev s
              (fun _ rest => Some rest)) as [rest|] eqn:R; [|discriminate].
  injection H as <-. apply run_sound in R.
  destruct R as (p' & s' & L & [= ->]).
  apply task_starter_spec in L. destruct L as (b & t & v & -> & ST & _).
  exists b, t, v, rest. split; [reflexivity|]. split; [|exact ST].
  rewrite <- !sapp_assoc, slen_app. lia.
Qed.

Lemma match_here_complete (prev : option ascii) (b t v post : string) :
  starts_task (is_none prev) b t v post ->
  match_here task_starter prev (b ++ t ++ v ++ post) <> None.
Proof.
  intros ST H. unfold match_here in H.
  destruct (run (ignorecase task_starter) (pattern task_starter) prev
              (b ++ t ++ v ++ post) (fun _ rest => Some rest)) eqn:R;
    [discriminate|].
  assert (L : lang true (pattern task_starter) prev (b ++ t ++ v ++ post)
                (last_or prev (b ++ t ++ v)) post).
  { apply task_starter_spec. exists b, t, v. auto. }
  pose proof (run_complete _ _ _ _ _ R _ _ L) as C. discriminate C.
Qed.

End PatternLanguage.

(** ** Clause-starting verbs do not overlap *)

Section ClauseVerbs.
Local Open Scope nat_scope.

Lemma spaces_last (sp : string) :
  spaces sp -> exists x c, sp = x ++ String c "" /\ Py.isspace c = true.
Proof.
  intros [NE A]. induction sp as [|c sp IH]; [congruence|].
  cbn [all] in A. apply andb_true_iff in A. destruct A as [A1 A2].
  destruct sp as [|d sp].
  - exists "", c. auto.
  - destruct IH as (x & e & E & S); [discriminate|exact A2|].
    exists (String c x), e. rewrite E. auto.
Qed.

Lemma phrase_last (ws : list string) (t : string) :
  phrase ws t ->
  t = "" \/ exists x c, t = x ++ String c "" /\ Py.isspace c = true.
Proof.
  induction 1 as [|w ws m sp x E S P IH]; [now left|]. right.
  destruct IH as [->|(y & c & -> & C)].
  - destruct (spaces_last sp S) as (y & c & -> & C).
    exists (m ++ y), c. rewrite sapp_nil_r, sapp_assoc. auto.
  - exists (m ++ sp ++ y), c. rewrite !sapp_assoc. auto.
Qed.

Lemma boundary_last (a : bool) (b : string) :
  boundary a b ->
  (b = "" /\ a = true)
  \/ exists x c, b = x ++ String c "" /\ Py.isspace c = true.
Proof.
  destruct 1 as [E|p ws M S|ws A].
  - now left.
  - right. destruct (spaces_last ws S) as (y & c & -> & C).
    exists (String p y), c. auto.
  - right. destruct ws as [|d ws].
    + exists "", newline. auto.
    + destruct (spaces_last (String d ws)) as (y & c & E & C).
      { split; [discriminate|exact A]. }
      exists (String newline y), c. rewrite E. auto.
Qed.

(** The text before a clause-starting verb is empty or ends with
    whitespace. *)
Lemma region_last (a : bool) (b t : string) :
  boundary a b -> transition_phrase t ->
  (b = "" /\ t = "" /\ a = true)
  \/ exists x c, b ++ t = x ++ String c "" /\ Py.isspace c = true.
Proof.
  intros B (ws & _ & P). destruct (phrase_last ws t P) as [->|(y & c & -> & C)].
  - rewrite sapp_nil_r. destruct (boundary_last a b B) as [[-> E]|H]; auto.
  - right. exists (b ++ y), c. rewrite sapp_assoc. auto.
Qed.

Lemma char_at_end (x : string) (c : ascii) (y : string) :
  char_at (x ++ String c y) (String.length x) = Some c.
Proof. unfold char_at. now rewrite skip_app. Qed.

Lemma boundary_chars (a : bool) (b : string) :
  boundary a b -> all (fun c => negb (word_char c)) b = true.
Proof.
  assert (SP : forall ws, all Py.isspace ws = true ->
                          all (fun c => negb (word_char c)) ws = true).
  { induction ws as [|c ws IH]; [reflexivity|]. cbn [all]. intro H.
    apply andb_true_iff in H. destruct H as [H1 H2].
    rewrite (space_not_word c H1). now rewrite IH. }
  destruct 1 as [E|p ws M [_ S]|ws A]; cbn [all].
  - reflexivity.
  - rewrite (punct_not_word p M). now rewrite SP.
  - rewrite SP by assumption. reflexivity.
Qed.

Lemma char_at_mid (A M R : string) (k : nat) :
  String.length A <= k < String.length A + String.length M ->
  char_at (A ++ M ++ R) k = char_at M (k - String.length A).
Proof.
  intro H. rewrite char_at_app_r by lia. apply char_at_app_l. lia.
Qed.

Lemma all_word_at (p : ascii -> bool) (M : string) (k : nat) :
  all p M = true -> k < String.length M ->
  exists c, char_at M k = Some c /\ p c = true.
Proof.
  intros A H. destruct (char_at_some M k H) as [c E].
  exists c. split; [exact E|]. eapply all_char_at; eauto.
Qed.

Lemma spaces_head (sp rest : string) :
  spaces sp -> is_word (head (sp ++ rest)) = false.
Proof.
  intros [NE A]. destruct sp as [|c sp]; [congruence|].
  cbn [all] in A. apply andb_true_iff in A. destruct A as [A1 _].
  cbn [String.append head]. now apply space_not_word.
Qed.

Lemma spaces_all (sp : string) : spaces sp -> all Py.isspace sp = true.
Proof. now intros [_ A]. Qed.

(** Every word that starts inside a phrase is one of its words. *)
Lemma phrase_words (ws : list string) (t : string) :
  phrase ws t ->
  Forall (fun w => all alpha_char w = true) ws ->
  forall A B k,
    String.length A <= k < String.length A + String.length t ->
    starts_word (A ++ t ++ B) k ->
    In (Py.lower (word_at (A ++ t ++ B) k)) ws.
Proof.
  induction 1 as [|w ws m sp x E S P IH]; intros F A B k Hk SW.
  - simpl in Hk. lia.
  - inversion F as [|? ? Fw Fws]; subst w.
    pose proof (lower_alpha m Fw) as Wm.
    rewrite !slen_app in Hk. destruct SW as [SW1 SW2].
    rewrite !sapp_assoc in *.
    destruct (Nat.eq_dec k (String.length A)) as [->|NE].
    { left. unfold word_at. rewrite skip_app.
      symmetry. f_equal. apply take_word_app; [exact Wm|].
      now apply spaces_head. }
    destruct (Nat.lt_ge_cases k (String.length A + String.length m)) as [L1|G1].
    { exfalso. destruct SW2 as [->|SW2]; [lia|].
      rewrite char_at_mid in SW2 by lia.
      destruct (all_word_at _ m (k - 1 - String.length A) Wm) as (c & C & W);
        [lia|].
      rewrite C in SW2. unfold word_char in W. congruence. }
    destruct (Nat.lt_ge_cases k (String.length A + String.length m
                                 + String.length sp)) as [L2|G2].
    { exfalso. rewrite <- (sapp_assoc A m) in SW1.
      rewrite char_at_mid in SW1 by (rewrite slen_app; lia).
      destruct (all_word_at _ sp (k - String.length (A ++ m)) (spaces_all _ S))
        as (c & C & W); [rewrite slen_app; lia|].
      rewrite C in SW1. apply space_not_word in W. unfold word_char in W.
      congruence. }
    right.
    replace (A ++ m ++ sp ++ x ++ B) with ((A ++ m ++ sp) ++ x ++ B) in *
      by now rewrite !sapp_assoc.
    apply IH; [exact Fws| |split; assumption].
    rewrite !slen_app. lia.
Qed.

Lemma transitions_words (ws : list string) :
  In ws TRANSITIONS ->
  Forall (fun w => all alpha_char w = true) ws
  /\ forall w, In w ws -> In w TRANSITION_WORDS.
Proof.
  simpl. intros [<-|[<-|[<-|[<-|[<-|[<-|[<-|[<-|[]]]]]]]]];
    (split; [repeat constructor|simpl; tauto]).
Qed.

Lemma verbs_not_transitions (w : string) :
  In w TASK_VERBS -> In w TRANSITION_WORDS -> False.
Proof.
  intros V T.
  assert (D : forallb (fun v => negb (existsb (String.eqb v) TRANSITION_WORDS))
                TASK_VERBS = true) by reflexivity.
  rewrite forallb_forall in D. specialize (D w V).
  apply negb_true_iff in D.
  assert (E : existsb (String.eqb w) TRANSITION_WORDS = true).
  { apply existsb_exists. exists w. split; [exact T|apply String.eqb_refl]. }
  congruence.
Qed.

Lemma is_empty_length (s : string) : Py.is_empty s = true -> String.length s = 0.
Proof. destruct s; [reflexivity|discriminate]. Qed.

(** What a clause-starting verb says about the characters of the text. *)
Lemma clause_verb_facts (a : bool) (s : string) (j i n : nat) :
  clause_verb a s j i n ->
  j <= i /\ i < n /\ n <= String.length s
  /\ starts_word s i
  /\ In (Py.lower (word_at s i)) TASK_VERBS
  /\ (forall k, i <= k < n -> is_word (char_at s k) = true)
  /\ (forall k, j <= k < i -> starts_word s k ->
        In (Py.lower (word_at s k)) TRANSITION_WORDS)
  /\ (j = 0 \/ is_word (char_at s j) = false).
Proof.
  intros (pre & b & t & v & post & -> & -> & -> & -> & B & T & V & W).
  destruct (task_verb_word v V) as [NE Wv].
  assert (Lv : 1 <= String.length v) by (destruct v; simpl; [congruence|lia]).
  split; [lia|]. split; [lia|]. split; [rewrite !slen_app; lia|].
  assert (Hi : String.length pre + String.length b + String.length t
               = String.length ((pre ++ b) ++ t))
    by (rewrite !slen_app; lia).
  assert (S1 : pre ++ b ++ t ++ v ++ post = ((pre ++ b) ++ t) ++ v ++ post)
    by now rewrite !sapp_assoc.
  split; [|split; [|split; [|split]]].
  - (* a word starts at the verb *)
    split.
    + rewrite S1, Hi. unfold char_at. rewrite skip_app.
      destruct v as [|c v]; [congruence|]. cbn [String.append head].
      cbn [all] in Wv. apply andb_true_iff in Wv. tauto.
    + destruct (region_last _ b t B T) as [(-> & -> & E)|(x & c & E & C)].
      * left. apply andb_true_iff in E. destruct E as [_ E].
        apply is_empty_length in E. simpl. lia.
      * right.
        replace (pre ++ b ++ t ++ v ++ post)
          with ((pre ++ x) ++ String c (v ++ post)).
        2:{ rewrite <- (sapp_assoc b t), E, !sapp_assoc. reflexivity. }
        assert (L : String.length b + String.length t = String.length x + 1).
        { rewrite <- slen_app, E, slen_app. simpl. lia. }
        replace (String.length pre + String.length b + String.length t - 1)
          with (String.length (pre ++ x)) by (rewrite slen_app; lia).
        rewrite char_at_end. now apply space_not_word.
  - (* the word there is the verb *)
    unfold word_at. rewrite S1, Hi, skip_app.
    rewrite take_word_app; auto.
  - (* the verb is made of word characters *)
    intros k Hk. rewrite S1.
    rewrite char_at_mid by (rewrite <- Hi; lia).
    destruct (all_word_at _ v (k - String.length ((pre ++ b) ++ t)) Wv)
      as (c & C & Wc); [rewrite <- Hi; lia|].
    rewrite C. exact Wc.
  - (* words inside the region are transition words *)
    intros k Hk SW. destruct T as (ws & Hin & P).
    destruct (transitions_words ws Hin) as [F In_ws].
    destruct (Nat.lt_ge_cases k (String.length pre + String.length b)) as [L|G].
    + exfalso. destruct SW as [SW _].
      rewrite char_at_mid in SW by lia.
      destruct (all_word_at _ b (k - String.length pre) (boundary_chars _ _ B))
        as (c & C & Wc); [lia|].
      rewrite C in SW. apply negb_true_iff in Wc. unfold word_char in Wc.
      congruence.
    + apply In_ws.
      replace (pre ++ b ++ t ++ v ++ post) with ((pre ++ b) ++ t ++ v ++ post)
        in * by now rewrite !sapp_assoc.
      apply (phrase_words ws t P F); [rewrite slen_app; lia|exact SW].
  - (* the boundary starts the text or with a non-word character *)
    destruct B as [E|p ws M S|ws A].
    + left. apply andb_true_iff in E. destruct E as [_ E].
      now apply is_empty_length.
    + right.
      change (String p ws ++ t ++ v ++ post)
        with (String p (ws ++ t ++ v ++ post)).
      rewrite char_at_end. now apply punct_not_word.
    + right.
      change (String newline ws ++ t ++ v ++ post)
        with (String newline (ws ++ t ++ v ++ post)).
      rewrite char_at_end. reflexivity.
Qed.

(** Two clause-starting verbs do not overlap. *)
Lemma no_verb_in_region (a a' : bool) (s : string) (j i n j' i' n' : nat) :
  clause_verb a s j i n -> clause_verb a' s j' i' n' ->
  j <= i' -> i' < i -> False.
Proof.
  intros D D' H1 H2.
  apply clause_verb_facts in D, D'.
  destruct D as (_ & _ & _ & _ & _ & _ & Rg & _).
  destruct D' as (_ & _ & _ & SW & V & _).
  eapply verbs_not_transitions; [exact V|]. apply Rg; [lia|exact SW].
Qed.

Lemma no_boundary_in_match (a a' : bool) (s : string) (j i n j' i' n' : nat) :
  clause_verb a s j i n -> clause_verb a' s j' i' n' ->
  i < i' -> j' < n -> False.
Proof.
  intros D D' H1 H2.
  destruct (Nat.le_gt_cases j' i) as [L|G].
  - eapply (no_verb_in_region a' a s j' i' n' j i n); eauto.
  - apply clause_verb_facts in D, D'.
    destruct D as (_ & _ & _ & _ & _ & Wv & _).
    destruct D' as (_ & _ & _ & _ & _ & _ & _ & [B0|B0]); [lia|].
    rewrite Wv in B0 by lia. discriminate.
Qed.

End ClauseVerbs.

(** ** [findall] counts the clause-starting verbs *)

Section Scan.
Local Open Scope nat_scope.

Lemma length_zero (s : string) : String.length s = 0 -> s = "".
Proof. destruct s; [reflexivity|discriminate]. Qed.

Lemma match_here_bounds (prev : option ascii) (s : string) (n : nat) :
  match_here task_starter prev s = Some n ->
  exists i, i < n /\ n <= String.length s
            /\ clause_verb (is_none prev) s 0 i n.
Proof.
  intro H. apply match_here_sound in H.
  destruct H as (b & t & v & post & -> & -> & ST).
  destruct ST as (B & T & V & W).
  destruct (task_verb_word v V) as [NE _].
  assert (1 <= String.length v) by (destruct v; simpl; [congruence|lia]).
  exists (String.length b + String.length t).
  rewrite !slen_app. split; [lia|]. split; [lia|].
  exists "", b, t, v, post. cbn [String.append String.length Py.is_empty].
  rewrite andb_true_r. repeat (split; [first [reflexivity|lia]|]).
  repeat split; assumption.
Qed.

Lemma verb_at_empty (a : bool) (i : nat) : verb_at a "" i -> False.
Proof.
  intros (j & n & D). apply clause_verb_facts in D. simpl in D. lia.
Qed.

(** No match here: the verbs of the text are those of the rest. *)
Lemma verb_at_step (prev : option ascii) (c : ascii) (s' : string) :
  match_here task_starter prev (String c s') = None ->
  forall i,
    verb_at (is_none prev) (String c s') i
    <-> exists i', i = S i' /\ verb_at false s' i'.
Proof.
  intros M i. split.
  - intros (j & n & pre & b & t & v & post & E & -> & -> & -> & ST).
    destruct pre as [|c0 pre].
    + exfalso. cbn [String.append Py.is_empty] in *.
      rewrite andb_true_r in ST. rewrite E in M.
      now apply (match_here_complete prev b t v post).
    + cbn [String.append] in E. injection E as <- ->.
      cbn [Py.is_empty] in ST. rewrite andb_false_r in ST.
      exists (String.length pre + String.length b + String.length t).
      split; [reflexivity|].
      exists (String.length pre),
        (String.length pre + String.length b + String.length t + String.length v),
        pre, b, t, v, post.
      repeat (split; [reflexivity|]). exact ST.
  - intros (i' & -> & j & n & pre & b & t & v & post & -> & -> & -> & -> & ST).
    exists (S (String.length pre)),
      (S (String.length pre + String.length b + String.length t + String.length v)),
      (String c pre), b, t, v, post.
    cbn [Py.is_empty andb] in *. rewrite andb_false_r.
    repeat (split; [reflexivity|]). exact ST.
Qed.

(** A match of [n] characters here: its verb, then the verbs of the text
    after the match. *)
Lemma verb_at_match (prev : option ascii) (s : string) (n : nat) :
  match_here task_starter prev s = Some n ->
  exists iq,
    iq < n /\ 1 <= n <= String.length s
    /\ forall i,
         verb_at (is_none prev) s i
         <-> (i = iq \/ exists i', i = n + i' /\ verb_at false (skip n s) i').
Proof.
  intro M. destruct (match_here_bounds prev s n M) as (iq & L1 & L2 & D).
  exists iq. split; [exact L1|]. split; [lia|]. intro i. split.
  - intros (j' & n' & D').
    destruct (Nat.lt_trichotomy i iq) as [Lt|[Eq|Gt]].
    + exfalso. eapply (no_verb_in_region _ _ s 0 iq n j' i n'); eauto. lia.
    + now left.
    + right.
      assert (J : n <= j').
      { destruct (Nat.le_gt_cases n j') as [G|G]; [exact G|]. exfalso.
        eapply (no_boundary_in_match _ _ s 0 iq n j' i n'); eauto. }
      destruct D' as (pre & b & t & v & post & E & -> & -> & -> & ST).
      pose proof (skip_length n pre) as SL.
      exists (String.length (skip n pre) + String.length b + String.length t).
      split; [lia|].
      exists (String.length (skip n pre)),
        (String.length (skip n pre) + String.length b + String.length t
         + String.length v),
        (skip n pre), b, t, v, post.
      rewrite E, skip_app_lt by exact J.
      assert (NEp : Py.is_empty pre = false).
      { destruct pre; [simpl in J; lia|reflexivity]. }
      rewrite NEp, andb_false_r in ST.
      repeat (split; [first [reflexivity|lia]|]). exact ST.
  - intros [->|(i' & -> & j & n' & pre & b & t & v & post & E & -> & -> & -> & ST)].
    + exists 0, n. exact D.
    + cbn [andb] in ST.
      exists (n + String.length pre),
        (n + (String.length pre + String.length b + String.length t
              + String.length v)),
        (take n s ++ pre), b, t, v, post.
      rewrite slen_app, take_length by lia.
      assert (NEp : Py.is_empty (take n s ++ pre) = false).
      { destruct (take n s ++ pre) eqn:X; [|reflexivity].
        apply (f_equal String.length) in X.
        rewrite slen_app, take_length in X by lia. simpl in X. lia. }
      rewrite NEp, andb_false_r, sapp_assoc, <- E, take_skip.
      repeat (split; [first [reflexivity|lia]|]). exact ST.
Qed.

Lemma NoDup_map_inj {A B : Type} (f : A -> B) (l : list A) :
  (forall x y, f x = f y -> x = y) -> NoDup l -> NoDup (map f l).
Proof.
  intros I. induction 1 as [|x l N ND IH]; cbn [map]; constructor; auto.
  rewrite in_map_iff. intros (y & E & Hy). apply I in E. now subst.
Qed.

Lemma findall_from_skip (p : Pattern) (k : nat) :
  forall s prev,
    k <= String.length s ->
    exists prev',
      findall_from p prev s k = findall_from p prev' (skip k s) 0
      /\ (k = 0 -> prev' = prev) /\ (0 < k -> is_none prev' = false).
Proof.
  induction k as [|k IH]; intros s prev H.
  - exists prev. repeat split; auto. lia.
  - destruct s as [|c s]; [simpl in H; lia|].
    destruct (IH s (Some c)) as (prev' & E & Z & P); [simpl in H; lia|].
    exists prev'. cbn [findall_from skip]. split; [exact E|]. split; [lia|].
    intros _. destruct k; [now rewrite Z|apply P; lia].
Qed.

(** [findall] finds every clause-starting task verb exactly once. *)
Lemma findall_task_starter (m : nat) :
  forall s prev,
    String.length s <= m ->
    exists l,
      NoDup l /\ (forall i, In i l <-> verb_at (is_none prev) s i)
      /\ List.length (findall_from task_starter prev s 0) = List.length l.
Proof.
  induction m as [|m IH]; intros s prev H.
  - apply Nat.le_0_r, length_zero in H. subst s.
    exists []. split; [constructor|]. split.
    + intro i. split; [intros []|apply verb_at_empty].
    + cbn [findall_from].
      destruct (match_here task_starter prev "") eqn:M; [|reflexivity].
      destruct (verb_at_match _ _ _ M) as (iq & _ & B & _). simpl in B. lia.
  - destruct s as [|c s'].
    { apply (IH "" prev). simpl. lia. }
    cbn [findall_from].
    destruct (match_here task_starter prev (String c s')) as [n|] eqn:M.
    + destruct (verb_at_match _ _ _ M) as (iq & L1 & L2 & V).
      destruct (findall_from_skip task_starter (n - 1) s' (Some c))
        as (prev' & E & Z & P); [cbn [String.length] in L2; lia|].
      assert (N : is_none prev' = false).
      { destruct (Nat.eq_dec (n - 1) 0) as [E0|NE0].
        - now rewrite (Z E0).
        - apply P. lia. }
      assert (SK : skip (n - 1) s' = skip n (String c s')).
      { destruct n; [lia|]. replace (S n - 1) with n by lia. reflexivity. }
      rewrite E, SK.
      destruct (IH (skip n (String c s')) prev') as (l & ND & In_l & Len).
      { rewrite skip_length. cbn [String.length] in H, L2 |- *. lia. }
      rewrite N in In_l.
      exists (iq :: map (fun x => n + x) l). split; [|split].
      * constructor.
        -- rewrite in_map_iff. intros (x & Ex & _). lia.
        -- apply NoDup_map_inj; [|exact ND].
           intros x y Exy. lia.
      * intro i. rewrite V. cbn [In]. rewrite in_map_iff. split.
        -- intros [<-|(x & <- & Hx)]; [now left|right].
           exists x. split; [reflexivity|]. now apply In_l.
        -- intros [->|(x & -> & Hx)]; [now left|right].
           exists x. split; [reflexivity|]. now apply In_l.
      * cbn [List.length]. now rewrite Len, length_map.
    + destruct (IH s' (Some c)) as (l & ND & In_l & Len); [simpl in H; lia|].
      cbn [is_none] in In_l.
      exists (map S l). split; [|split].
      * apply NoDup_map_inj; [|exact ND].
        intros x y Exy. lia.
      * intro i. rewrite (verb_at_step _ _ _ M), in_map_iff. split.
        -- intros (x & <- & Hx). exists x. split; [reflexivity|]. now apply In_l.
        -- intros (x & -> & Hx). exists x. split; [reflexivity|]. now apply In_l.
      * now rewrite Len, length_map.
Qed.

Lemma clause_verb_at_verb_at (text : string) (i : nat) :
  clause_verb_at text i <-> verb_at true text i.
Proof.
  unfold clause_verb_at, verb_at, clause_verb. cbn [andb]. split.
  - intros (pre & b & t & v & post & E & L & ST).
    rewrite !slen_app in L.
    exists (String.length pre),
      (String.length pre + String.length b + String.length t + String.length v),
      pre, b, t, v, post.
    repeat (split; [first [assumption|reflexivity|lia]|]). exact ST.
  - intros (j & n & pre & b & t & v & post & E & -> & -> & -> & ST).
    exists pre, b, t, v, post. rewrite !slen_app.
    repeat (split; [first [assumption|reflexivity|lia]|]). exact ST.
Qed.

(** The number of matches [re.findall] returns for the task-starter
    pattern is the number of positions where a task verb begins a
    clause. *)
Lemma count_clause_verbs (text : string) :
  exists positions : list nat,
    NoDup positions
    /\ (forall i, In i positions <-> clause_verb_at text i)
    /\ Py.len (Re.findall task_starter text)
       = Z.of_nat (List.length positions).
Proof.
  destruct (findall_task_starter (String.length text) text None (Nat.le_refl _))
    as (l & ND & In_l & Len).
  exists l. split; [exact ND|]. split.
  - intro i. rewrite clause_verb_at_verb_at. apply In_l.
  - unfold Py.len, Re.findall. now rewrite Len.
Qed.

End Scan.

(** * The test suite, replayed on the embedding *)

Example test_count_words_basic : _count_words "hello world" = 2.
Proof. reflexivity. Qed.

Example test_count_words_empty : _count_words "" = 0.
Proof. reflexivity. Qed.

Example test_count_sentences_basic : _count_sentences "Hello. World. Test." = 3.
Proof. reflexivity. Qed.

Example test_count_sentences_single : _count_sentences "Just one sentence" = 1.
Proof. reflexivity. Qed.

Example test_labels :
  map DimensionScore.label_of [9.0; 6.5; 4.0; 2.5; 1.0]%Q
  = ["Excellent"; "Good"; "Fair"; "Weak"; "Poor"].
Proof. reflexivity. Qed.

Example test_bad_prompt :
  same_scores (scores_of (analyze BAD_PROMPT))
    [("Clarity", 3.5); ("Structure", 2.5); ("Specificity", 2.0); ("Length", 4.0)]%Q
  = true
  /\ overall_is (analyze BAD_PROMPT) 3.0 = true
  /\ ids_of (analyze BAD_PROMPT)
     = ["missing_role"; "missing_output_format"; "missing_context";
        "vague_language"; "no_constraints"; "no_examples"].
Proof. vm_compute. repeat split. Qed.

Example test_good_prompt :
  same_scores (scores_of (analyze GOOD_PROMPT))
    [("Clarity", 8.0); ("Structure", 10.0); ("Specificity", 10.0); ("Length", 8.6)]%Q
  = true
  /\ overall_is (analyze GOOD_PROMPT) 9.1 = true
  /\ ids_of (analyze GOOD_PROMPT) = [].
Proof. vm_compute. repeat split. Qed.

Example test_vague_prompt :
  same_scores (scores_of (analyze VAGUE_PROMPT))
    [("Clarity", 3.0); ("Structure", 2.5); ("Specificity", 2.0); ("Length", 6.0)]%Q
  = true
  /\ In "vague_language" (ids_of (analyze VAGUE_PROMPT)).
Proof. vm_compute. intuition. Qed.

Example test_multi_task_prompt :
  In "multiple_requests" (ids_of (analyze MULTI_TASK_PROMPT))
  /\ _count_distinct_tasks MULTI_TASK_PROMPT = 4.
Proof. vm_compute. intuition. Qed.

Example test_medium_prompt :
  same_scores (scores_of (analyze MEDIUM_PROMPT))
    [("Clarity", 7.0); ("Structure", 2.5); ("Specificity", 5.8); ("Length", 8.0)]%Q
  = true
  /\ overall_is (analyze MEDIUM_PROMPT) 5.8 = true.
Proof. vm_compute. repeat split. Qed.

Example test_empty_prompt :
  same_scores (scores_of (analyze ""))
    [("Clarity", 1.0); ("Structure", 1.0); ("Specificity", 1.0); ("Length", 1.0)]%Q
  = true
  /\ overall_is (analyze "") 1.0 = true.
Proof. vm_compute. repeat split. Qed.

(** Binary rounding shows in the scores: 27, 69 and 590 words give 8.1,
    8.3 and 6.5, where the exact values 8.05, 8.35 and 6.55 are ties
    between two tenths. *)
Example test_length_rounding :
  map (fun w => Py.round1 (Py.fmin 10.0 (length_raw w))) [27; 69; 590]
  = map Py.double [8.1; 8.3; 6.5]%Q
  /\ Forall2 Qeq (map length_exact [27; 69; 590]) [8.05; 8.35; 6.55]%Q.
Proof. split; [vm_compute; reflexivity|]. repeat constructor. Qed.

(** The arithmetic of the embedding is the machine's: on every word count
    of the ramp, on a thousand word counts of the decay and on a sample of
    scores, the embedding computes the number the binary64 operations
    compute. *)
Example test_ramp_binary64 :
  forallb (fun w => Binary64.agrees (Binary64.ramp w) (length_raw w))
    (range 20 281)
  = true.
Proof. vm_compute. reflexivity. Qed.

Example test_decay_binary64 :
  forallb (fun w => Binary64.agrees (Binary64.decay w) (length_raw w))
    (range 501 1000)
  = true.
Proof. vm_compute. reflexivity. Qed.

Example test_mean_binary64 :
  forallb
    (fun c =>
       forallb
         (fun s =>
            forallb
              (fun sp =>
                 forallb
                   (fun l =>
                      Binary64.agrees (Binary64.mean c s sp l)
                        (mean_of_tenths c s sp l))
                   SCORE_SAMPLE)
              SCORE_SAMPLE)
         SCORE_SAMPLE)
    SCORE_SAMPLE
  = true.
Proof. vm_compute. reflexivity. Qed.

(** * The claims *)

(** C1. For every input string, the empty string included, [analyze]
    terminates normally and returns an [AnalysisResult]; it never raises
    an error. *)
Theorem analyze_never_raises (prompt : string) :
  exists r, analyze prompt = Ok r.
Proof.
  destruct (analyze_cases prompt) as [[_ H]|(_ & l & _ & H)]; eauto.
Qed.

(** C2. For every prompt whose trimmed text is non-empty, the result of
    [analyze] holds exactly four dimension scores (Clarity, Structure,
    Specificity, Length), each with a score in [1.0, 10.0], and the
    derived overall score lies in [1.0, 10.0] as well. *)
Theorem analyze_scores_in_range (prompt : string) :
  Py.strip prompt <> "" ->
  exists r,
    analyze prompt = Ok r
    /\ map DimensionScore.name (AnalysisResult.dimensions r)
       = ["Clarity"; "Structure"; "Specificity"; "Length"]
    /\ Forall (fun d => (1 <= DimensionScore.score d <= 10)%Q)
         (AnalysisResult.dimensions r)
    /\ exists o,
         AnalysisResult.overall_score r = Ok o /\ (1 <= o <= 10)%Q.
Proof.
  intro NE. destruct (analyze_nonempty prompt NE) as [suffix H].
  eexists. split; [exact H|]. clear H.
  unfold full_result. cbv zeta. cbn [AnalysisResult.dimensions].
  destruct (_score_clarity_shape (Py.strip prompt) (Py.lower (Py.strip prompt)))
    as (s1 & d1 & ->).
  destruct (_score_structure_shape (Py.strip prompt) (Py.lower (Py.strip prompt)))
    as (s2 & d2 & ->).
  destruct (_score_specificity_shape (Py.strip prompt) (Py.lower (Py.strip prompt)))
    as (s3 & d3 & ->).
  pose proof (round1_range _ (clamp_range s1)) as R1.
  pose proof (round1_range _ (clamp_range s2)) as R2.
  pose proof (round1_range _ (clamp_range s3)) as R3.
  pose proof (length_score_range (_count_words (Py.strip prompt))) as R4.
  split; [reflexivity|]. split.
  - repeat constructor; simpl; tauto.
  - eexists. split.
    + apply overall_score_standard. cbn [AnalysisResult.dimensions map].
      unfold name_score, standard_dimensions. simpl. reflexivity.
    + apply overall_score_range; assumption.
Qed.

Lemma analyze_scores_in_range_witness :
  Py.strip "Write me something about dogs" <> ""
  /\ exists r,
       analyze "Write me something about dogs" = Ok r
       /\ map DimensionScore.name (AnalysisResult.dimensions r)
          = ["Clarity"; "Structure"; "Specificity"; "Length"]
       /\ Forall (fun d => (1 <= DimensionScore.score d <= 10)%Q)
            (AnalysisResult.dimensions r)
       /\ exists o,
            AnalysisResult.overall_score r = Ok o /\ (1 <= o <= 10)%Q.
Proof.
  assert (NE : Py.strip "Write me something about dogs" <> "")
    by (vm_compute; discriminate).
  split; [exact NE|].
  apply (analyze_scores_in_range "Write me something about dogs" NE).
Defined.

(** C3. For every input whose trimmed text is empty, [analyze] returns a
    result with all four dimension scores equal to 1.0, word count 0,
    sentence count 0, no detected anti-pattern and exactly one suggestion,
    "Provide a non-empty prompt to analyze."  The detector is not run on
    this path: on the trimmed text it would have reported anti-patterns. *)
Theorem analyze_blank_prompt (prompt : string) :
  Py.strip prompt = "" ->
  exists r,
    analyze prompt = Ok r
    /\ map DimensionScore.name (AnalysisResult.dimensions r)
       = ["Clarity"; "Structure"; "Specificity"; "Length"]
    /\ map DimensionScore.score (AnalysisResult.dimensions r)
       = [1.0; 1.0; 1.0; 1.0]%Q
    /\ AnalysisResult.word_count r = 0
    /\ AnalysisResult.sentence_count r = 0
    /\ AnalysisResult.anti_patterns r = []
    /\ AnalysisResult.suggestions r = ["Provide a non-empty prompt to analyze."]
    /\ _detect_anti_patterns (Py.strip prompt) (Py.lower (Py.strip prompt)) <> [].
Proof.
  intro E. exists (empty_result prompt).
  split; [now apply analyze_empty|].
  repeat (split; [reflexivity|]).
  rewrite E. vm_compute. discriminate.
Qed.

Lemma analyze_blank_prompt_witness :
  Py.strip "   " = ""
  /\ exists r,
       analyze "   " = Ok r
       /\ map DimensionScore.name (AnalysisResult.dimensions r)
          = ["Clarity"; "Structure"; "Specificity"; "Length"]
       /\ map DimensionScore.score (AnalysisResult.dimensions r)
          = [1.0; 1.0; 1.0; 1.0]%Q
       /\ AnalysisResult.word_count r = 0
       /\ AnalysisResult.sentence_count r = 0
       /\ AnalysisResult.anti_patterns r = []
       /\ AnalysisResult.suggestions r
          = ["Provide a non-empty prompt to analyze."]
       /\ _detect_anti_patterns (Py.strip "   ") (Py.lower (Py.strip "   "))
          <> [].
Proof.
  split; [reflexivity|].
  apply (analyze_blank_prompt "   "). reflexivity.
Defined.

(** C4, as stated: the suggestions list always has between 1 and 8
    entries.  It fails: a short prompt that names a role, a context, an
    output format, an example and one constraint triggers no anti-pattern,
    yet scores below 6.0 on Clarity, so the encouragement is withheld and
    the list is empty. *)
Lemma suggestions_can_be_empty :
  exists r,
    analyze "you are my team format sample must" = Ok r
    /\ AnalysisResult.anti_patterns r = []
    /\ Exists (fun d => (DimensionScore.score d < 6)%Q)
         (AnalysisResult.dimensions r)
    /\ AnalysisResult.suggestions r = [].
Proof.
  eexists. split; [vm_compute; reflexivity|].
  split; [reflexivity|]. split; [|reflexivity].
  apply Exists_cons_hd. simpl. reflexivity.
Qed.

(** C4, amended.  For every input string the suggestions list has at most
    8 entries, and at least one whenever an anti-pattern is detected.  The
    fixed encouragement is the whole list when no anti-pattern is detected
    and no dimension scores below 6.0.  The list is empty exactly when the
    trimmed prompt is non-empty, no anti-pattern is detected and some
    dimension scores below 6.0. *)
Theorem suggestions_length_bound (prompt : string) :
  exists r,
    analyze prompt = Ok r
    /\ (List.length (AnalysisResult.suggestions r) <= 8)%nat
    /\ (AnalysisResult.anti_patterns r <> [] ->
        (1 <= List.length (AnalysisResult.suggestions r))%nat)
    /\ (AnalysisResult.anti_patterns r = [] ->
        Forall (fun d => ~ (DimensionScore.score d < 6)%Q)
          (AnalysisResult.dimensions r) ->
        AnalysisResult.suggestions r = [encouragement])
    /\ (AnalysisResult.suggestions r = []
        <-> Py.strip prompt <> ""
            /\ AnalysisResult.anti_patterns r = []
            /\ ~ Forall (fun d => ~ (DimensionScore.score d < 6)%Q)
                   (AnalysisResult.dimensions r)).
Proof.
  destruct (analyze_cases prompt) as [[E H]|(NE & l & _ & H)];
    eexists; (split; [exact H|]); clear H.
  - cbn [empty_result AnalysisResult.suggestions AnalysisResult.anti_patterns
           AnalysisResult.dimensions List.length].
    split; [lia|]. split; [congruence|]. split.
    + intros _ F. inversion F as [|? ? L _]; subst. exfalso. apply L.
      simpl. reflexivity.
    + split; [discriminate|]. intros [NE _]. contradiction.
  - unfold full_result. cbv zeta.
    cbn [AnalysisResult.suggestions AnalysisResult.anti_patterns
           AnalysisResult.dimensions].
    set (text := Py.strip prompt) in *. set (text_lower := Py.lower text).
    set (dims := [_score_clarity text text_lower;
                  _score_structure text text_lower;
                  _score_specificity text text_lower; l]).
    set (aps := _detect_anti_patterns text text_lower).
    rewrite _generate_suggestions_eq.
    pose proof (base_nil aps) as BN. pose proof (base_length aps) as BL.
    pose proof (detect_in_length text text_lower ALL_PATTERNS) as DL.
    fold (_detect_anti_patterns text text_lower) in DL. fold aps in DL.
    change (List.length ALL_PATTERNS) with 8%nat in DL.
    pose proof (filter_is_low_nil dims) as FL.
    destruct (map pattern_suggestion (first_by_id (sorted severity_key aps)))
      as [|s0 base] eqn:B.
    + assert (A : aps = []) by (apply BN; reflexivity).
      destruct (filter is_low dims) as [|d0 low] eqn:L.
      * split; [simpl; lia|]. split; [congruence|]. split; [reflexivity|].
        split; [discriminate|]. intros (_ & _ & NF). exfalso. apply NF.
        apply FL. reflexivity.
      * split; [simpl; lia|]. split; [congruence|]. split.
        -- intros _ F. apply FL in F. discriminate F.
        -- split; [|reflexivity]. intros _. split; [exact NE|].
           split; [exact A|]. intro F. apply FL in F. discriminate F.
    + assert (A : aps <> []).
      { intro A. apply BN in A. discriminate A. }
      assert (G : forall low : list DimensionScore.t,
                 match low with [] => s0 :: base | _ :: _ => s0 :: base end
                 = s0 :: base) by (intros []; reflexivity).
      rewrite G. split; [lia|]. split; [simpl; lia|].
      split; [congruence|]. split; [discriminate|].
      intros (_ & A' & _). contradiction.
Qed.

(** C5. The [prompt] field is to hold the text passed to [analyze].  The
    early return for a blank prompt stores it as it was passed; the main
    path stores the trimmed text instead: on " hello " the field holds
    "hello". *)
Lemma prompt_field_is_trimmed :
  (exists r,
      analyze "   " = Ok r /\ AnalysisResult.prompt r = "   ")
  /\ exists r,
       analyze " hello " = Ok r
       /\ AnalysisResult.prompt r = "hello"
       /\ AnalysisResult.prompt r <> " hello ".
Proof.
  split.
  - eexists. split; [vm_compute; reflexivity|reflexivity].
  - eexists. split; [vm_compute; reflexivity|].
    split; [reflexivity|discriminate].
Qed.

(** C6, as stated: the overall score of a result holding the four
    standard dimensions is their weighted mean rounded to one decimal, a
    number that the four scores determine.  It fails twice.  The same four
    scores give 2.2 in the order [analyze] builds and 2.1 with the last
    two dimensions exchanged, because the sum is accumulated in list order
    in double arithmetic.  And [analyze] on "be creative 7" scores 2.0,
    1.0, 2.8 and 2.0, whose weighted mean 1.95 rounds to 2.0, while the
    overall score is 1.9. *)
Lemma overall_score_depends_on_order :
  Permutation dimensions_in_order dimensions_exchanged
  /\ AnalysisResult.overall_score (result_of dimensions_in_order)
     = Ok (Py.double 2.2)
  /\ AnalysisResult.overall_score (result_of dimensions_exchanged)
     = Ok (Py.double 2.1)
  /\ ~ (Py.double 2.2 == Py.double 2.1)%Q
  /\ exists r,
       analyze "be creative 7" = Ok r
       /\ map name_score (AnalysisResult.dimensions r)
          = standard_dimensions (Py.double 2.0) (Py.double 1.0)
              (Py.double 2.8) (Py.double 2.0)
       /\ AnalysisResult.overall_score r = Ok (Py.double 1.9)
       /\ (exact_mean 2.0 1.0 2.8 2.0 == 1.95)%Q
       /\ Py.round_half_even (exact_mean 2.0 1.0 2.8 2.0 * 10) = 20
       /\ ~ (Py.double 1.9 == Py.double 2.0)%Q.
Proof.
  split.
  { unfold dimensions_in_order, dimensions_exchanged.
    do 2 apply perm_skip. apply perm_swap. }
  split; [vm_compute; reflexivity|].
  split; [vm_compute; reflexivity|].
  split; [intro H; vm_compute in H; discriminate H|].
  eexists. split; [vm_compute; reflexivity|].
  split; [vm_compute; reflexivity|].
  split; [vm_compute; reflexivity|].
  split; [reflexivity|].
  split; [reflexivity|].
  intro H. vm_compute in H. discriminate H.
Qed.

(** C6, amended.  For every [AnalysisResult] holding the four standard
    dimensions in the order Clarity, Structure, Specificity, Length, with
    scores between 1.0 and 10.0, the overall score is
    ((0.30*Clarity + 0.25*Structure) + 0.25*Specificity) + 0.20*Length,
    every product and sum rounded to a double, rounded to one decimal.  It
    lies between 1.0 and 10.0 and differs from the exact weighted mean by
    at most 0.05 and the rounding errors of the arithmetic.  When the
    dimension list is empty, the overall score is 0.0 and the overall
    label is "Poor". *)
Theorem overall_score_weighted_mean (r : AnalysisResult.t) :
  (forall c s sp l : Q,
      map name_score (AnalysisResult.dimensions r)
      = standard_dimensions c s sp l ->
      in_range c -> in_range s -> in_range sp -> in_range l ->
      exists o,
        AnalysisResult.overall_score r = Ok o
        /\ o = Py.round1 (weighted_mean c s sp l)
        /\ (1 <= o <= 10)%Q
        /\ (exact_mean c s sp l - (1 # 20) - 2 * float_error <= o)%Q
        /\ (o <= exact_mean c s sp l + (1 # 20) + 2 * float_error)%Q)
  /\ (AnalysisResult.dimensions r = [] ->
      AnalysisResult.overall_score r = Ok 0.0%Q
      /\ AnalysisResult.overall_label r = Ok "Poor").
Proof.
  split.
  - intros c s sp l D C S SP L. eexists.
    split; [exact (overall_score_standard r c s sp l D)|].
    split; [reflexivity|].
    split; [exact (overall_score_range c s sp l C S SP L)|].
    exact (overall_score_error c s sp l C S SP L).
  - apply overall_score_no_dimensions.
Qed.

Lemma overall_score_weighted_mean_witness :
  map name_score
    (AnalysisResult.dimensions (result_of dimensions_in_order))
  = standard_dimensions 2.0 1.0 2.0 4.0
  /\ (exists o,
        AnalysisResult.overall_score (result_of dimensions_in_order) = Ok o
        /\ o = Py.round1 (weighted_mean 2.0 1.0 2.0 4.0)
        /\ (1 <= o <= 10)%Q
        /\ (exact_mean 2.0 1.0 2.0 4.0 - (1 # 20) - 2 * float_error <= o)%Q
        /\ (o <= exact_mean 2.0 1.0 2.0 4.0 + (1 # 20) + 2 * float_error)%Q)
  /\ AnalysisResult.dimensions (result_of []) = []
  /\ AnalysisResult.overall_score (result_of []) = Ok 0.0%Q
  /\ AnalysisResult.overall_label (result_of []) = Ok "Poor".
Proof.
  split; [reflexivity|]. split.
  - apply (proj1 (overall_score_weighted_mean (result_of dimensions_in_order))
             2.0%Q 1.0%Q 2.0%Q 4.0%Q eq_refl);
      unfold in_range; split; discriminate.
  - split; [reflexivity|].
    exact (proj2 (overall_score_weighted_mean (result_of [])) eq_refl).
Defined.

(** C7, as stated: above 500 words the Length score is exactly
    max(3.0, 7.0 - (w - 500)/200).  It fails at 501 words: the stated value
    is 6.995, in exact and in double arithmetic alike, and the score is
    7.0, because every branch is rounded to one decimal. *)
Lemma length_decay_is_rounded :
  Py.strip (many_words 500) = many_words 500
  /\ _count_words (many_words 500) = 501
  /\ exists d,
       _score_length (many_words 500) = Ok d
       /\ (DimensionScore.score d == 7)%Q
       /\ (length_score_stated (fun x => x) 501 == 6.995)%Q
       /\ length_score_stated Py.double 501 = Py.double 6.995
       /\ ~ (DimensionScore.score d == length_score_stated (fun x => x) 501)%Q
       /\ ~ (DimensionScore.score d == length_score_stated Py.double 501)%Q.
Proof.
  split; [vm_compute; reflexivity|]. split; [vm_compute; reflexivity|].
  eexists. split; [vm_compute; reflexivity|].
  split; [reflexivity|]. split; [reflexivity|].
  split; [vm_compute; reflexivity|].
  split; intro H; vm_compute in H; discriminate H.
Qed.

(** C7, amended.  For every text with word count w, the Length score is
    2.0 if w < 5; 4.0 if 5 <= w < 10; 6.0 if 10 <= w < 20;
    8.0 + min(2.0, (w - 20)/140) if 20 <= w <= 300; 7.0 if
    301 <= w <= 500; and max(3.0, 7.0 - (w - 500)/200) if w > 500, where
    the quotient, the sum and the difference are each rounded to a double
    and the result of every branch is rounded to one decimal.  The score
    differs from the exact value of the formula by at most 0.05 and the
    rounding errors of the arithmetic.  In every branch the details string
    starts with the decimal word count. *)
Theorem score_length_piecewise (text : string) :
  exists d,
    _score_length text = Ok d
    /\ DimensionScore.name d = "Length"
    /\ (DimensionScore.score d == length_score_rounded (_count_words text))%Q
    /\ (length_exact (_count_words text) - (1 # 20) - 2 * float_error
        <= DimensionScore.score d)%Q
    /\ (DimensionScore.score d
        <= length_exact (_count_words text) + (1 # 20) + 2 * float_error)%Q
    /\ exists rest,
         DimensionScore.details d = Py.str_of_int (_count_words text) ++ rest.
Proof.
  destruct (_score_length_value text) as [suffix H].
  eexists. split; [exact H|]. split; [reflexivity|]. split.
  { apply length_score_rounded_correct. }
  cbn [DimensionScore.score DimensionScore.make].
  destruct (length_score_error (_count_words text)) as [E1 E2].
  split; [exact E1|]. split; [exact E2|].
  exists suffix. reflexivity.
Qed.

(** C8. The multiple_requests anti-pattern is detected if and only if the
    distinct-task estimate of the text is at least 3.  The estimate is the
    number of positions where a task verb begins a clause (after the start
    of the text, sentence-ending punctuation followed by whitespace, or a
    newline, each optionally followed by a transition phrase), plus the
    number of '?' characters in the text.  When detected, the evidence
    string embeds that count. *)
Theorem multiple_requests_iff (text text_lower : string) :
  let detected := _detect_anti_patterns text text_lower in
  let n := _count_distinct_tasks text in
  (exists positions : list nat,
      NoDup positions
      /\ (forall i, In i positions <-> clause_verb_at text i)
      /\ n = Z.of_nat (List.length positions) + Py.count "?" text)
  /\ (In "multiple_requests" (map pattern_id detected) <-> 3 <= n)
  /\ (forall d, In d detected -> pattern_id d = "multiple_requests" ->
        DetectedAntiPattern.pattern d = MULTIPLE_REQUESTS
        /\ DetectedAntiPattern.evidence d
           = "Detected ~" ++ Py.str_of_int n ++ " distinct tasks/requests").
Proof.
  cbv zeta. split.
  { destruct (count_clause_verbs text) as (l & ND & In_l & Len).
    exists l. split; [exact ND|]. split; [exact In_l|].
    unfold _count_distinct_tasks. cbv zeta. now rewrite Len. }
  split.
  - rewrite in_map_iff. split.
    + intros (d & Hid & Hin). apply in_detect_in in Hin.
      destruct Hin as (ap & e & Hap & Hc & ->).
      unfold pattern_id in Hid. simpl in Hid.
      apply multiple_requests_unique in Hid; [|exact Hap]. subst ap.
      rewrite check_multiple_requests in Hc.
      destruct (_count_distinct_tasks text >=? 3) eqn:E; [|discriminate].
      lia.
    + intro H. eexists. split; [|apply in_detect_in].
      2:{ exists MULTIPLE_REQUESTS. eexists. split; [|split; [|reflexivity]].
          - unfold ALL_PATTERNS. simpl. tauto.
          - rewrite check_multiple_requests.
            destruct (_count_distinct_tasks text >=? 3) eqn:E;
              [reflexivity|lia]. }
      reflexivity.
  - intros d Hin Hid. apply in_detect_in in Hin.
    destruct Hin as (ap & e & Hap & Hc & ->).
    unfold pattern_id in Hid. simpl in Hid.
    apply multiple_requests_unique in Hid; [|exact Hap]. subst ap.
    rewrite check_multiple_requests in Hc.
    destruct (_count_distinct_tasks text >=? 3); [|discriminate].
    injection Hc as <-. split; reflexivity.
Qed.

(** C9. For every list of detected anti-patterns, the suggestion composer
    orders them by severity, High (0) before Medium (1) before Low (2),
    unknown severity values ranking last (3), with a stable sort, so that
    detection order breaks ties; it then appends each pattern's suggestion
    string exactly once, deduplicated by pattern id (nothing is dropped
    when the ids are distinct, as the detector's are). *)
Theorem suggestions_by_severity (dimensions : list DimensionScore.t)
  (anti_patterns : list DetectedAntiPattern.t) :
  let sorted_patterns := sorted severity_key anti_patterns in
  (forall d,
      severity_key d
      = match AntiPattern.severity (DetectedAntiPattern.pattern d) with
        | Severity.HIGH => 0
        | Severity.MEDIUM => 1
        | Severity.LOW => 2
        end)
  /\ (forall v : string,
        v <> "high" -> v <> "medium" -> v <> "low" ->
        dict_get severity_order v 3 = 3)
  /\ Permutation anti_patterns sorted_patterns
  /\ StronglySorted (key_le severity_key) sorted_patterns
  /\ (forall k,
        filter (fun d => severity_key d =? k) sorted_patterns
        = filter (fun d => severity_key d =? k) anti_patterns)
  /\ (exists extra,
        _generate_suggestions dimensions anti_patterns
        = (map pattern_suggestion (first_by_id sorted_patterns) ++ extra)%list
        /\ (anti_patterns <> [] -> extra = []))
  /\ NoDup (map pattern_id (first_by_id sorted_patterns))
  /\ (forall d,
        In d anti_patterns ->
        In (pattern_id d) (map pattern_id (first_by_id sorted_patterns)))
  /\ (NoDup (map pattern_id anti_patterns) ->
      first_by_id sorted_patterns = sorted_patterns).
Proof.
  cbv zeta. split.
  { intro d. unfold severity_key.
    destruct (AntiPattern.severity (DetectedAntiPattern.pattern d)); reflexivity. }
  split.
  { intros v H1 H2 H3. unfold severity_order. cbn [dict_get].
    apply not_eq_sym, String.eqb_neq in H1, H2, H3.
    now rewrite H1, H2, H3. }
  split; [apply sorted_perm|].
  split; [apply sorted_sorted|].
  split; [intro k; apply sorted_stable|].
  split.
  { rewrite _generate_suggestions_eq.
    pose proof (base_nil anti_patterns) as BN.
    destruct (map pattern_suggestion
                (first_by_id (sorted severity_key anti_patterns)))
      as [|s0 base].
    - destruct (filter is_low dimensions);
        eexists; (split; [reflexivity|]); intro NE; exfalso; apply NE;
        apply BN; reflexivity.
    - exists []. rewrite app_nil_r.
      split; [destruct (filter is_low dimensions); reflexivity|reflexivity]. }
  split; [apply first_by_id_NoDup|].
  split.
  { intros d Hd. apply first_by_id_covers.
    apply (Permutation_in _ (sorted_perm severity_key anti_patterns)), Hd. }
  intro ND. apply first_by_id_distinct.
  eapply Permutation_NoDup; [|exact ND].
  apply Permutation_map, sorted_perm.
Qed.

(** C10. For every input string, every detected anti-pattern of the
    result carries a non-empty evidence string: a fixed descriptive message
    for the absence-based patterns, a message embedding the task count for
    multiple_requests, or a 'Matched: ...' or 'Contains: ...' string for
    the generic signal and keyword patterns. *)
Theorem evidence_never_empty (prompt : string) :
  exists r,
    analyze prompt = Ok r
    /\ Forall
         (fun d =>
            DetectedAntiPattern.evidence d <> ""
            /\ evidence_form (Py.strip prompt) (DetectedAntiPattern.evidence d))
         (AnalysisResult.anti_patterns r).
Proof.
  destruct (analyze_cases prompt) as [[E H]|(NE & l & _ & H)];
    eexists; (split; [exact H|]).
  - constructor.
  - unfold full_result. cbv zeta. cbn [AnalysisResult.anti_patterns].
    eapply Forall_impl;
      [|apply (detect_in_evidence (Py.strip prompt) (Py.lower (Py.strip prompt)))].
    intros d F. split; [|exact F].
    eapply evidence_form_nonempty, F.
Qed.
